(** * Pentagon back office: stock accounting, orders and access rules

    A shallow embedding of the Flask/SQLAlchemy backend
    ([pentagon_backend/src/models] and [pentagon_backend/src/routes]).

    - Python [int] is [Z]; Python [float] (and every [db.Float] column) is
      the kernel's binary64 [float], so [2 * 140.0 + 1 * 100.0] evaluates
      exactly as the interpreter evaluates it.
    - A table is the list of its rows in insertion order; the database is
      the record of its tables.  A request handler is a function from the
      committed database (and the clock) to the database it leaves behind
      and its HTTP response.  [db.session] is modelled by the pair of the
      committed tables and the working tables of the open transaction.
    - A raised exception is a value of [Py.result]; the handlers' blanket
      [except Exception] clauses catch it exactly where the source does.
    - A handler is modelled from the point where [token_required] has
      resolved the bearer token to [current_user].  Request bodies are
      records of optional fields, one per JSON key the handler reads,
      each holding a value of the type the column expects.
    - [token_required] is modelled apart, as the function that takes
      the identity of a verified token to the handler's [current_user]
      or to its 401 refusal; prices in the bodies of the product
      handlers are JSON numbers, integers or floats. *)

From Stdlib Require Import ZArith List String Bool Lia.
From Stdlib Require Import Floats.
From Stdlib Require Import Permutation Sorted.
Import ListNotations.
Open Scope string_scope.
Open Scope list_scope.
Open Scope Z_scope.

(** ** Python primitives *)

Module Py.

Inductive exn : Set :=
| OverflowError.

Inductive result (A : Type) : Type :=
| Ok (a : A)
| Raise (e : exn).
Arguments Ok {A} a.
Arguments Raise {A} e.

Definition bind {A B : Type} (m : result A) (k : A -> result B) : result B :=
  match m with
  | Ok a => k a
  | Raise e => Raise e
  end.

(** [float(n)] for an [int] [n]: round to nearest, ties to even, and
    [OverflowError: int too large to convert to float] once the rounded
    magnitude would reach [2^1024]. *)
Definition float_overflow_bound : Z := 2 ^ 1024 - 2 ^ 970.

Definition nearest_float (n : Z) : float :=
  SF2Prim (binary_normalize prec emax n 0 false).

Definition float_of_int (n : Z) : result float :=
  if Z.abs n <? float_overflow_bound
  then Ok (nearest_float n)
  else Raise OverflowError.

(** [n * x] with [n : int] and [x : float]: the integer operand is
    converted first, then the floats are multiplied. *)
Definition int_mul_float (n : Z) (x : float) : result float :=
  bind (float_of_int n) (fun f => Ok (PrimFloat.mul f x)).

(** [datetime.date]: compared chronologically, field by field. *)
Record date : Set := mkdate { year : Z; month : Z; day : Z }.

Definition date_eqb (a b : date) : bool :=
  (year a =? year b) && (month a =? month b) && (day a =? day b).

Definition date_ltb (a b : date) : bool :=
  (year a <? year b)
  || ((year a =? year b)
      && ((month a <? month b)
          || ((month a =? month b) && (day a <? day b)))).

Definition date_leb (a b : date) : bool := negb (date_ltb b a).

(** [datetime.datetime], as a count of microseconds. *)
Definition datetime : Set := Z.

End Py.

Notation "x <- m ;; k" := (Py.bind m (fun x => k))
  (at level 61, m at next level, right associativity).

(** The width of a [db.Integer] column in the SQLite file that [main.py]
    configures: a signed 64-bit integer. *)
Definition db_integer (n : Z) : Prop := - 2 ^ 63 <= n < 2 ^ 63.

(** ** models/inventory.py *)

Module Inventory.

Record t : Set := mk {
  id : Z;
  product_id : Z;
  date : Py.date;
  opening_pieces : Z;
  lifting_pieces : Z;
  lifting_price : float;
  return_market_pieces : Z;
  return_market_price : float;
  return_office_pieces : Z;
  return_office_price : float;
  total_stock : Z;
  ims_pieces : Z;
  ims_value : float;
  present_stock : Z;
  closing_value : float;
  created_at : Py.datetime;
  updated_at : Py.datetime
}.

(** Attribute assignments [self.f = v]. *)
Definition set_opening_pieces (v : Z) (r : t) : t :=
  mk (id r) (product_id r) (date r) v (lifting_pieces r)
     (lifting_price r) (return_market_pieces r) (return_market_price r)
     (return_office_pieces r) (return_office_price r) (total_stock r)
     (ims_pieces r) (ims_value r) (present_stock r) (closing_value r)
     (created_at r) (updated_at r).

Definition set_lifting_pieces (v : Z) (r : t) : t :=
  mk (id r) (product_id r) (date r) (opening_pieces r) v
     (lifting_price r) (return_market_pieces r) (return_market_price r)
     (return_office_pieces r) (return_office_price r) (total_stock r)
     (ims_pieces r) (ims_value r) (present_stock r) (closing_value r)
     (created_at r) (updated_at r).

Definition set_lifting_price (v : float) (r : t) : t :=
  mk (id r) (product_id r) (date r) (opening_pieces r) (lifting_pieces r)
     v (return_market_pieces r) (return_market_price r)
     (return_office_pieces r) (return_office_price r) (total_stock r)
     (ims_pieces r) (ims_value r) (present_stock r) (closing_value r)
     (created_at r) (updated_at r).

Definition set_return_market_pieces (v : Z) (r : t) : t :=
  mk (id r) (product_id r) (date r) (opening_pieces r) (lifting_pieces r)
     (lifting_price r) v (return_market_price r)
     (return_office_pieces r) (return_office_price r) (total_stock r)
     (ims_pieces r) (ims_value r) (present_stock r) (closing_value r)
     (created_at r) (updated_at r).

Definition set_return_market_price (v : float) (r : t) : t :=
  mk (id r) (product_id r) (date r) (opening_pieces r) (lifting_pieces r)
     (lifting_price r) (return_market_pieces r) v
     (return_office_pieces r) (return_office_price r) (total_stock r)
     (ims_pieces r) (ims_value r) (present_stock r) (closing_value r)
     (created_at r) (updated_at r).

Definition set_return_office_pieces (v : Z) (r : t) : t :=
  mk (id r) (product_id r) (date r) (opening_pieces r) (lifting_pieces r)
     (lifting_price r) (return_market_pieces r) (return_market_price r)
     v (return_office_price r) (total_stock r)
     (ims_pieces r) (ims_value r) (present_stock r) (closing_value r)
     (created_at r) (updated_at r).

Definition set_return_office_price (v : float) (r : t) : t :=
  mk (id r) (product_id r) (date r) (opening_pieces r) (lifting_pieces r)
     (lifting_price r) (return_market_pieces r) (return_market_price r)
     (return_office_pieces r) v (total_stock r)
     (ims_pieces r) (ims_value r) (present_stock r) (closing_value r)
     (created_at r) (updated_at r).

Definition set_total_stock (v : Z) (r : t) : t :=
  mk (id r) (product_id r) (date r) (opening_pieces r) (lifting_pieces r)
     (lifting_price r) (return_market_pieces r) (return_market_price r)
     (return_office_pieces r) (return_office_price r) v
     (ims_pieces r) (ims_value r) (present_stock r) (closing_value r)
     (created_at r) (updated_at r).

Definition set_ims_pieces (v : Z) (r : t) : t :=
  mk (id r) (product_id r) (date r) (opening_pieces r) (lifting_pieces r)
     (lifting_price r) (return_market_pieces r) (return_market_price r)
     (return_office_pieces r) (return_office_price r) (total_stock r)
     v (ims_value r) (present_stock r) (closing_value r)
     (created_at r) (updated_at r).

Definition set_ims_value (v : float) (r : t) : t :=
  mk (id r) (product_id r) (date r) (opening_pieces r) (lifting_pieces r)
     (lifting_price r) (return_market_pieces r) (return_market_price r)
     (return_office_pieces r) (return_office_price r) (total_stock r)
     (ims_pieces r) v (present_stock r) (closing_value r)
     (created_at r) (updated_at r).

Definition set_present_stock (v : Z) (r : t) : t :=
  mk (id r) (product_id r) (date r) (opening_pieces r) (lifting_pieces r)
     (lifting_price r) (return_market_pieces r) (return_market_price r)
     (return_office_pieces r) (return_office_price r) (total_stock r)
     (ims_pieces r) (ims_value r) v (closing_value r)
     (created_at r) (updated_at r).

Definition set_closing_value (v : float) (r : t) : t :=
  mk (id r) (product_id r) (date r) (opening_pieces r) (lifting_pieces r)
     (lifting_price r) (return_market_pieces r) (return_market_price r)
     (return_office_pieces r) (return_office_price r) (total_stock r)
     (ims_pieces r) (ims_value r) (present_stock r) v
     (created_at r) (updated_at r).

Definition set_updated_at (v : Py.datetime) (r : t) : t :=
  mk (id r) (product_id r) (date r) (opening_pieces r) (lifting_pieces r)
     (lifting_price r) (return_market_pieces r) (return_market_price r)
     (return_office_pieces r) (return_office_price r) (total_stock r)
     (ims_pieces r) (ims_value r) (present_stock r) (closing_value r)
     (created_at r) v.

(** The literal [140.0] of [calculate_totals]. *)
Definition reference_unit_price : float := 140%float.

(** [Inventory.calculate_totals]: three assignments in sequence; the
    last one multiplies an [int] by a [float]. *)
Definition calculate_totals (self : t) : Py.result t :=
  let self :=
    set_total_stock
      (opening_pieces self + return_market_pieces self
       + return_office_pieces self - lifting_pieces self) self in
  let self := set_present_stock (total_stock self) self in
  v <- Py.int_mul_float (present_stock self) reference_unit_price ;;
  Py.Ok (set_closing_value v self).

(** [Inventory.query.get(id)]. *)
Definition get (query : list t) (key : Z) : option t :=
  find (fun r => id r =? key) query.

(** [Inventory.query.filter_by(product_id=...)]. *)
Definition filter_by_product_id (pid : Z) (query : list t) : list t :=
  filter (fun r => product_id r =? pid) query.

(** [.order_by(Inventory.date.desc())]: a stable sort, latest date
    first. *)
Fixpoint insert_date_desc (r : t) (l : list t) : list t :=
  match l with
  | [] => [r]
  | r' :: l' =>
      if Py.date_ltb (date r) (date r')
      then r' :: insert_date_desc r l'
      else r :: l
  end.

Definition order_by_date_desc (query : list t) : list t :=
  fold_right insert_date_desc [] query.

(** [.first()]. *)
Definition first (query : list t) : option t := hd_error query.

(** [Inventory.get_current_stock]: a row object is always truthy, so
    the [else] branch is the empty-result case. *)
Definition get_current_stock (query : list t) (pid : Z) : Z :=
  match first (order_by_date_desc (filter_by_product_id pid query)) with
  | Some latest_in_tableventory => present_stock latest_in_tableventory
  | None => 0
  end.

End Inventory.

(** ** models/product.py *)

Module Product.

Record t : Set := mk {
  id : Z;
  item_name : string;
  size : option string;
  trade_price : float;
  return_price_market : float;
  return_price_office : float;
  category : option string;
  description : option string;
  is_active : bool;
  created_at : Py.datetime;
  updated_at : Py.datetime
}.

(** [Product.query.get(id)]. *)
Definition get (query : list t) (key : Z) : option t :=
  find (fun p => id p =? key) query.

End Product.

(** ** models/user.py *)

Module User.

Record t : Set := mk {
  id : Z;
  username : string;
  email : string;
  password_hash : string;
  full_name : string;
  phone : option string;
  role : string;
  is_active : bool;
  created_at : Py.datetime;
  updated_at : Py.datetime;
  last_login : option Py.datetime
}.

Definition is_admin (self : t) : bool := String.eqb (role self) "admin".

Definition is_sales (self : t) : bool := String.eqb (role self) "sales".

Definition get (query : list t) (key : Z) : option t :=
  find (fun u => id u =? key) query.

(** [User.query.filter_by(username=...).first()] and its [email]
    twin. *)
Definition first_by_username (query : list t) (name : string) : option t :=
  find (fun u => String.eqb (username u) name) query.

Definition first_by_email (query : list t) (addr : string) : option t :=
  find (fun u => String.eqb (email u) addr) query.

End User.

(** ** models/order.py *)

Module Order.

Record t : Set := mk {
  id : Z;
  sales_person_id : Z;
  customer_name : string;
  customer_phone : option string;
  customer_address : option string;
  delivery_area : string;
  status : string;
  total_value : float;
  order_date : Py.datetime;
  delivery_date : option Py.datetime;
  notes : option string;
  created_at : Py.datetime;
  updated_at : Py.datetime
}.

Definition set_status (v : string) (o : t) : t :=
  mk (id o) (sales_person_id o) (customer_name o) (customer_phone o)
     (customer_address o) (delivery_area o) v (total_value o)
     (order_date o) (delivery_date o) (notes o) (created_at o)
     (updated_at o).

Definition set_total_value (v : float) (o : t) : t :=
  mk (id o) (sales_person_id o) (customer_name o) (customer_phone o)
     (customer_address o) (delivery_area o) (status o) v
     (order_date o) (delivery_date o) (notes o) (created_at o)
     (updated_at o).

Definition set_delivery_date (v : option Py.datetime) (o : t) : t :=
  mk (id o) (sales_person_id o) (customer_name o) (customer_phone o)
     (customer_address o) (delivery_area o) (status o) (total_value o)
     (order_date o) v (notes o) (created_at o) (updated_at o).

Definition set_updated_at (v : Py.datetime) (o : t) : t :=
  mk (id o) (sales_person_id o) (customer_name o) (customer_phone o)
     (customer_address o) (delivery_area o) (status o) (total_value o)
     (order_date o) (delivery_date o) (notes o) (created_at o) v.

Definition get (query : list t) (key : Z) : option t :=
  find (fun o => id o =? key) query.

End Order.

Module OrderItem.

Record t : Set := mk {
  id : Z;
  order_id : Z;
  product_id : Z;
  quantity : Z;
  unit_price : float;
  total_price : float;
  created_at : Py.datetime
}.

Definition set_total_price (v : float) (i : t) : t :=
  mk (id i) (order_id i) (product_id i) (quantity i) (unit_price i) v
     (created_at i).

(** [OrderItem.calculate_total_price]: [int * float]. *)
Definition calculate_total_price (self : t) : Py.result t :=
  v <- Py.int_mul_float (quantity self) (unit_price self) ;;
  Py.Ok (set_total_price v self).

(** [OrderItem.query.filter_by(order_id=...).all()]. *)
Definition filter_by_order_id (oid : Z) (query : list t) : list t :=
  filter (fun i => order_id i =? oid) query.

End OrderItem.

(** ** The database and its session *)

Record DB : Set := mkDB {
  users : list User.t;
  products : list Product.t;
  inventory : list Inventory.t;
  orders : list Order.t;
  order_items : list OrderItem.t
}.

(** The primary key SQLite gives the next inserted row: one more than
    the largest key of the table, [1] for an empty table. *)
Definition next_id (keys : list Z) : Z := 1 + fold_right Z.max 0 keys.
Arguments next_id : simpl never.

(** [db.session]: the committed tables, and the tables as the open
    transaction sees them.  Every handler starts from [begin]; what it
    leaves in [committed] is what the next request finds. *)
Record session : Set := mkSession { committed : DB; working : DB }.

Definition begin (db : DB) : session := mkSession db db.

Definition commit (s : session) : session :=
  mkSession (working s) (working s).

Definition rollback (s : session) : session :=
  mkSession (committed s) (committed s).

Definition with_working (f : DB -> DB) (s : session) : session :=
  mkSession (committed s) (f (working s)).

(** [db.session.add(row)] followed by the flush that inserts it. *)
Definition add_user (u : User.t) (d : DB) : DB :=
  mkDB (users d ++ [u]) (products d) (inventory d) (orders d)
       (order_items d).

Definition add_inventory (r : Inventory.t) (d : DB) : DB :=
  mkDB (users d) (products d) (inventory d ++ [r]) (orders d)
       (order_items d).

Definition add_order (o : Order.t) (d : DB) : DB :=
  mkDB (users d) (products d) (inventory d) (orders d ++ [o])
       (order_items d).

Definition add_order_item (i : OrderItem.t) (d : DB) : DB :=
  mkDB (users d) (products d) (inventory d) (orders d)
       (order_items d ++ [i]).

(** The UPDATE a flush issues for a row object fetched with
    [query.get(key)] and then assigned to: the row with that key is
    replaced. *)
Fixpoint replace_first {A : Type} (p : A -> bool) (new : A) (l : list A)
  : list A :=
  match l with
  | [] => []
  | x :: l' => if p x then new :: l' else x :: replace_first p new l'
  end.

Definition update_order (o : Order.t) (d : DB) : DB :=
  mkDB (users d) (products d) (inventory d)
       (replace_first (fun x => Order.id x =? Order.id o) o (orders d))
       (order_items d).

Definition update_inventory (r : Inventory.t) (d : DB) : DB :=
  mkDB (users d) (products d)
       (replace_first (fun x => Inventory.id x =? Inventory.id r) r
                      (inventory d))
       (orders d) (order_items d).

(** ** HTTP responses *)

(** The [message] of a response body; the values interpolated by the
    source's f-strings are the constructor's arguments. *)
Inductive message : Set :=
| NoDataProvided
| MissingRequiredField (field : string)
| OrderMustContainItem
| ItemMustHaveProductAndQuantity
| ProductNotFoundOrInactive (product_id : Z)
| InsufficientStock (item_name : string) (available requested : Z)
| OrderCreated
| ErrorCreatingOrder (e : Py.exn)
| OrderNotFound
| ViewOwnOrdersOnly
| OrderRetrieved
| UpdateOwnOrdersOnly
| StatusRequired
| InvalidStatus (valid : list string)
| OrderStatusUpdated (old_status new_status : string)
| UsernameExists
| EmailExists
| UserRegistered
| OnlyAdminCreateInventory
| OnlyAdminUpdateInventory
| ProductNotFound
| InvalidDateFormat
| InventoryExists (date : Py.date)
| InventoryCreated
| ErrorCreatingInventory (e : Py.exn)
| InventoryNotFound
| InventoryUpdated
| ErrorUpdatingInventory (e : Py.exn).

(** [jsonify({'success': ..., 'message': ..., 'data': ...}), status]. *)
Record response (A : Type) : Type := mkResponse {
  status_code : Z;
  success : bool;
  msg : message;
  data : option A
}.
Arguments mkResponse {A} _ _ _ _.
Arguments status_code {A} _.
Arguments success {A} _.
Arguments msg {A} _.
Arguments data {A} _.

Definition failure {A : Type} (code : Z) (m : message) : response A :=
  mkResponse code false m None.

Definition ok_response {A : Type} (code : Z) (m : message) (d : A)
  : response A :=
  mkResponse code true m (Some d).

(** ** routes/order.py *)

(** The JSON bodies of the order endpoints: a key that is absent from
    the object is [None]. *)
Module ItemData.

Record t : Set := mk {
  product_id : option Z;
  quantity : option Z
}.

End ItemData.

Module OrderData.

Record t : Set := mk {
  customer_name : option string;
  customer_phone : option string;
  customer_address : option string;
  delivery_area : option string;
  notes : option string;
  items : option (list ItemData.t)
}.

(** [not data] for a parsed object: the empty dictionary. *)
Definition is_empty (d : t) : bool :=
  match customer_name d, customer_phone d, customer_address d,
        delivery_area d, notes d, items d with
  | None, None, None, None, None, None => true
  | _, _, _, _, _, _ => false
  end.

End OrderData.

Module StatusData.

Record t : Set := mk { status : option string }.

End StatusData.

(** [data.get(key, default)]. *)
Definition get_default {A : Type} (v : option A) (default : A) : A :=
  match v with
  | Some a => a
  | None => default
  end.

Definition order_payload : Set := (Order.t * list OrderItem.t)%type.

(** How the [for item_data in data['items']] loop of [create_order] is
    left: by one of its [return] statements, or by running off the end
    with the accumulated [total_value] and [order_items]. *)
Inductive loop_exit : Type :=
| Return (r : response order_payload)
| Completed (total_value : float) (order_items : list OrderItem.t).

(** The loop body, iterated.  [order_id] is [order.id] after the flush;
    the session is threaded so that a raised exception leaves it as it
    was at the raising statement. *)
Fixpoint process_items (utcnow : Py.datetime) (order_id : Z)
    (items : list ItemData.t) (s : session) (total_value : float)
    (order_items_acc : list OrderItem.t)
  : session * Py.result loop_exit :=
  match items with
  | [] => (s, Py.Ok (Completed total_value order_items_acc))
  | item_data :: rest =>
      match ItemData.product_id item_data, ItemData.quantity item_data with
      | Some pid, Some qty =>
          match Product.get (products (working s)) pid with
          | Some product =>
              if Product.is_active product then
                let current_stock :=
                  Inventory.get_current_stock (inventory (working s))
                                              (Product.id product) in
                if current_stock <? qty then
                  (rollback s,
                   Py.Ok (Return (failure 400
                     (InsufficientStock (Product.item_name product)
                                        current_stock qty))))
                else
                  let order_item :=
                    OrderItem.mk
                      (next_id (map OrderItem.id (order_items (working s))))
                      order_id (Product.id product) qty
                      (Product.trade_price product) 0%float utcnow in
                  match OrderItem.calculate_total_price order_item with
                  | Py.Raise e => (s, Py.Raise e)
                  | Py.Ok order_item =>
                      process_items utcnow order_id rest
                        (with_working (add_order_item order_item) s)
                        (PrimFloat.add total_value
                                       (OrderItem.total_price order_item))
                        (order_items_acc ++ [order_item])
                  end
              else
                (rollback s,
                 Py.Ok (Return (failure 400 (ProductNotFoundOrInactive pid))))
          | None =>
              (rollback s,
               Py.Ok (Return (failure 400 (ProductNotFoundOrInactive pid))))
          end
      | _, _ =>
          (rollback s,
           Py.Ok (Return (failure 400 ItemMustHaveProductAndQuantity)))
      end
  end.

(** [POST /orders].  [total_value] starts as the integer [0]; the first
    [+=] adds a [float] to it, which is [0.0 + x]. *)
Definition create_order (db : DB) (utcnow : Py.datetime)
    (current_user : User.t) (data : option OrderData.t)
  : DB * response order_payload :=
  let s := begin db in
  match data with
  | None => (committed s, failure 400 NoDataProvided)
  | Some data =>
  if OrderData.is_empty data
  then (committed s, failure 400 NoDataProvided) else
  match OrderData.customer_name data with
  | None => (committed s, failure 400 (MissingRequiredField "customer_name"))
  | Some customer_name =>
  match OrderData.delivery_area data with
  | None => (committed s, failure 400 (MissingRequiredField "delivery_area"))
  | Some delivery_area =>
  match OrderData.items data with
  | None => (committed s, failure 400 (MissingRequiredField "items"))
  | Some [] => (committed s, failure 400 OrderMustContainItem)
  | Some items =>
      let order :=
        Order.mk (next_id (map Order.id (orders (working s))))
                 (User.id current_user) customer_name
                 (Some (get_default (OrderData.customer_phone data) ""))
                 (Some (get_default (OrderData.customer_address data) ""))
                 delivery_area "pending" 0%float utcnow None
                 (Some (get_default (OrderData.notes data) ""))
                 utcnow utcnow in
      let s := with_working (add_order order) s in
      match process_items utcnow (Order.id order) items s 0%float [] with
      | (s, Py.Ok (Return r)) => (committed s, r)
      | (s, Py.Ok (Completed total_value order_items)) =>
          let order := Order.set_total_value total_value order in
          let s := with_working (update_order order) s in
          let s := commit s in
          (committed s, ok_response 201 OrderCreated (order, order_items))
      | (s, Py.Raise e) =>
          let s := rollback s in
          (committed s, failure 500 (ErrorCreatingOrder e))
      end
  end end end end.

(** The body of [GET /orders/<id>]. *)
Record order_detail : Set := mkDetail {
  detail_order : Order.t;
  detail_items : list (OrderItem.t * option Product.t);
  detail_sales_person : option (Z * string * string)
}.

Definition get_order (db : DB) (current_user : User.t) (order_id : Z)
  : response order_detail :=
  match Order.get (orders db) order_id with
  | None => failure 404 OrderNotFound
  | Some order =>
      if User.is_sales current_user
         && negb (Order.sales_person_id order =? User.id current_user)
      then failure 403 ViewOwnOrdersOnly
      else
        let order_items :=
          OrderItem.filter_by_order_id (Order.id order) (order_items db) in
        let items :=
          map (fun item =>
                 (item, Product.get (products db)
                                    (OrderItem.product_id item)))
              order_items in
        let sales_person :=
          match User.get (users db) (Order.sales_person_id order) with
          | Some u => Some (User.id u, User.username u, User.full_name u)
          | None => None
          end in
        ok_response 200 OrderRetrieved (mkDetail order items sales_person)
  end.

Definition valid_statuses : list string :=
  ["pending"; "processing"; "delivered"; "cancelled"; "due"].

(** [PUT /orders/<id>/status]; [utcnow] and [utcnow'] are the two
    successive readings of the clock. *)
Definition update_order_status (db : DB) (utcnow utcnow' : Py.datetime)
    (current_user : User.t) (order_id : Z) (data : option StatusData.t)
  : DB * response Order.t :=
  let s := begin db in
  match Order.get (orders (working s)) order_id with
  | None => (committed s, failure 404 OrderNotFound)
  | Some order =>
      if User.is_sales current_user
         && negb (Order.sales_person_id order =? User.id current_user)
      then (committed s, failure 403 UpdateOwnOrdersOnly)
      else
        match data with
        | Some (StatusData.mk (Some new_status)) =>
            if negb (existsb (String.eqb new_status) valid_statuses)
            then (committed s, failure 400 (InvalidStatus valid_statuses))
            else
              let old_status := Order.status order in
              let order := Order.set_status new_status order in
              let order := Order.set_updated_at utcnow order in
              let order :=
                if String.eqb new_status "delivered"
                   && negb (String.eqb old_status "delivered")
                then Order.set_delivery_date (Some utcnow') order
                else order in
              let s := with_working (update_order order) s in
              let s := commit s in
              (committed s,
               ok_response 200 (OrderStatusUpdated old_status new_status)
                           order)
        | _ => (committed s, failure 400 StatusRequired)
        end
  end.

(** ** routes/auth.py *)

Module RegisterData.

(** The keys [register] reads, and [role], which a client may send
    and [register] never looks at. *)
Record t : Set := mk {
  username : option string;
  email : option string;
  password : option string;
  full_name : option string;
  phone : option string;
  role : option string
}.

Definition is_empty (d : t) : bool :=
  match username d, email d, password d, full_name d, phone d, role d with
  | None, None, None, None, None, None => true
  | _, _, _, _, _, _ => false
  end.

(** The same body with another value, or none, under the key [role]. *)
Definition with_role (r : option string) (d : t) : t :=
  mk (username d) (email d) (password d) (full_name d) (phone d) r.

End RegisterData.

Section Auth.

(** [str.strip] and werkzeug's [generate_password_hash] are the
    interpreter's and the library's. *)
Variable strip : string -> string.
Variable generate_password_hash : string -> string.

(** [field not in data or not data[field].strip()]. *)
Definition missing_or_blank (v : option string) : bool :=
  match v with
  | None => true
  | Some text => String.eqb (strip text) ""
  end.

(** [POST /register]. *)
Definition register (db : DB) (utcnow : Py.datetime)
    (data : option RegisterData.t) : DB * response User.t :=
  let s := begin db in
  match data with
  | None => (committed s, failure 400 NoDataProvided)
  | Some data =>
  if RegisterData.is_empty data
  then (committed s, failure 400 NoDataProvided)
  else if missing_or_blank (RegisterData.username data)
  then (committed s, failure 400 (MissingRequiredField "username"))
  else if missing_or_blank (RegisterData.email data)
  then (committed s, failure 400 (MissingRequiredField "email"))
  else if missing_or_blank (RegisterData.password data)
  then (committed s, failure 400 (MissingRequiredField "password"))
  else if missing_or_blank (RegisterData.full_name data)
  then (committed s, failure 400 (MissingRequiredField "full_name"))
  else
    let username := strip (get_default (RegisterData.username data) "") in
    let email := strip (get_default (RegisterData.email data) "") in
    match User.first_by_username (users (working s)) username with
    | Some _ => (committed s, failure 400 UsernameExists)
    | None =>
    match User.first_by_email (users (working s)) email with
    | Some _ => (committed s, failure 400 EmailExists)
    | None =>
        let user :=
          User.mk (next_id (map User.id (users (working s))))
                  username email
                  (generate_password_hash
                     (get_default (RegisterData.password data) ""))
                  (strip (get_default (RegisterData.full_name data) ""))
                  (Some (strip (get_default (RegisterData.phone data) "")))
                  "sales" true utcnow utcnow None in
        let s := with_working (add_user user) s in
        let s := commit s in
        (committed s, ok_response 201 UserRegistered user)
    end end
  end.

End Auth.

(** ** routes/inventory.py *)

Module InventoryData.

Record t : Set := mk {
  product_id : option Z;
  date : option string;
  opening_pieces : option Z;
  lifting_pieces : option Z;
  lifting_price : option float;
  return_market_pieces : option Z;
  return_market_price : option float;
  return_office_pieces : option Z;
  return_office_price : option float;
  ims_pieces : option Z;
  ims_value : option float
}.

Definition is_empty (d : t) : bool :=
  match product_id d, date d, opening_pieces d, lifting_pieces d,
        lifting_price d, return_market_pieces d with
  | None, None, None, None, None, None =>
      match return_market_price d, return_office_pieces d,
            return_office_price d, ims_pieces d, ims_value d with
      | None, None, None, None, None => true
      | _, _, _, _, _ => false
      end
  | _, _, _, _, _, _ => false
  end.

End InventoryData.

(** [if key in data: inventory.attr = conv(data[key])], the conversion
    being the identity on a value that already has the column's type. *)
Definition assign_if {A : Type} (v : option A)
    (set : A -> Inventory.t -> Inventory.t) (r : Inventory.t)
  : Inventory.t :=
  match v with
  | Some a => set a r
  | None => r
  end.

Section InventoryRoutes.

(** [datetime.strptime(text, '%Y-%m-%d').date()]; [None] stands for
    the [ValueError] of a malformed date. *)
Variable strptime_date : string -> option Py.date.

(** [Inventory.query.filter_by(product_id=..., date=...).first()]. *)
Definition first_by_product_and_date (query : list Inventory.t)
    (pid : Z) (d : Py.date) : option Inventory.t :=
  find (fun r => (Inventory.product_id r =? pid)
                 && Py.date_eqb (Inventory.date r) d)
       query.

(** [POST /inventory]; [today] is [date.today()]. *)
Definition create_inventory_record (db : DB) (utcnow : Py.datetime)
    (today : Py.date) (current_user : User.t)
    (data : option InventoryData.t) : DB * response Inventory.t :=
  let s := begin db in
  if negb (User.is_admin current_user)
  then (committed s, failure 403 OnlyAdminCreateInventory) else
  match data with
  | None => (committed s, failure 400 NoDataProvided)
  | Some data =>
  if InventoryData.is_empty data
  then (committed s, failure 400 NoDataProvided) else
  match InventoryData.product_id data with
  | None => (committed s, failure 400 (MissingRequiredField "product_id"))
  | Some pid =>
  match Product.get (products (working s)) pid with
  | None => (committed s, failure 404 ProductNotFound)
  | Some _ =>
  match match InventoryData.date data with
        | None => Some today
        | Some text => strptime_date text
        end with
  | None => (committed s, failure 400 InvalidDateFormat)
  | Some inventory_date =>
  match first_by_product_and_date (inventory (working s)) pid
                                  inventory_date with
  | Some _ => (committed s, failure 400 (InventoryExists inventory_date))
  | None =>
      let inventory :=
        Inventory.mk
          (next_id (map Inventory.id (inventory (working s))))
          pid inventory_date
          (get_default (InventoryData.opening_pieces data) 0)
          (get_default (InventoryData.lifting_pieces data) 0)
          (get_default (InventoryData.lifting_price data) 0%float)
          (get_default (InventoryData.return_market_pieces data) 0)
          (get_default (InventoryData.return_market_price data) 0%float)
          (get_default (InventoryData.return_office_pieces data) 0)
          (get_default (InventoryData.return_office_price data) 0%float)
          0
          (get_default (InventoryData.ims_pieces data) 0)
          (get_default (InventoryData.ims_value data) 0%float)
          0 0%float utcnow utcnow in
      match Inventory.calculate_totals inventory with
      | Py.Raise e =>
          let s := rollback s in
          (committed s, failure 500 (ErrorCreatingInventory e))
      | Py.Ok inventory =>
          let s := with_working (add_inventory inventory) s in
          let s := commit s in
          (committed s, ok_response 201 InventoryCreated inventory)
      end
  end end end end end.

(** [PUT /inventory/<id>]. *)
Definition update_inventory_record (db : DB) (utcnow : Py.datetime)
    (current_user : User.t) (inventory_id : Z)
    (data : option InventoryData.t) : DB * response Inventory.t :=
  let s := begin db in
  if negb (User.is_admin current_user)
  then (committed s, failure 403 OnlyAdminUpdateInventory) else
  match Inventory.get (inventory (working s)) inventory_id with
  | None => (committed s, failure 404 InventoryNotFound)
  | Some inventory =>
  match data with
  | None => (committed s, failure 400 NoDataProvided)
  | Some data =>
  if InventoryData.is_empty data
  then (committed s, failure 400 NoDataProvided) else
    let inventory :=
      assign_if (InventoryData.opening_pieces data)
                Inventory.set_opening_pieces inventory in
    let inventory :=
      assign_if (InventoryData.lifting_pieces data)
                Inventory.set_lifting_pieces inventory in
    let inventory :=
      assign_if (InventoryData.lifting_price data)
                Inventory.set_lifting_price inventory in
    let inventory :=
      assign_if (InventoryData.return_market_pieces data)
                Inventory.set_return_market_pieces inventory in
    let inventory :=
      assign_if (InventoryData.return_market_price data)
                Inventory.set_return_market_price inventory in
    let inventory :=
      assign_if (InventoryData.return_office_pieces data)
                Inventory.set_return_office_pieces inventory in
    let inventory :=
      assign_if (InventoryData.return_office_price data)
                Inventory.set_return_office_price inventory in
    let inventory :=
      assign_if (InventoryData.ims_pieces data)
                Inventory.set_ims_pieces inventory in
    let inventory :=
      assign_if (InventoryData.ims_value data)
                Inventory.set_ims_value inventory in
    match Inventory.calculate_totals inventory with
    | Py.Raise e =>
        let s := rollback s in
        (committed s, failure 500 (ErrorUpdatingInventory e))
    | Py.Ok inventory =>
        let inventory := Inventory.set_updated_at utcnow inventory in
        let s := with_working (update_inventory inventory) s in
        let s := commit s in
        (committed s, ok_response 200 InventoryUpdated inventory)
    end
  end end.

End InventoryRoutes.

(** ** Responses with their message text *)

(** [jsonify({'success': ..., 'message': ..., 'data': ...}), status],
    the message being the text the source writes. *)
Record reply (A : Type) : Type := mkReply {
  reply_status : Z;
  reply_success : bool;
  reply_message : string;
  reply_data : option A
}.
Arguments mkReply {A} _ _ _ _.
Arguments reply_status {A} _.
Arguments reply_success {A} _.
Arguments reply_message {A} _.
Arguments reply_data {A} _.

Definition refuse {A : Type} (code : Z) (text : string) : reply A :=
  mkReply code false text None.

Definition answer {A : Type} (code : Z) (text : string) (d : A) : reply A :=
  mkReply code true text (Some d).

(** [str(e)] for the exceptions of [Py.exn]. *)
Definition exn_text (e : Py.exn) : string :=
  match e with
  | Py.OverflowError => "int too large to convert to float"
  end.

(** [list.sort(key=...)]: stable, ascending. *)
Fixpoint insert_by {A : Type} (key : A -> Z) (x : A) (l : list A) : list A :=
  match l with
  | [] => [x]
  | y :: l' => if key y <? key x then y :: insert_by key x l' else x :: l
  end.

Definition sort_by {A : Type} (key : A -> Z) (l : list A) : list A :=
  fold_right (insert_by key) [] l.

(** [len(...)]. *)
Definition len {A : Type} (l : list A) : Z := Z.of_nat (List.length l).

(** A Python number that started as the integer [0] and has floats
    added to it. *)
Inductive number : Set :=
| Int (n : Z)
| Float (x : float).

(** [total += x] for a float [x]. *)
Definition add_float (total : number) (x : float) : Py.result number :=
  match total with
  | Int n => f <- Py.float_of_int n ;; Py.Ok (Float (PrimFloat.add f x))
  | Float t => Py.Ok (Float (PrimFloat.add t x))
  end.

(** ** routes/inventory.py: the stock reports *)

Module StockInfo.

Record t : Set := mk {
  product_id : Z;
  item_name : string;
  size : option string;
  category : option string;
  trade_price : float;
  current_stock : Z;
  current_value : float;
  stock_status : string
}.

End StockInfo.

Record stock_report : Set := mkStockReport {
  report_products : list StockInfo.t;
  total_products : Z;
  total_inventory_value : number;
  low_stock_items : Z
}.

(** The [for product in products] loop of [get_stock_levels]. *)
Fixpoint stock_levels_loop (inventory : list Inventory.t)
    (products : list Product.t) (stock_levels : list StockInfo.t)
    (total_value : number) : Py.result (list StockInfo.t * number) :=
  match products with
  | [] => Py.Ok (stock_levels, total_value)
  | product :: rest =>
      let current_stock :=
        Inventory.get_current_stock inventory (Product.id product) in
      current_value <-
        Py.int_mul_float current_stock (Product.trade_price product) ;;
      total_value <- add_float total_value current_value ;;
      let stock_info :=
        StockInfo.mk (Product.id product) (Product.item_name product)
                     (Product.size product) (Product.category product)
                     (Product.trade_price product) current_stock
                     current_value
                     (if current_stock <? 10 then "low" else "normal") in
      stock_levels_loop inventory rest (stock_levels ++ [stock_info])
                        total_value
  end.

(** [GET /inventory/stock-levels]. *)
Definition get_stock_levels (db : DB) : reply stock_report :=
  let products := filter Product.is_active (products db) in
  match stock_levels_loop (inventory db) products [] (Int 0) with
  | Py.Ok (stock_levels, total_value) =>
      let stock_levels := sort_by StockInfo.current_stock stock_levels in
      answer 200 "Stock levels retrieved successfully"
        (mkStockReport stock_levels (len stock_levels) total_value
           (len (filter (fun item =>
                           String.eqb (StockInfo.stock_status item) "low")
                        stock_levels)))
  | Py.Raise e =>
      refuse 500 ("Error retrieving stock levels: " ++ exn_text e)
  end.

Module LowStockItem.

Record t : Set := mk {
  product_id : Z;
  item_name : string;
  size : option string;
  category : option string;
  current_stock : Z;
  threshold : Z;
  urgency : string
}.

End LowStockItem.

Record low_stock_report : Set := mkLowStockReport {
  low_stock_list : list LowStockItem.t;
  report_threshold : Z;
  report_count : Z;
  critical_items : Z
}.

(** The loop of [get_low_stock_items]. *)
Fixpoint low_stock_loop (inventory : list Inventory.t) (threshold : Z)
    (products : list Product.t) (low_stock : list LowStockItem.t)
  : list LowStockItem.t :=
  match products with
  | [] => low_stock
  | product :: rest =>
      let current_stock :=
        Inventory.get_current_stock inventory (Product.id product) in
      if current_stock <=? threshold
      then
        low_stock_loop inventory threshold rest
          (low_stock
           ++ [LowStockItem.mk (Product.id product)
                 (Product.item_name product) (Product.size product)
                 (Product.category product) current_stock threshold
                 (if current_stock =? 0 then "critical" else "low")])
      else low_stock_loop inventory threshold rest low_stock
  end.

(** [GET /inventory/low-stock]; [threshold] is the query parameter when
    it is present and parses as an integer. *)
Definition get_low_stock_items (db : DB) (threshold : option Z)
  : reply low_stock_report :=
  let threshold := get_default threshold 10 in
  let products := filter Product.is_active (products db) in
  let low_stock_items :=
    sort_by LowStockItem.current_stock
            (low_stock_loop (inventory db) threshold products []) in
  answer 200 "Low stock items retrieved successfully"
    (mkLowStockReport low_stock_items threshold (len low_stock_items)
       (len (filter (fun item =>
                       String.eqb (LowStockItem.urgency item) "critical")
                    low_stock_items))).

(** ** routes/order.py: the order list *)








(** ** Rows of the user and product tables under assignment *)

Definition set_user_full_name (v : string) (u : User.t) : User.t :=
  User.mk (User.id u) (User.username u) (User.email u)
          (User.password_hash u) v (User.phone u) (User.role u)
          (User.is_active u) (User.created_at u) (User.updated_at u)
          (User.last_login u).

Definition set_user_phone (v : option string) (u : User.t) : User.t :=
  User.mk (User.id u) (User.username u) (User.email u)
          (User.password_hash u) (User.full_name u) v (User.role u)
          (User.is_active u) (User.created_at u) (User.updated_at u)
          (User.last_login u).

Definition set_user_email (v : string) (u : User.t) : User.t :=
  User.mk (User.id u) (User.username u) v
          (User.password_hash u) (User.full_name u) (User.phone u)
          (User.role u) (User.is_active u) (User.created_at u)
          (User.updated_at u) (User.last_login u).

Definition set_user_password_hash (v : string) (u : User.t) : User.t :=
  User.mk (User.id u) (User.username u) (User.email u) v
          (User.full_name u) (User.phone u) (User.role u)
          (User.is_active u) (User.created_at u) (User.updated_at u)
          (User.last_login u).

Definition set_user_role (v : string) (u : User.t) : User.t :=
  User.mk (User.id u) (User.username u) (User.email u)
          (User.password_hash u) (User.full_name u) (User.phone u) v
          (User.is_active u) (User.created_at u) (User.updated_at u)
          (User.last_login u).

Definition set_user_is_active (v : bool) (u : User.t) : User.t :=
  User.mk (User.id u) (User.username u) (User.email u)
          (User.password_hash u) (User.full_name u) (User.phone u)
          (User.role u) v (User.created_at u) (User.updated_at u)
          (User.last_login u).

Definition set_user_updated_at (v : Py.datetime) (u : User.t) : User.t :=
  User.mk (User.id u) (User.username u) (User.email u)
          (User.password_hash u) (User.full_name u) (User.phone u)
          (User.role u) (User.is_active u) (User.created_at u) v
          (User.last_login u).

Definition set_user_last_login (v : option Py.datetime) (u : User.t)
  : User.t :=
  User.mk (User.id u) (User.username u) (User.email u)
          (User.password_hash u) (User.full_name u) (User.phone u)
          (User.role u) (User.is_active u) (User.created_at u)
          (User.updated_at u) v.

(** The UPDATE of a user row fetched by its key. *)
Definition update_user_row (u : User.t) (d : DB) : DB :=
  mkDB (replace_first (fun x => User.id x =? User.id u) u (users d))
       (products d) (inventory d) (orders d) (order_items d).

Definition set_product_item_name (v : string) (p : Product.t) : Product.t :=
  Product.mk (Product.id p) v (Product.size p) (Product.trade_price p)
             (Product.return_price_market p) (Product.return_price_office p)
             (Product.category p) (Product.description p)
             (Product.is_active p) (Product.created_at p)
             (Product.updated_at p).

Definition set_product_size (v : option string) (p : Product.t)
  : Product.t :=
  Product.mk (Product.id p) (Product.item_name p) v (Product.trade_price p)
             (Product.return_price_market p) (Product.return_price_office p)
             (Product.category p) (Product.description p)
             (Product.is_active p) (Product.created_at p)
             (Product.updated_at p).

Definition set_product_trade_price (v : float) (p : Product.t)
  : Product.t :=
  Product.mk (Product.id p) (Product.item_name p) (Product.size p) v
             (Product.return_price_market p) (Product.return_price_office p)
             (Product.category p) (Product.description p)
             (Product.is_active p) (Product.created_at p)
             (Product.updated_at p).

Definition set_product_return_price_market (v : float) (p : Product.t)
  : Product.t :=
  Product.mk (Product.id p) (Product.item_name p) (Product.size p)
             (Product.trade_price p) v (Product.return_price_office p)
             (Product.category p) (Product.description p)
             (Product.is_active p) (Product.created_at p)
             (Product.updated_at p).

Definition set_product_return_price_office (v : float) (p : Product.t)
  : Product.t :=
  Product.mk (Product.id p) (Product.item_name p) (Product.size p)
             (Product.trade_price p) (Product.return_price_market p) v
             (Product.category p) (Product.description p)
             (Product.is_active p) (Product.created_at p)
             (Product.updated_at p).

Definition set_product_category (v : option string) (p : Product.t)
  : Product.t :=
  Product.mk (Product.id p) (Product.item_name p) (Product.size p)
             (Product.trade_price p) (Product.return_price_market p)
             (Product.return_price_office p) v (Product.description p)
             (Product.is_active p) (Product.created_at p)
             (Product.updated_at p).

Definition set_product_description (v : option string) (p : Product.t)
  : Product.t :=
  Product.mk (Product.id p) (Product.item_name p) (Product.size p)
             (Product.trade_price p) (Product.return_price_market p)
             (Product.return_price_office p) (Product.category p) v
             (Product.is_active p) (Product.created_at p)
             (Product.updated_at p).

Definition set_product_is_active (v : bool) (p : Product.t) : Product.t :=
  Product.mk (Product.id p) (Product.item_name p) (Product.size p)
             (Product.trade_price p) (Product.return_price_market p)
             (Product.return_price_office p) (Product.category p)
             (Product.description p) v (Product.created_at p)
             (Product.updated_at p).

Definition set_product_updated_at (v : Py.datetime) (p : Product.t)
  : Product.t :=
  Product.mk (Product.id p) (Product.item_name p) (Product.size p)
             (Product.trade_price p) (Product.return_price_market p)
             (Product.return_price_office p) (Product.category p)
             (Product.description p) (Product.is_active p)
             (Product.created_at p) v.

Definition add_product (p : Product.t) (d : DB) : DB :=
  mkDB (users d) (products d ++ [p]) (inventory d) (orders d)
       (order_items d).

Definition update_product_row (p : Product.t) (d : DB) : DB :=
  mkDB (users d)
       (replace_first (fun x => Product.id x =? Product.id p) p (products d))
       (inventory d) (orders d) (order_items d).

(** [if key in data: row.attr = data[key]] for any row type. *)
Definition assign {A R : Type} (v : option A) (set : A -> R -> R) (r : R)
  : R :=
  match v with
  | Some a => set a r
  | None => r
  end.

(** ** routes/auth.py: tokens, login, profile *)

(** The names bound at the top level of [routes/auth.py]: its imports
    and its own definitions. *)
Definition auth_globals : list string :=
  ["Blueprint"; "request"; "jsonify"; "JWTManager"; "jwt_required";
   "create_access_token"; "get_jwt_identity"; "User"; "db"; "timedelta";
   "wraps"; "auth_bp"; "token_required"; "login"; "register";
   "get_profile"; "update_profile"; "change_password"; "logout"].

Inductive name_error : Set :=
| NameError (name : string).

(** Evaluating a global name of a module. *)
Definition lookup_global (globals : list string) (name : string)
  : option name_error :=
  if existsb (String.eqb name) globals then None else Some (NameError name).

Definition name_error_text (e : name_error) : string :=
  match e with
  | NameError name => "name '" ++ name ++ "' is not defined"
  end.

Module LoginData.

Record t : Set := mk {
  username : option string;
  password : option string
}.

Definition is_empty (d : t) : bool :=
  match username d, password d with
  | None, None => true
  | _, _ => false
  end.

End LoginData.

Module ProfileData.

Record t : Set := mk {
  full_name : option string;
  phone : option string;
  email : option string
}.

Definition is_empty (d : t) : bool :=
  match full_name d, phone d, email d with
  | None, None, None => true
  | _, _, _ => false
  end.

End ProfileData.

Module PasswordData.

Record t : Set := mk {
  current_password : option string;
  new_password : option string
}.

Definition is_empty (d : t) : bool :=
  match current_password d, new_password d with
  | None, None => true
  | _, _ => false
  end.

End PasswordData.

(** [token_required]: [identity] is what [get_jwt_identity] returns
    after [verify_jwt_in_request], or [None] when the verification
    raises.  The decorated handler runs on the right. *)
Definition token_required {R : Type} (db : DB) (identity : option Z)
    (f : User.t -> R) : reply unit + R :=
  match identity with
  | None => inl (refuse 401 "Invalid or expired token")
  | Some current_user_id =>
      match User.get (users db) current_user_id with
      | Some current_user =>
          if User.is_active current_user
          then inr (f current_user)
          else inl (refuse 401 "User not found or account is inactive")
      | None => inl (refuse 401 "User not found or account is inactive")
      end
  end.

(** [User.query.filter((User.username == x) | (User.email == x))
    .first()]. *)
Definition first_by_username_or_email (query : list User.t) (x : string)
  : option User.t :=
  find (fun u => String.eqb (User.username u) x
                 || String.eqb (User.email u) x)
       query.

(** [User.query.filter(User.email == e, User.id != key).first()]. *)
Definition first_other_with_email (query : list User.t) (e : string)
    (key : Z) : option User.t :=
  find (fun u => String.eqb (User.email u) e && negb (User.id u =? key))
       query.

Section AuthRoutes.

Variable strip : string -> string.
Variable generate_password_hash : string -> string.
(** werkzeug's [check_password_hash(hash, password)] and
    flask_jwt_extended's [create_access_token(identity=...)]. *)
Variable check_password_hash : string -> string -> bool.
Variable create_access_token : Z -> string.

(** [POST /login]. *)
Definition login (db : DB) (utcnow : Py.datetime)
    (data : option LoginData.t) : DB * reply (string * User.t) :=
  let s := begin db in
  match data with
  | None => (committed s, refuse 400 "No data provided")
  | Some data =>
  if LoginData.is_empty data
  then (committed s, refuse 400 "No data provided") else
  let username_or_email :=
    strip (get_default (LoginData.username data) "") in
  let password := get_default (LoginData.password data) "" in
  if String.eqb username_or_email "" || String.eqb password ""
  then (committed s, refuse 400 "Username/email and password are required")
  else
  match first_by_username_or_email (users (working s)) username_or_email
  with
  | None => (committed s, refuse 401 "Invalid username/email or password")
  | Some user =>
      if negb (check_password_hash (User.password_hash user) password)
      then (committed s, refuse 401 "Invalid username/email or password")
      else if negb (User.is_active user)
      then (committed s,
            refuse 401 "Account is inactive. Please contact administrator.")
      else
        let access_token := create_access_token (User.id user) in
        let user := set_user_last_login (Some utcnow) user in
        let s := commit (with_working (update_user_row user) s) in
        (committed s, answer 200 "Login successful" (access_token, user))
  end
  end.

(** [GET /profile] and [POST /logout]. *)
Definition get_profile (current_user : User.t) : reply User.t :=
  answer 200 "Profile retrieved successfully" current_user.

Definition logout (current_user : User.t) : reply unit :=
  mkReply 200 true "Logged out successfully" None.

(** [PUT /profile].  The assignment to [updated_at] evaluates the name
    [datetime] in the module's globals. *)
Definition update_profile (db : DB) (utcnow : Py.datetime)
    (current_user : User.t) (data : option ProfileData.t)
  : DB * reply User.t :=
  let s := begin db in
  match data with
  | None => (committed s, refuse 400 "No data provided")
  | Some data =>
  if ProfileData.is_empty data
  then (committed s, refuse 400 "No data provided") else
  let current_user :=
    match ProfileData.full_name data with
    | Some text =>
        if String.eqb (strip text) "" then current_user
        else set_user_full_name (strip text) current_user
    | None => current_user
    end in
  let current_user :=
    match ProfileData.phone data with
    | Some text => set_user_phone (Some (strip text)) current_user
    | None => current_user
    end in
  let checked :=
    match ProfileData.email data with
    | Some text =>
        if String.eqb (strip text) "" then Some current_user
        else
          match first_other_with_email (users (working s)) (strip text)
                                       (User.id current_user) with
          | Some _ => None
          | None => Some (set_user_email (strip text) current_user)
          end
    | None => Some current_user
    end in
  match checked with
  | None => (committed s, refuse 400 "Email already exists")
  | Some current_user =>
      let s := with_working (update_user_row current_user) s in
      match lookup_global auth_globals "datetime" with
      | Some e =>
          let s := rollback s in
          (committed s,
           refuse 500 ("Error updating profile: " ++ name_error_text e))
      | None =>
          let current_user := set_user_updated_at utcnow current_user in
          let s := commit (with_working (update_user_row current_user) s) in
          (committed s,
           answer 200 "Profile updated successfully" current_user)
      end
  end
  end.

(** [POST /change-password]. *)
Definition change_password (db : DB) (utcnow : Py.datetime)
    (current_user : User.t) (data : option PasswordData.t)
  : DB * reply unit :=
  let s := begin db in
  match data with
  | None => (committed s, refuse 400 "No data provided")
  | Some data =>
  if PasswordData.is_empty data
  then (committed s, refuse 400 "No data provided") else
  let current_password :=
    get_default (PasswordData.current_password data) "" in
  let new_password := get_default (PasswordData.new_password data) "" in
  if String.eqb current_password "" || String.eqb new_password ""
  then (committed s,
        refuse 400 "Current password and new password are required")
  else if negb (check_password_hash (User.password_hash current_user)
                                    current_password)
  then (committed s, refuse 400 "Current password is incorrect")
  else if Z.of_nat (String.length new_password) <? 6
  then (committed s,
        refuse 400 "New password must be at least 6 characters long")
  else
    let current_user :=
      set_user_password_hash (generate_password_hash new_password)
                             current_user in
    let s := with_working (update_user_row current_user) s in
    match lookup_global auth_globals "datetime" with
    | Some e =>
        let s := rollback s in
        (committed s,
         refuse 500 ("Error changing password: " ++ name_error_text e))
    | None =>
        let current_user := set_user_updated_at utcnow current_user in
        let s := commit (with_working (update_user_row current_user) s) in
        (committed s,
         mkReply 200 true "Password changed successfully" None)
    end
  end.

End AuthRoutes.

(** ** routes/user.py *)

Module UserData.

(** The keys [create_user] and [update_user] read. *)
Record t : Set := mk {
  username : option string;
  email : option string;
  password : option string;
  full_name : option string;
  phone : option string;
  role : option string;
  is_active : option bool
}.

Definition is_empty (d : t) : bool :=
  match username d, email d, password d, full_name d with
  | None, None, None, None =>
      match phone d, role d, is_active d with
      | None, None, None => true
      | _, _, _ => false
      end
  | _, _, _, _ => false
  end.

End UserData.

Module ResetData.

Record t : Set := mk { new_password : option string }.

End ResetData.

Record user_stats : Set := mkUserStats {
  stat_total_users : Z;
  stat_admin_users : Z;
  stat_sales_users : Z;
  stat_active_users : Z;
  stat_inactive_users : Z;
  stat_recent_registrations : Z
}.

(** [timedelta(days=30)] in microseconds. *)
Definition thirty_days : Z := 30 * 86400 * 1000000.

(** ['Role must be either "admin" or "sales"']. *)
Definition role_message : string :=
  let q := String (Ascii.ascii_of_nat 34) EmptyString in
  "Role must be either " ++ q ++ "admin" ++ q ++ " or " ++ q ++ "sales" ++ q.

Section UserRoutes.

Variable strip : string -> string.
(** [str.lower]. *)
Variable lower : string -> string.
Variable generate_password_hash : string -> string.

(** [GET /users]. *)
Definition get_users (db : DB) (current_user : User.t)
  : reply (list User.t) :=
  if negb (User.is_admin current_user)
  then refuse 403 "Only admin users can view all users"
  else answer 200 "Users retrieved successfully" (users db).

(** [POST /users]. *)
Definition create_user (db : DB) (utcnow : Py.datetime)
    (current_user : User.t) (data : option UserData.t)
  : DB * reply User.t :=
  let s := begin db in
  if negb (User.is_admin current_user)
  then (committed s, refuse 403 "Only admin users can create new accounts")
  else
  match data with
  | None => (committed s, refuse 400 "No data provided")
  | Some data =>
  if UserData.is_empty data
  then (committed s, refuse 400 "No data provided")
  else if missing_or_blank strip (UserData.username data)
  then (committed s, refuse 400 "Missing required field: username")
  else if missing_or_blank strip (UserData.email data)
  then (committed s, refuse 400 "Missing required field: email")
  else if missing_or_blank strip (UserData.password data)
  then (committed s, refuse 400 "Missing required field: password")
  else if missing_or_blank strip (UserData.full_name data)
  then (committed s, refuse 400 "Missing required field: full_name")
  else
    let username := strip (get_default (UserData.username data) "") in
    let email := strip (get_default (UserData.email data) "") in
    match User.first_by_username (users (working s)) username with
    | Some _ => (committed s, refuse 400 "Username already exists")
    | None =>
    match User.first_by_email (users (working s)) email with
    | Some _ => (committed s, refuse 400 "Email already exists")
    | None =>
        let role := lower (get_default (UserData.role data) "sales") in
        if negb (existsb (String.eqb role) ["admin"; "sales"])
        then (committed s,
              refuse 400 role_message)
        else
          let user :=
            User.mk (next_id (map User.id (users (working s))))
                    username email
                    (generate_password_hash
                       (get_default (UserData.password data) ""))
                    (strip (get_default (UserData.full_name data) ""))
                    (Some (strip (get_default (UserData.phone data) "")))
                    role true utcnow utcnow None in
          let s := commit (with_working (add_user user) s) in
          (committed s, answer 201 "User created successfully" user)
    end end
  end.

(** [GET /users/<id>]. *)
Definition get_user (db : DB) (current_user : User.t) (user_id : Z)
  : reply User.t :=
  match User.get (users db) user_id with
  | None => refuse 404 "User not found"
  | Some user =>
      if negb (User.is_admin current_user)
         && negb (User.id current_user =? user_id)
      then refuse 403 "You can only view your own profile"
      else answer 200 "User retrieved successfully" user
  end.

(** The outcome of the assignments of [update_user]: the row to store,
    or the message of the [return] that interrupts them. *)
Definition update_user_fields (query : list User.t) (admin : bool)
    (user_id : Z) (data : UserData.t) (user : User.t)
  : User.t + string :=
  let user :=
    match UserData.full_name data with
    | Some text =>
        if String.eqb (strip text) "" then user
        else set_user_full_name (strip text) user
    | None => user
    end in
  let user :=
    match UserData.phone data with
    | Some text => set_user_phone (Some (strip text)) user
    | None => user
    end in
  let checked :=
    match UserData.email data with
    | Some text =>
        if String.eqb (strip text) "" then inl user
        else
          match first_other_with_email query (strip text) user_id with
          | Some _ => inr "Email already exists"
          | None => inl (set_user_email (strip text) user)
          end
    | None => inl user
    end in
  match checked with
  | inr text => inr text
  | inl user =>
      if admin then
        let checked :=
          match UserData.role data with
          | Some text =>
              if existsb (String.eqb (lower text)) ["admin"; "sales"]
              then inl (set_user_role (lower text) user)
              else inr role_message
          | None => inl user
          end in
        match checked with
        | inr text => inr text
        | inl user =>
            inl (match UserData.is_active data with
                 | Some b => set_user_is_active b user
                 | None => user
                 end)
        end
      else inl user
  end.

(** [PUT /users/<id>]. *)
Definition update_user (db : DB) (utcnow : Py.datetime)
    (current_user : User.t) (user_id : Z) (data : option UserData.t)
  : DB * reply User.t :=
  let s := begin db in
  match User.get (users (working s)) user_id with
  | None => (committed s, refuse 404 "User not found")
  | Some user =>
      if negb (User.is_admin current_user)
         && negb (User.id current_user =? user_id)
      then (committed s, refuse 403 "You can only update your own profile")
      else
        match data with
        | None => (committed s, refuse 400 "No data provided")
        | Some data =>
            if UserData.is_empty data
            then (committed s, refuse 400 "No data provided")
            else
              match update_user_fields (users (working s))
                      (User.is_admin current_user) user_id data user with
              | inr text => (committed s, refuse 400 text)
              | inl user =>
                  let user := set_user_updated_at utcnow user in
                  let s := commit (with_working (update_user_row user) s) in
                  (committed s, answer 200 "User updated successfully" user)
              end
        end
  end.

(** [DELETE /users/<id>]. *)
Definition delete_user (db : DB) (utcnow : Py.datetime)
    (current_user : User.t) (user_id : Z) : DB * reply unit :=
  let s := begin db in
  if negb (User.is_admin current_user)
  then (committed s, refuse 403 "Only admin users can delete accounts")
  else
    match User.get (users (working s)) user_id with
    | None => (committed s, refuse 404 "User not found")
    | Some user =>
        if User.id user =? User.id current_user
        then (committed s, refuse 400 "You cannot delete your own account")
        else
          let user := set_user_is_active false user in
          let user := set_user_updated_at utcnow user in
          let s := commit (with_working (update_user_row user) s) in
          (committed s,
           mkReply 200 true "User account deactivated successfully" None)
    end.

(** [POST /users/<id>/reset-password]. *)
Definition reset_user_password (db : DB) (utcnow : Py.datetime)
    (current_user : User.t) (user_id : Z) (data : option ResetData.t)
  : DB * reply unit :=
  let s := begin db in
  if negb (User.is_admin current_user)
  then (committed s, refuse 403 "Only admin users can reset passwords")
  else
    match User.get (users (working s)) user_id with
    | None => (committed s, refuse 404 "User not found")
    | Some user =>
        match data with
        | Some (ResetData.mk (Some new_password)) =>
            if Z.of_nat (String.length new_password) <? 6
            then (committed s,
                  refuse 400 "Password must be at least 6 characters long")
            else
              let user :=
                set_user_password_hash (generate_password_hash new_password)
                                       user in
              let user := set_user_updated_at utcnow user in
              let s := commit (with_working (update_user_row user) s) in
              (committed s,
               mkReply 200 true
                 ("Password reset successfully for user "
                  ++ User.username user) None)
        | _ => (committed s, refuse 400 "New password is required")
        end
    end.

(** [GET /users/sales]. *)
Definition get_sales_users (db : DB) : reply (list User.t) :=
  answer 200 "Sales users retrieved successfully"
    (filter (fun u => String.eqb (User.role u) "sales" && User.is_active u)
            (users db)).

(** [GET /users/stats]. *)
Definition get_user_stats (db : DB) (utcnow : Py.datetime)
    (current_user : User.t) : reply user_stats :=
  if negb (User.is_admin current_user)
  then refuse 403 "Only admin users can view user statistics"
  else
    let thirty_days_ago := utcnow - thirty_days in
    answer 200 "User statistics retrieved successfully"
      (mkUserStats
         (len (users db))
         (len (filter (fun u => String.eqb (User.role u) "admin") (users db)))
         (len (filter (fun u => String.eqb (User.role u) "sales") (users db)))
         (len (filter User.is_active (users db)))
         (len (filter (fun u => negb (User.is_active u)) (users db)))
         (len (filter (fun u => thirty_days_ago <=? User.created_at u)
                      (users db)))).

End UserRoutes.

(** ** routes/product.py *)

Module ProductData.

Record t : Set := mk {
  item_name : option string;
  size : option string;
  trade_price : option number;
  return_price_market : option number;
  return_price_office : option number;
  category : option string;
  description : option string;
  is_active : option bool
}.

End ProductData.

(** [float(v)] for a JSON number [v]. *)
Definition float_of_number (v : number) : Py.result float :=
  match v with
  | Int n => Py.float_of_int n
  | Float x => Py.Ok x
  end.

(** [if key in data: row.attr = float(data[key])]. *)
Definition assign_float {R : Type} (v : option number)
    (set : float -> R -> R) (r : R) : Py.result R :=
  match v with
  | Some a => x <- float_of_number a ;; Py.Ok (set x r)
  | None => Py.Ok r
  end.

(** [Product.query.filter_by(item_name=...).first()]. *)
Definition first_product_named (query : list Product.t) (name : string)
  : option Product.t :=
  find (fun p => String.eqb (Product.item_name p) name) query.

(** [Product.query.filter(Product.item_name == name,
    Product.id != key).first()]. *)
Definition first_other_product_named (query : list Product.t)
    (name : string) (key : Z) : option Product.t :=
  find (fun p => String.eqb (Product.item_name p) name
                 && negb (Product.id p =? key))
       query.

(** [field not in data] with [data] being [None]. *)
Definition none_not_iterable : string :=
  "argument of type 'NoneType' is not iterable".

(** [GET /products]. *)
Definition get_all_products (db : DB) : reply (list Product.t) :=
  answer 200 "Products retrieved successfully"
         (filter Product.is_active (products db)).

(** [GET /products/<id>]. *)
Definition get_product (db : DB) (product_id : Z) : reply Product.t :=
  match Product.get (products db) product_id with
  | None => refuse 404 "Product not found"
  | Some product => answer 200 "Product retrieved successfully" product
  end.

(** [POST /products]. *)
Definition create_product (db : DB) (utcnow : Py.datetime)
    (current_user : User.t) (data : option ProductData.t)
  : DB * reply Product.t :=
  let s := begin db in
  if negb (User.is_admin current_user)
  then (committed s, refuse 403 "Only admin users can create products")
  else
  match data with
  | None =>
      let s := rollback s in
      (committed s, refuse 500 ("Error creating product: "
                                ++ none_not_iterable))
  | Some data =>
  match ProductData.item_name data with
  | None => (committed s, refuse 400 "Missing required field: item_name")
  | Some item_name =>
  match ProductData.trade_price data with
  | None => (committed s, refuse 400 "Missing required field: trade_price")
  | Some trade_price =>
  match first_product_named (products (working s)) item_name with
  | Some _ =>
      (committed s, refuse 400 "A product with this name already exists")
  | None =>
      match
        tp <- float_of_number trade_price ;;
        rpm <- float_of_number
                 (get_default (ProductData.return_price_market data)
                              (Float 0%float)) ;;
        rpo <- float_of_number
                 (get_default (ProductData.return_price_office data)
                              (Float 0%float)) ;;
        Py.Ok (tp, rpm, rpo)
      with
      | Py.Raise e =>
          let s := rollback s in
          (committed s,
           refuse 500 ("Error creating product: " ++ exn_text e))
      | Py.Ok (tp, rpm, rpo) =>
          let product :=
            Product.mk (next_id (map Product.id (products (working s))))
                       item_name
                       (Some (get_default (ProductData.size data) ""))
                       tp rpm rpo
                       (Some (get_default (ProductData.category data) ""))
                       (Some (get_default (ProductData.description data) ""))
                       true utcnow utcnow in
          let s := commit (with_working (add_product product) s) in
          (committed s, answer 201 "Product created successfully" product)
      end
  end end end end.

(** [PUT /products/<id>]. *)
Definition update_product (db : DB) (utcnow : Py.datetime)
    (current_user : User.t) (product_id : Z) (data : option ProductData.t)
  : DB * reply Product.t :=
  let s := begin db in
  if negb (User.is_admin current_user)
  then (committed s, refuse 403 "Only admin users can update products")
  else
  match Product.get (products (working s)) product_id with
  | None => (committed s, refuse 404 "Product not found")
  | Some product =>
  match data with
  | None =>
      let s := rollback s in
      (committed s, refuse 500 ("Error updating product: "
                                ++ none_not_iterable))
  | Some data =>
  let renamed :=
    match ProductData.item_name data with
    | Some name =>
        match first_other_product_named (products (working s)) name
                                        product_id with
        | Some _ => None
        | None => Some (set_product_item_name name product)
        end
    | None => Some product
    end in
  match renamed with
  | None =>
      (committed s,
       refuse 400 "Another product with this name already exists")
  | Some product =>
      let product :=
        assign (ProductData.size data)
               (fun v => set_product_size (Some v)) product in
      match
        product <- assign_float (ProductData.trade_price data)
                                set_product_trade_price product ;;
        product <- assign_float (ProductData.return_price_market data)
                                set_product_return_price_market product ;;
        assign_float (ProductData.return_price_office data)
                     set_product_return_price_office product
      with
      | Py.Raise e =>
          let s := rollback s in
          (committed s,
           refuse 500 ("Error updating product: " ++ exn_text e))
      | Py.Ok product =>
          let product :=
            assign (ProductData.category data)
                   (fun v => set_product_category (Some v)) product in
          let product :=
            assign (ProductData.description data)
                   (fun v => set_product_description (Some v)) product in
          let product :=
            assign (ProductData.is_active data) set_product_is_active
                   product in
          let product := set_product_updated_at utcnow product in
          let s := commit (with_working (update_product_row product) s) in
          (committed s, answer 200 "Product updated successfully" product)
      end
  end end end.

(** [DELETE /products/<id>]. *)
Definition delete_product (db : DB) (utcnow : Py.datetime)
    (current_user : User.t) (product_id : Z) : DB * reply unit :=
  let s := begin db in
  if negb (User.is_admin current_user)
  then (committed s, refuse 403 "Only admin users can delete products")
  else
    match Product.get (products (working s)) product_id with
    | None => (committed s, refuse 404 "Product not found")
    | Some product =>
        let product := set_product_is_active false product in
        let product := set_product_updated_at utcnow product in
        let s := commit (with_working (update_product_row product) s) in
        (committed s, mkReply 200 true "Product deleted successfully" None)
    end.

(** ** models/product.py: the sample products *)

Module ProductSeed.

(** An entry of the list [sample_products] that
    [Product.create_sample_products] walks through. *)
Record t : Set := mk {
  item_name : string;
  size : string;
  trade_price : float;
  return_price_market : float;
  return_price_office : float;
  category : string;
  description : string
}.

Definition sample_products : list t :=
  [ mk "Kodomo Dental Kids Set (0.5-3)" "1 Set" 140%float 120%float
       120%float "Dental Care"
       "Dental care set for children aged 0.5 to 3 years";
    mk "Kodomo Dental Kids Set (3-6)" "1 Set" 140%float 130%float
       140%float "Dental Care"
       "Dental care set for children aged 3 to 6 years";
    mk "Kodomo Dental Kids Set (6+)" "1 Set" 140%float 140%float
       140%float "Dental Care"
       "Dental care set for children aged 6 years and above" ].

End ProductSeed.

(** The loop of [create_sample_products]: an entry whose name the
    table already holds is skipped, the others are added. *)
Fixpoint add_missing_products (utcnow : Py.datetime)
    (entries : list ProductSeed.t) (s : session) : session :=
  match entries with
  | [] => s
  | product_data :: rest =>
      let s :=
        match first_product_named (products (working s))
                                  (ProductSeed.item_name product_data) with
        | Some _ => s
        | None =>
            let product :=
              Product.mk (next_id (map Product.id (products (working s))))
                         (ProductSeed.item_name product_data)
                         (Some (ProductSeed.size product_data))
                         (ProductSeed.trade_price product_data)
                         (ProductSeed.return_price_market product_data)
                         (ProductSeed.return_price_office product_data)
                         (Some (ProductSeed.category product_data))
                         (Some (ProductSeed.description product_data))
                         true utcnow utcnow in
            with_working (add_product product) s
        end in
      add_missing_products utcnow rest s
  end.

(** [Product.create_sample_products]. *)
Definition create_sample_products (db : DB) (utcnow : Py.datetime) : DB :=
  let s := begin db in
  let s := add_missing_products utcnow ProductSeed.sample_products s in
  let s := commit s in
  committed s.

(** ** Vocabulary of the properties *)

(** [r] is dated no earlier than any row of [l]. *)
Definition latest_in_table (r : Inventory.t) (l : list Inventory.t) : Prop :=
  forall r', In r' l ->
             Py.date_leb (Inventory.date r') (Inventory.date r) = true.

(** Order item [it] is what [create_order] stores for request line
    [line]: the line names an active product whose current stock covers
    the quantity, the unit price is that product's trade price, and the
    line total is quantity times unit price. *)
Definition item_of_line (products : list Product.t)
    (inventory : list Inventory.t) (order_id : Z)
    (line : ItemData.t) (it : OrderItem.t) : Prop :=
  exists p,
    ItemData.product_id line = Some (OrderItem.product_id it)
    /\ ItemData.quantity line = Some (OrderItem.quantity it)
    /\ Product.get products (OrderItem.product_id it) = Some p
    /\ Product.is_active p = true
    /\ OrderItem.quantity it
       <= Inventory.get_current_stock inventory (OrderItem.product_id it)
    /\ OrderItem.order_id it = order_id
    /\ OrderItem.unit_price it = Product.trade_price p
    /\ OrderItem.total_price it
       = PrimFloat.mul (Py.nearest_float (OrderItem.quantity it))
                       (OrderItem.unit_price it).

(** The running sum [total_value += item.total_price], from [start]. *)
Definition sum_total_price (start : float) (l : list OrderItem.t) : float :=
  fold_left PrimFloat.add (map OrderItem.total_price l) start.

(** A request line that [create_order] must refuse: its product is
    unknown or inactive, or asks for more than the current stock. *)
Definition line_fails (db : DB) (line : ItemData.t) : Prop :=
  exists pid qty,
    ItemData.product_id line = Some pid
    /\ ItemData.quantity line = Some qty
    /\ (Product.get (products db) pid = None
        \/ (exists p, Product.get (products db) pid = Some p
                      /\ Product.is_active p = false)
        \/ Inventory.get_current_stock (inventory db) pid < qty).


(** One call of [PUT /orders/<id>/status], and the databases a sequence
    of such calls runs through. *)
Record status_request : Set := mkStatusRequest {
  at_utcnow : Py.datetime;
  at_utcnow' : Py.datetime;
  by_user : User.t;
  on_order : Z;
  with_body : option StatusData.t
}.

Definition apply_status_request (db : DB) (r : status_request) : DB :=
  fst (update_order_status db (at_utcnow r) (at_utcnow' r) (by_user r)
                           (on_order r) (with_body r)).

Definition delivery_date_of (db : DB) (order_id : Z)
  : option (option Py.datetime) :=
  option_map Order.delivery_date (Order.get (orders db) order_id).

Definition same_delivery_date (a b : option (option Py.datetime)) : bool :=
  match a, b with
  | Some (Some x), Some (Some y) => x =? y
  | Some None, Some None => true
  | None, None => true
  | _, _ => false
  end.

(** How many calls of the sequence change the order's
    [delivery_date]. *)
Fixpoint delivery_date_writes (order_id : Z) (db : DB)
    (calls : list status_request) : nat :=
  match calls with
  | [] => 0%nat
  | r :: rest =>
      let db' := apply_status_request db r in
      ((if same_delivery_date (delivery_date_of db order_id)
                              (delivery_date_of db' order_id)
        then 0 else 1)
       + delivery_date_writes order_id db' rest)%nat
  end.

(** The pair that identifies a day's record of a product, and the
    invariant of the inventory table. *)
Definition record_key (r : Inventory.t) : Z * Py.date :=
  (Inventory.product_id r, Inventory.date r).

Definition one_record_per_product_and_date (table : list Inventory.t)
  : Prop :=
  NoDup (map record_key table).

(** What identifies a row and is never assigned to: its primary key,
    its product and its date. *)
Definition anchor (r : Inventory.t) : Z * (Z * Py.date) :=
  (Inventory.id r, record_key r).

(** The date a [POST /inventory] body is for: the parsed [date] key, or
    today when the key is absent. *)
Definition requested_date (strptime_date : string -> option Py.date)
    (today : Py.date) (d : InventoryData.t) : option Py.date :=
  match InventoryData.date d with
  | None => Some today
  | Some text => strptime_date text
  end.

(** ** Sample rows *)

(** The arithmetic example of the stock formula: opening 20, lifting 5,
    market returns 2, office returns 1. *)
Definition sample_movement : Inventory.t :=
  Inventory.mk 1 1 (Py.mkdate 2024 7 20) 20 5 700%float 2 240%float
               1 120%float 0 15 2100%float 0 0%float 0 0.

(** Two products on sale at 140.0 and 100.0, and a withdrawn one. *)
Definition sample_products : list Product.t :=
  [ Product.mk 1 "Kodomo Dental Kids Set (0.5-3)" (Some "1 Set") 140%float
               120%float 120%float (Some "Dental Care") None true 0 0;
    Product.mk 2 "Kodomo Dental Kids Set (3-6)" (Some "1 Set") 100%float
               90%float 90%float (Some "Dental Care") None true 0 0;
    Product.mk 3 "Kodomo Dental Kids Set (6+)" (Some "1 Set") 140%float
               140%float 140%float (Some "Dental Care") None false 0 0 ].

(** Product 1 counted on 2024-07-20 (15 pieces) and, entered later, on
    2024-07-18 (20 pieces); product 2 counted once (5 pieces). *)
Definition sample_inventory : list Inventory.t :=
  [ Inventory.mk 1 1 (Py.mkdate 2024 7 20) 17 5 700%float 2 240%float
                 1 120%float 15 15 2100%float 15 2100%float 0 0;
    Inventory.mk 2 1 (Py.mkdate 2024 7 18) 22 5 700%float 2 240%float
                 1 120%float 20 15 2100%float 20 2800%float 0 0;
    Inventory.mk 3 2 (Py.mkdate 2024 7 20) 5 0 0%float 0 0%float
                 0 0%float 5 0 0%float 5 700%float 0 0 ].

Definition sample_admin : User.t :=
  User.mk 1 "admin" "admin@pentagon.com" "" "System Administrator"
          (Some "+880171111111") "admin" true 0 0 None.

Definition sample_sales1 : User.t :=
  User.mk 2 "sales1" "sales1@pentagon.com" "" "Ahmed Hassan"
          (Some "+880172222222") "sales" true 0 0 None.

Definition sample_sales2 : User.t :=
  User.mk 3 "sales2" "sales2@pentagon.com" "" "Fatima Rahman"
          (Some "+880173333333") "sales" true 0 0 None.

(** A pending order of [sales1]. *)
Definition sample_order : Order.t :=
  Order.mk 1 2 "Fatima Khatun" (Some "+880181234567") (Some "Lalmatia")
           "lalbag" "pending" 280%float 0 None (Some "") 0 0.

Definition sample_db : DB :=
  mkDB [sample_admin; sample_sales1; sample_sales2] sample_products
       sample_inventory [sample_order]
       [OrderItem.mk 1 1 1 2 140%float 280%float 0].

Definition sample_request (lines : list ItemData.t) : OrderData.t :=
  OrderData.mk (Some "John Doe") (Some "+880171234567")
               (Some "123 Main St, Dhaka") (Some "Dhanmondi")
               (Some "Deliver in the morning") (Some lines).

Definition order_line (product_id quantity : Z) : ItemData.t :=
  ItemData.mk (Some product_id) (Some quantity).

Definition set_status_to (new_status : string) : option StatusData.t :=
  Some (StatusData.mk (Some new_status)).

(** The administrator delivers order 1, reopens it, and delivers it
    again, then confirms the delivery once more. *)
Definition sample_status_calls : list status_request :=
  [ mkStatusRequest 10 11 sample_admin 1 (set_status_to "delivered");
    mkStatusRequest 20 21 sample_admin 1 (set_status_to "pending");
    mkStatusRequest 30 31 sample_admin 1 (set_status_to "delivered");
    mkStatusRequest 40 41 sample_admin 1 (set_status_to "delivered") ].

(** An ASCII rendering of [str.strip], enough to run the examples. *)
Definition is_space (c : Ascii.ascii) : bool :=
  let n := Z.of_nat (Ascii.nat_of_ascii c) in
  ((9 <=? n) && (n <=? 13)) || ((28 <=? n) && (n <=? 32)).

Fixpoint lstrip (t : string) : string :=
  match t with
  | String c t' => if is_space c then lstrip t' else t
  | EmptyString => EmptyString
  end.

Fixpoint rstrip (t : string) : string :=
  match t with
  | String c t' =>
      match rstrip t' with
      | EmptyString => if is_space c then EmptyString else String c EmptyString
      | rest => String c rest
      end
  | EmptyString => EmptyString
  end.

Definition ascii_strip (t : string) : string := rstrip (lstrip t).

(** A stand-in for the password hash in the examples. *)
Definition sample_hash (password : string) : string :=
  "pbkdf2:" ++ password.

(** A registration that asks to be an administrator. *)
Definition sample_registration : RegisterData.t :=
  RegisterData.mk (Some " newsales ") (Some "newsales@pentagon.com")
                  (Some "password123") (Some "New Sales Person")
                  (Some "+880171234567") (Some "admin").

(** The dates of the examples are parsed from a fixed table. *)
Definition sample_strptime (text : string) : option Py.date :=
  if String.eqb text "2024-07-18" then Some (Py.mkdate 2024 7 18)
  else if String.eqb text "2024-07-20" then Some (Py.mkdate 2024 7 20)
  else if String.eqb text "2024-07-21" then Some (Py.mkdate 2024 7 21)
  else None.

(** A second count of product 1 for 2024-07-20, and an update that
    tries to move a record to another product and day. *)
Definition sample_duplicate_count : InventoryData.t :=
  InventoryData.mk (Some 1) (Some "2024-07-20") (Some 30) (Some 1) None
                   None None None None None None.

Definition sample_update : InventoryData.t :=
  InventoryData.mk (Some 2) (Some "2024-07-21") None (Some 7)
                   (Some 980%float) None None None None None None.

(** ** Further vocabulary *)

(** The columns of an order that only its creation writes. *)
Definition order_core (o : Order.t)
  : Z * Z * string * option string * option string * string * float
    * Py.datetime * option string * Py.datetime :=
  (Order.id o, Order.sales_person_id o, Order.customer_name o,
   Order.customer_phone o, Order.customer_address o, Order.delivery_area o,
   Order.total_value o, Order.order_date o, Order.notes o,
   Order.created_at o).

(** Keys and references of the order tables: order keys and item keys
    are not repeated, every order has one of the five statuses, and
    every item points to a stored order and a stored product. *)
Definition order_tables_consistent (db : DB) : Prop :=
  NoDup (map Order.id (orders db))
  /\ NoDup (map OrderItem.id (order_items db))
  /\ Forall (fun o => In (Order.status o) valid_statuses) (orders db)
  /\ Forall (fun it =>
               In (OrderItem.order_id it) (map Order.id (orders db))
               /\ Product.get (products db) (OrderItem.product_id it)
                  <> None)
            (order_items db).

(** What a successful status update stores for the order it found. *)
Definition stamped (utcnow utcnow' : Py.datetime) (new_status : string)
    (order : Order.t) : Order.t :=
  let updated :=
    Order.set_updated_at utcnow (Order.set_status new_status order) in
  if String.eqb new_status "delivered"
     && negb (String.eqb (Order.status order) "delivered")
  then Order.set_delivery_date (Some utcnow') updated
  else updated.

(** The derived columns of an inventory record agree with its movement
    columns. *)
Definition totals_consistent (r : Inventory.t) : Prop :=
  Inventory.total_stock r
  = Inventory.opening_pieces r + Inventory.return_market_pieces r
    + Inventory.return_office_pieces r - Inventory.lifting_pieces r
  /\ Inventory.present_stock r = Inventory.total_stock r
  /\ Inventory.closing_value r
     = PrimFloat.mul (Py.nearest_float (Inventory.present_stock r))
                     Inventory.reference_unit_price.

(** The row the sorted query of [get_current_stock] starts with, found
    in one pass: the latest date, and among equal dates the row stored
    first. *)
Fixpoint latest_record (l : list Inventory.t) : option Inventory.t :=
  match l with
  | [] => None
  | x :: q =>
      match latest_record q with
      | None => Some x
      | Some y =>
          if Py.date_ltb (Inventory.date x) (Inventory.date y)
          then Some y
          else Some x
      end
  end.

(** Every stored record of product [pid] is dated before [day]. *)
Definition all_dated_before (table : list Inventory.t) (pid : Z)
    (day : Py.date) : bool :=
  forallb (fun x => negb (Inventory.product_id x =? pid)
                    || Py.date_ltb (Inventory.date x) day)
          table.


(** A first count of product 2 for 2024-07-21, and a late entry for
    2024-07-18. *)
Definition sample_new_count : InventoryData.t :=
  InventoryData.mk (Some 2) (Some "2024-07-21") (Some 30) (Some 1) None
                   (Some 2) None None None None None.

Definition sample_late_count : InventoryData.t :=
  InventoryData.mk (Some 2) (Some "2024-07-18") (Some 40) None None
                   None None None None None None.

(** The movement columns of [old] overwritten by the keys present in
    the body [d]. *)
Definition merged_movement (d : InventoryData.t) (old : Inventory.t)
  : Z * Z * Z * Z :=
  (get_default (InventoryData.opening_pieces d)
               (Inventory.opening_pieces old),
   get_default (InventoryData.lifting_pieces d)
               (Inventory.lifting_pieces old),
   get_default (InventoryData.return_market_pieces d)
               (Inventory.return_market_pieces old),
   get_default (InventoryData.return_office_pieces d)
               (Inventory.return_office_pieces old)).

(** The entry [get_low_stock_items] writes for a product. *)
Definition low_stock_entry (inventory : list Inventory.t) (threshold : Z)
    (product : Product.t) : LowStockItem.t :=
  let current_stock :=
    Inventory.get_current_stock inventory (Product.id product) in
  LowStockItem.mk (Product.id product) (Product.item_name product)
    (Product.size product) (Product.category product) current_stock
    threshold (if current_stock =? 0 then "critical" else "low").

(** The entry [get_stock_levels] writes for a product. *)
Definition stock_entry (inventory : list Inventory.t) (product : Product.t)
  : StockInfo.t :=
  let current_stock :=
    Inventory.get_current_stock inventory (Product.id product) in
  StockInfo.mk (Product.id product) (Product.item_name product)
    (Product.size product) (Product.category product)
    (Product.trade_price product) current_stock
    (PrimFloat.mul (Py.nearest_float current_stock)
                   (Product.trade_price product))
    (if current_stock <? 10 then "low" else "normal").

(** ** Vocabulary of the account handlers *)


(** Stand-ins for werkzeug's [check_password_hash] and for
    [create_access_token] in the examples. *)
Definition sample_check (hash password : string) : bool :=
  String.eqb hash (sample_hash password).

Definition sample_token (identity : Z) : string :=
  "jwt:" ++ string_of_list_ascii
              (repeat (Ascii.ascii_of_nat 35) (Z.to_nat identity)).

(** The database after [sample_registration] has been accepted. *)
Definition sample_registered_db : DB :=
  fst (register ascii_strip sample_hash sample_db 5
                (Some sample_registration)).

Definition sample_login : LoginData.t :=
  LoginData.mk (Some " newsales ") (Some "password123").


(** The unique keys of the users table: the primary key and the two
    columns declared [unique=True]. *)
Definition unique_users (db : DB) : Prop :=
  NoDup (map User.id (users db))
  /\ NoDup (map User.username (users db))
  /\ NoDup (map User.email (users db)).

(** A role [is_admin] and [is_sales] know. *)
Definition valid_role (u : User.t) : Prop :=
  User.role u = "admin" \/ User.role u = "sales".

Definition valid_roles (db : DB) : Prop := Forall valid_role (users db).

(** A row of the users table, unless it is the row of key [key]. *)
Definition other_user_rows (key : Z) (u : User.t) : option User.t :=
  if User.id u =? key then None else Some u.

(** The columns of a user row that a deactivation leaves alone: all
    but [is_active] and [updated_at]. *)
Definition user_without_activity (u : User.t)
  : Z * string * string * string * string * option string * string
    * Py.datetime * option Py.datetime :=
  (User.id u, User.username u, User.email u, User.password_hash u,
   User.full_name u, User.phone u, User.role u, User.created_at u,
   User.last_login u).

(** The columns of a user row that decide who the account is and what
    it may do. *)
Definition user_privileges (u : User.t)
  : Z * string * string * string * bool * Py.datetime
    * option Py.datetime :=
  (User.id u, User.username u, User.password_hash u, User.role u,
   User.is_active u, User.created_at u, User.last_login u).

(** The tables other than [users]. *)
Definition business_tables (db : DB)
  : list Product.t * list Inventory.t * list Order.t * list OrderItem.t :=
  (products db, inventory db, orders db, order_items db).

(** An ASCII rendering of [str.lower], enough to run the examples. *)
Definition ascii_lower_char (c : Ascii.ascii) : Ascii.ascii :=
  let n := Ascii.nat_of_ascii c in
  if ((65 <=? n) && (n <=? 90))%nat then Ascii.ascii_of_nat (n + 32) else c.

Fixpoint ascii_lower (t : string) : string :=
  match t with
  | String c t' => String (ascii_lower_char c) (ascii_lower t')
  | EmptyString => EmptyString
  end.

(** A sales user who asks to become an administrator, to be active
    and to be called otherwise. *)
Definition sample_promotion : UserData.t :=
  UserData.mk None None None (Some " Ahmed H. ") None (Some "admin")
              (Some true).

(** An account the administrator creates with the role [Sales]. *)
Definition sample_account : UserData.t :=
  UserData.mk (Some "sales3") (Some "sales3@pentagon.com")
              (Some "sales123") (Some "Karim Uddin") None (Some "Sales")
              None.

(** The account [sample_account] creates at time 7. *)
Definition sample_created_user : User.t :=
  User.mk 4 "sales3" "sales3@pentagon.com" "pbkdf2:sales123" "Karim Uddin"
          (Some "") "sales" true 7 7 None.

(** ** Vocabulary of the catalogue handlers *)

(** Product keys are distinct, and so are product names. *)
Definition unique_products (db : DB) : Prop :=
  NoDup (map Product.id (products db))
  /\ NoDup (map Product.item_name (products db)).

(** A row of the products table, unless it is the row of key [key]. *)
Definition other_product_rows (key : Z) (p : Product.t)
  : option Product.t :=
  if Product.id p =? key then None else Some p.

(** The columns of a product row that its withdrawal leaves alone:
    all but [is_active] and [updated_at]. *)
Definition product_without_activity (p : Product.t)
  : Z * string * option string * float * float * float * option string
    * option string * Py.datetime :=
  (Product.id p, Product.item_name p, Product.size p, Product.trade_price p,
   Product.return_price_market p, Product.return_price_office p,
   Product.category p, Product.description p, Product.created_at p).

(** What a caller who is not an administrator leaves alone: the
    catalogue, the stock records and the accounts of the others. *)
Definition outside_sales_reach (current_user : User.t) (db db' : DB)
  : Prop :=
  products db' = products db
  /\ inventory db' = inventory db
  /\ map (other_user_rows (User.id current_user)) (users db')
     = map (other_user_rows (User.id current_user)) (users db).

(** A new product with an integer price, and a change of name and
    price for product 2. *)
Definition sample_new_product : ProductData.t :=
  ProductData.mk (Some "Kodomo Toothpaste") None (Some (Int 85)) None
                 (Some (Float 80%float)) (Some "Dental Care") None None.

Definition sample_created_product : Product.t :=
  Product.mk 4 "Kodomo Toothpaste" (Some "") 85%float 0%float 80%float
             (Some "Dental Care") (Some "") true 7 7.

Definition sample_product_change : ProductData.t :=
  ProductData.mk (Some "Kodomo Dental Kids Set (3-6) New") None
                 (Some (Int 110)) None None None None None.

(** * Verification *)

(** ** Stock accounting *)

Section StockAccounting.

Import Inventory.

Lemma float_of_int_in_range (n : Z) :
  Z.abs n < Py.float_overflow_bound ->
  Py.float_of_int n = Py.Ok (Py.nearest_float n).
Proof.
  intros H. unfold Py.float_of_int.
  apply Z.ltb_lt in H. now rewrite H.
Qed.

Lemma db_integer_in_float_range (n : Z) :
  - 2 ^ 65 <= n <= 2 ^ 65 -> Z.abs n < Py.float_overflow_bound.
Proof.
  intros H.
  assert (Hb : 2 ^ 65 < Py.float_overflow_bound) by (vm_compute; reflexivity).
  lia.
Qed.

(** Weakest precondition of [calculate_totals]: the recomputed stock is
    convertible to [float]. *)
Lemma calculate_totals_ok (r : t) :
  let total :=
    opening_pieces r + return_market_pieces r + return_office_pieces r
    - lifting_pieces r in
  Z.abs total < Py.float_overflow_bound ->
  calculate_totals r =
  Py.Ok
    (set_closing_value
       (PrimFloat.mul (Py.nearest_float total) reference_unit_price)
       (set_present_stock total (set_total_stock total r))).
Proof.
  intros total H. unfold calculate_totals, Py.int_mul_float. cbn.
  fold total. now rewrite (float_of_int_in_range _ H).
Qed.

(** C1. For every inventory record (its four movement counts being
    [db.Integer] column values) [calculate_totals] returns normally and
    sets [total_stock] to opening + market returns + office returns -
    lifting, [present_stock] to [total_stock], and [closing_value] to
    [present_stock * 140.0]; nothing is clamped, so a negative total is
    stored as it is; every other column is left alone. *)
Theorem calculate_totals_spec (r : t) :
  db_integer (opening_pieces r) ->
  db_integer (lifting_pieces r) ->
  db_integer (return_market_pieces r) ->
  db_integer (return_office_pieces r) ->
  exists r',
    calculate_totals r = Py.Ok r'
    /\ total_stock r' =
       opening_pieces r + return_market_pieces r + return_office_pieces r
       - lifting_pieces r
    /\ present_stock r' = total_stock r'
    /\ closing_value r' =
       PrimFloat.mul (Py.nearest_float (present_stock r'))
                     reference_unit_price
    /\ (total_stock r' < 0 <->
        opening_pieces r + return_market_pieces r + return_office_pieces r
        < lifting_pieces r)
    /\ (opening_pieces r', lifting_pieces r',
        return_market_pieces r', return_office_pieces r')
       = (opening_pieces r, lifting_pieces r,
          return_market_pieces r, return_office_pieces r)
    /\ (id r', product_id r', date r') = (id r, product_id r, date r).
Proof.
  unfold db_integer. intros Ho Hl Hm Hf.
  eexists. split.
  - apply calculate_totals_ok. apply db_integer_in_float_range. lia.
  - cbn. repeat split; lia.
Qed.

(** The same record through the theorem: 18 pieces, worth 2520.0. *)
Lemma calculate_totals_sample :
  exists r',
    Inventory.calculate_totals sample_movement = Py.Ok r'
    /\ total_stock r' = 18
    /\ present_stock r' = 18
    /\ closing_value r' = 2520%float.
Proof.
  destruct (calculate_totals_spec sample_movement)
    as (r' & Hr & Ht & Hp & Hc & _);
    try (unfold db_integer; cbn; lia).
  exists r'. cbn in Ht. rewrite Hp, Ht in Hc. rewrite Hp, Ht.
  repeat split; trivial.
Defined.

(** Beyond the range of [float] the multiplication raises instead. *)
Remark calculate_totals_overflow :
  Inventory.calculate_totals
    (set_opening_pieces (2 ^ 1024) sample_movement)
  = Py.Raise Py.OverflowError.
Proof. vm_compute. reflexivity. Qed.

End StockAccounting.

(** ** The latest record of a product *)

Section CurrentStock.

Import Inventory.

Ltac date_cases :=
  unfold Py.date_leb, Py.date_ltb, Py.date_eqb; cbn;
  repeat match goal with
         | |- context [?x <? ?y] => destruct (Z.ltb_spec x y)
         | |- context [?x =? ?y] => destruct (Z.eqb_spec x y)
         | H : context [?x <? ?y] |- _ => destruct (Z.ltb_spec x y)
         | H : context [?x =? ?y] |- _ => destruct (Z.eqb_spec x y)
         end;
  cbn in *; try reflexivity; try discriminate; try lia.

Lemma date_eqb_eq (a b : Py.date) : Py.date_eqb a b = true <-> a = b.
Proof.
  destruct a as [y m d], b as [y' m' d']. split.
  - intros H. revert H. date_cases. intros _. congruence.
  - intros H. injection H as -> -> ->. date_cases.
Qed.

Lemma date_ltb_leb (a b : Py.date) :
  Py.date_ltb a b = true -> Py.date_leb a b = true.
Proof. destruct a, b. intros H. revert H. date_cases. Qed.

Lemma date_leb_trans (a b c : Py.date) :
  Py.date_leb a b = true -> Py.date_leb b c = true ->
  Py.date_leb a c = true.
Proof. destruct a, b, c. intros H1 H2. revert H1 H2. date_cases. Qed.

Lemma date_leb_refl (a : Py.date) : Py.date_leb a a = true.
Proof. destruct a. date_cases. Qed.

Lemma date_not_ltb_leb (a b : Py.date) :
  Py.date_ltb a b = false -> Py.date_leb b a = true.
Proof. unfold Py.date_leb. now intros ->. Qed.

Lemma in_insert_date_desc (r x : t) (l : list t) :
  In x (insert_date_desc r l) <-> x = r \/ In x l.
Proof.
  induction l as [|h l IH]; cbn.
  - intuition.
  - destruct (Py.date_ltb (date r) (date h)); cbn; rewrite ?IH; intuition.
Qed.

Lemma in_order_by_date_desc (x : t) (q : list t) :
  In x (order_by_date_desc q) <-> In x q.
Proof.
  induction q as [|h q IH]; cbn.
  - tauto.
  - rewrite in_insert_date_desc, IH. intuition.
Qed.

Lemma first_insert_latest (r : t) (l : list t) :
  (forall h, first l = Some h -> latest_in_table h l) ->
  forall h, first (insert_date_desc r l) = Some h ->
            latest_in_table h (insert_date_desc r l).
Proof.
  destruct l as [|x l]; cbn; intros Hl h Hh.
  - injection Hh as <-. intros r' [<- | []]. apply date_leb_refl.
  - specialize (Hl x eq_refl).
    destruct (Py.date_ltb (date r) (date x)) eqn:E; cbn in Hh;
      injection Hh as <-; intros r' Hr'.
    + cbn in Hr'. destruct Hr' as [<- | Hr'].
      * apply date_leb_refl.
      * apply in_insert_date_desc in Hr'. destruct Hr' as [-> | Hr'].
        -- now apply date_ltb_leb.
        -- apply Hl. now right.
    + cbn in Hr'. destruct Hr' as [<- | Hr'].
      * apply date_leb_refl.
      * apply date_leb_trans with (date x).
        -- now apply Hl.
        -- now apply date_not_ltb_leb.
Qed.

Lemma first_order_by_latest (q : list t) (h : t) :
  first (order_by_date_desc q) = Some h ->
  In h q /\ latest_in_table h q.
Proof.
  intros Hh. split.
  - apply in_order_by_date_desc. unfold first in Hh.
    destruct (order_by_date_desc q); [discriminate|].
    injection Hh as <-. now left.
  - assert (G : forall q h, first (order_by_date_desc q) = Some h ->
                            latest_in_table h (order_by_date_desc q)).
    { clear. induction q as [|x q IH]; cbn; intros h Hh.
      - discriminate.
      - now apply first_insert_latest. }
    intros r' Hr'. apply (G q h Hh). now apply in_order_by_date_desc.
Qed.

Lemma first_order_by_none (q : list t) :
  first (order_by_date_desc q) = None -> q = [].
Proof.
  destruct q as [|x q]; [reflexivity|].
  unfold first, order_by_date_desc. cbn.
  destruct (fold_right insert_date_desc [] q) as [|y l]; cbn;
    [discriminate|].
  destruct (Py.date_ltb (date x) (date y)); discriminate.
Qed.

(** C2. [get_current_stock] answers [0] for a product without any
    inventory record, and otherwise the [present_stock] of a record of
    that product whose date no other record of the product exceeds:
    the latest date decides, not the largest stock. *)
Theorem get_current_stock_latest (query : list t) (pid : Z) :
  ((forall r, In r query -> product_id r <> pid) ->
   get_current_stock query pid = 0)
  /\ (forall r0, In r0 query -> product_id r0 = pid ->
      exists r,
        In r query /\ product_id r = pid
        /\ (forall r', In r' query -> product_id r' = pid ->
                       Py.date_leb (date r') (date r) = true)
        /\ get_current_stock query pid = present_stock r).
Proof.
  unfold get_current_stock, filter_by_product_id.
  destruct (first (order_by_date_desc
                     (filter (fun r => product_id r =? pid) query)))
    as [h|] eqn:E.
  - apply first_order_by_latest in E. destruct E as [Hin Hmax].
    apply filter_In in Hin. destruct Hin as [Hin Hp].
    apply Z.eqb_eq in Hp. split.
    + intros Hno. exfalso. exact (Hno h Hin Hp).
    + intros _ _ _. exists h. repeat split; trivial.
      intros r' Hr' Hp'. apply Hmax. apply filter_In. split; trivial.
      now apply Z.eqb_eq.
  - apply first_order_by_none in E. split; [reflexivity|].
    intros r0 Hr0 Hp0. exfalso.
    assert (Hf : In r0 (filter (fun r => product_id r =? pid) query)).
    { apply filter_In. split; trivial. now apply Z.eqb_eq. }
    rewrite E in Hf. exact Hf.
Qed.

(** The later date decides although the earlier count is larger, and a
    product without records has no stock. *)
Example get_current_stock_sample :
  get_current_stock sample_inventory 1 = 15
  /\ get_current_stock sample_inventory 3 = 0.
Proof. split; reflexivity. Qed.

End CurrentStock.

(** ** Order creation *)

Section OrderCreation.

Lemma int_mul_float_ok (n : Z) (x v : float) :
  Py.int_mul_float n x = Py.Ok v ->
  v = PrimFloat.mul (Py.nearest_float n) x.
Proof.
  unfold Py.int_mul_float, Py.float_of_int.
  destruct (Z.abs n <? Py.float_overflow_bound); cbn.
  - intros H. now injection H as <-.
  - discriminate.
Qed.

Lemma calculate_total_price_ok (i i' : OrderItem.t) :
  OrderItem.calculate_total_price i = Py.Ok i' ->
  i' = OrderItem.set_total_price
         (PrimFloat.mul (Py.nearest_float (OrderItem.quantity i))
                        (OrderItem.unit_price i)) i.
Proof.
  unfold OrderItem.calculate_total_price.
  destruct (Py.int_mul_float _ _) as [v|e] eqn:E; cbn.
  - intros H. injection H as <-. now rewrite (int_mul_float_ok _ _ _ E).
  - discriminate.
Qed.


Lemma product_get_id (l : list Product.t) (k : Z) (p : Product.t) :
  Product.get l k = Some p -> Product.id p = k.
Proof.
  unfold Product.get. intros H. apply find_some in H.
  now apply Z.eqb_eq.
Qed.

Lemma db_eta (d : DB) :
  mkDB (users d) (products d) (inventory d) (orders d) (order_items d) = d.
Proof. now destruct d. Qed.

(** What the loop of [create_order] leaves behind, by the way it is
    left. *)
Lemma process_items_spec (utcnow : Py.datetime) (oid : Z)
    (items : list ItemData.t) :
  forall s total acc s' r,
    process_items utcnow oid items s total acc = (s', r) ->
    committed s' = committed s
    /\ match r with
       | Py.Ok (Completed total' acc') =>
           exists new,
             acc' = acc ++ new
             /\ Forall2 (item_of_line (products (working s))
                                      (inventory (working s)) oid)
                        items new
             /\ total' = sum_total_price total new
             /\ working s'
                = mkDB (users (working s)) (products (working s))
                       (inventory (working s)) (orders (working s))
                       (order_items (working s) ++ new)
       | Py.Ok (Return resp) =>
           working s' = committed s
           /\ success resp = false /\ data resp = None
           /\ status_code resp = 400
       | Py.Raise e => True
       end.
Proof.
  induction items as [|line rest IH]; intros s total acc s' r H; cbn in H.
  - injection H as <- <-. split; [reflexivity|].
    exists []. rewrite !app_nil_r, db_eta. repeat split. constructor.
  - destruct (ItemData.product_id line) as [pid|] eqn:Epid;
      [destruct (ItemData.quantity line) as [qty|] eqn:Eqty|].
    2,3: injection H as <- <-; cbn; auto.
    destruct (Product.get (products (working s)) pid) as [p|] eqn:Ep.
    2: injection H as <- <-; cbn; auto.
    destruct (Product.is_active p) eqn:Eact.
    2: injection H as <- <-; cbn; auto.
    destruct (Inventory.get_current_stock _ _ <? qty) eqn:Estock.
    1: injection H as <- <-; cbn; auto.
    destruct (OrderItem.calculate_total_price _) as [it|e] eqn:Eit.
    2: injection H as <- <-; cbn; auto.
    apply calculate_total_price_ok in Eit. cbn in Eit.
    apply IH in H. destruct H as [Hc H]. split; [exact Hc|].
    destruct r as [[resp | total' acc'] | e]; trivial.
    destruct H as (new & Hacc & Hall & Htot & Hw). cbn in Hall, Hw.
    exists (it :: new). rewrite <- !app_assoc in *. cbn in *.
    pose proof (product_get_id _ _ _ Ep) as Hid.
    apply Z.ltb_ge in Estock.
    repeat split; trivial.
    constructor; [|exact Hall].
    exists p. subst it. cbn. rewrite Hid. repeat split; trivial.
    now rewrite <- Hid.
Qed.

Lemma fold_max_ge (keys : list Z) (k : Z) :
  In k keys -> k <= fold_right Z.max 0 keys.
Proof.
  induction keys as [|x keys IH]; cbn; [tauto|].
  intros [-> | H]; [lia|]. specialize (IH H). lia.
Qed.

Lemma next_id_fresh (keys : list Z) (k : Z) :
  In k keys -> k < next_id keys.
Proof. intros H. apply fold_max_ge in H. unfold next_id. lia. Qed.

Lemma replace_first_last {A : Type} (p : A -> bool) (new x : A)
    (l : list A) :
  (forall y, In y l -> p y = false) -> p x = true ->
  replace_first p new (l ++ [x]) = l ++ [new].
Proof.
  intros Hl Hx. induction l as [|y l IH]; cbn.
  - now rewrite Hx.
  - rewrite (Hl y (or_introl eq_refl)). f_equal. apply IH.
    intros z Hz. apply Hl. now right.
Qed.

Lemma update_fresh_order (o o' : Order.t) (l : list Order.t) :
  Order.id o = next_id (map Order.id l) -> Order.id o' = Order.id o ->
  replace_first (fun x => Order.id x =? Order.id o') o' (l ++ [o])
  = l ++ [o'].
Proof.
  intros Ho Ho'. apply replace_first_last.
  - intros y Hy. apply Z.eqb_neq.
    pose proof (next_id_fresh _ _ (in_map Order.id _ _ Hy)). lia.
  - apply Z.eqb_eq. now symmetry.
Qed.

(** Every run of [create_order] either leaves the database as it found
    it and answers with a failure, or appends exactly the order and one
    item per request line. *)
Lemma create_order_outcome (db : DB) (utcnow : Py.datetime)
    (current_user : User.t) (body : option OrderData.t)
    (db' : DB) (resp : response order_payload) :
  create_order db utcnow current_user body = (db', resp) ->
  (db' = db /\ success resp = false /\ data resp = None
   /\ (status_code resp = 400 \/ status_code resp = 500))
  \/ (exists d lines order items,
        body = Some d
        /\ OrderData.items d = Some lines
        /\ resp = ok_response 201 OrderCreated (order, items)
        /\ db' = mkDB (users db) (products db) (inventory db)
                      (orders db ++ [order]) (order_items db ++ items)
        /\ Forall2 (item_of_line (products db) (inventory db)
                                 (Order.id order))
                   lines items
        /\ Order.total_value order = sum_total_price 0%float items
        /\ Order.id order = next_id (map Order.id (orders db))
        /\ Order.sales_person_id order = User.id current_user
        /\ Order.status order = "pending"
        /\ Order.delivery_date order = None).
Proof.
  unfold create_order. cbn.
  destruct body as [d|]; [|intros H; injection H as <- <-; left; auto].
  destruct (OrderData.is_empty d);
    [intros H; injection H as <- <-; left; auto|].
  destruct (OrderData.customer_name d) as [cname|];
    [|intros H; injection H as <- <-; left; auto].
  destruct (OrderData.delivery_area d) as [area|];
    [|intros H; injection H as <- <-; left; auto].
  destruct (OrderData.items d) as [[|line lines]|] eqn:Eitems;
    [intros H; injection H as <- <-; left; auto| |
     intros H; injection H as <- <-; left; auto].
  destruct (process_items _ _ _ _ _ _) as [s' r] eqn:E.
  apply process_items_spec in E. cbn in E. destruct E as [Hc E].
  destruct r as [[r | total items] | e]; intros H; injection H as <- <-.
  - left. destruct E as (Hw & Hs & Hd & Hst). rewrite Hc. auto.
  - right. destruct E as (new & -> & Hall & -> & Hw).
    exists d, (line :: lines). eexists. exists new.
    split; [reflexivity|]. split; [exact Eitems|].
    split; [reflexivity|]. split.
    { cbn. rewrite Hw. unfold update_order. cbn. f_equal.
      match goal with
      | |- replace_first _ ?o' (?l ++ [?o]) = _ =>
          exact (update_fresh_order o o' l eq_refl eq_refl)
      end. }
    split; [exact Hall|]. cbn. auto.
  - left. cbn. rewrite Hc. auto.
Qed.

Lemma Forall2_in_left {A B : Type} (R : A -> B -> Prop) (l : list A)
    (l' : list B) (x : A) :
  Forall2 R l l' -> In x l -> exists y, In y l' /\ R x y.
Proof.
  induction 1 as [|a b l l' Hab _ IH]; cbn; [tauto|].
  intros [<- | Hx].
  - exists b. auto.
  - destruct (IH Hx) as (y & Hy & Hr). exists y. auto.
Qed.

Lemma item_of_line_not_fails (db : DB) (oid : Z) (line : ItemData.t)
    (it : OrderItem.t) :
  item_of_line (products db) (inventory db) oid line it ->
  ~ line_fails db line.
Proof.
  intros (p & Hpid & Hqty & Hget & Hact & Hstock & _)
         (pid & qty & Hpid' & Hqty' & Hbad).
  rewrite Hpid in Hpid'. injection Hpid' as <-.
  rewrite Hqty in Hqty'. injection Hqty' as <-.
  destruct Hbad as [Hnone | [(p' & Hget' & Hin) | Hlow]].
  - congruence.
  - rewrite Hget in Hget'. injection Hget' as <-. congruence.
  - lia.
Qed.

(** C3. If any line of the request names a product that is unknown or
    inactive, or asks for more than the product's current stock, then
    [create_order] refuses the whole request: the database it leaves is
    the database it found (no order row, no item row, whatever the
    other lines were), and the response is a failure without data. *)
Theorem create_order_rejects_whole_order (db : DB) (utcnow : Py.datetime)
    (current_user : User.t) (d : OrderData.t) (lines : list ItemData.t)
    (line : ItemData.t) :
  OrderData.items d = Some lines ->
  In line lines ->
  line_fails db line ->
  let result := create_order db utcnow current_user (Some d) in
  fst result = db
  /\ orders (fst result) = orders db
  /\ order_items (fst result) = order_items db
  /\ success (snd result) = false
  /\ data (snd result) = None
  /\ (status_code (snd result) = 400 \/ status_code (snd result) = 500).
Proof.
  intros Hitems Hin Hbad result. subst result.
  destruct (create_order db utcnow current_user (Some d)) as [db' resp] eqn:E.
  apply create_order_outcome in E. cbn.
  destruct E as [(-> & Hs & Hd & Hc) | E]; [auto 6|].
  exfalso.
  destruct E as (d' & lines' & order & items & Hd & Hl & _ & _ & Hall & _).
  injection Hd as <-. rewrite Hitems in Hl. injection Hl as <-.
  destruct (Forall2_in_left _ _ _ _ Hall Hin) as (it & _ & Hit).
  exact (item_of_line_not_fails _ _ _ _ Hit Hbad).
Qed.

(** C4. When [create_order] answers 201, the database gains exactly the
    order and one item per request line, in order; each item carries the
    requested product and quantity, its [unit_price] is the trade price
    the product has in the database the request ran against, its
    [total_price] is quantity times [unit_price], and the order's
    [total_value] is the sum of the items' [total_price], added up from
    zero in request order. *)
Theorem create_order_prices (db : DB) (utcnow : Py.datetime)
    (current_user : User.t) (body : option OrderData.t) :
  let result := create_order db utcnow current_user body in
  status_code (snd result) = 201 ->
  exists d lines order items,
    body = Some d
    /\ OrderData.items d = Some lines
    /\ data (snd result) = Some (order, items)
    /\ orders (fst result) = orders db ++ [order]
    /\ order_items (fst result) = order_items db ++ items
    /\ Forall2
         (fun line it =>
            ItemData.product_id line = Some (OrderItem.product_id it)
            /\ ItemData.quantity line = Some (OrderItem.quantity it)
            /\ OrderItem.order_id it = Order.id order
            /\ (exists p,
                  Product.get (products db) (OrderItem.product_id it)
                  = Some p
                  /\ OrderItem.unit_price it = Product.trade_price p)
            /\ OrderItem.total_price it
               = PrimFloat.mul (Py.nearest_float (OrderItem.quantity it))
                               (OrderItem.unit_price it))
         lines items
    /\ Order.total_value order
       = fold_left PrimFloat.add (map OrderItem.total_price items) 0%float.
Proof.
  intros result. subst result.
  destruct (create_order db utcnow current_user body) as [db' resp] eqn:E.
  apply create_order_outcome in E. cbn. intros H201.
  destruct E as [(_ & _ & _ & [Hc | Hc]) | E]; [lia | lia |].
  destruct E as (d & lines & order & items & -> & Hl & -> & -> & Hall & Ht
                 & _).
  exists d, lines, order, items. cbn. repeat split; trivial.
  clear - Hall. induction Hall as [|line it lines items Hit _ IH];
    constructor; trivial.
  destruct Hit as (p & Hpid & Hq & Hget & _ & _ & Ho & Hu & Htp).
  repeat split; trivial. now exists p.
Qed.

(** C6. [create_order] never writes an inventory record: whatever the
    request and whether it is accepted or refused, the inventory table
    (and the product table) it leaves is the one it found, so
    [get_current_stock] answers the same for every product afterwards.
    The same holds for the status update of an order. *)
Theorem create_order_leaves_inventory (db : DB) (utcnow : Py.datetime)
    (current_user : User.t) (body : option OrderData.t) :
  let db' := fst (create_order db utcnow current_user body) in
  inventory db' = inventory db
  /\ products db' = products db
  /\ (forall pid,
        Inventory.get_current_stock (inventory db') pid
        = Inventory.get_current_stock (inventory db) pid)
  /\ (forall utcnow' order_id status_body,
        inventory (fst (update_order_status db' utcnow utcnow' current_user
                                            order_id status_body))
        = inventory db).
Proof.
  intros db'. subst db'.
  destruct (create_order db utcnow current_user body) as [db' resp] eqn:E.
  apply create_order_outcome in E. cbn.
  assert (Hinv : inventory db' = inventory db /\ products db' = products db).
  { destruct E as [(-> & _) | E]; [auto|].
    destruct E as (d & lines & order & items & _ & _ & _ & -> & _).
    auto. }
  destruct Hinv as [Hinv Hprod]. repeat split; trivial.
  - intros pid. now rewrite Hinv.
  - intros utcnow' oid sb. rewrite <- Hinv.
    unfold update_order_status. cbn.
    destruct (Order.get (orders db') oid); [|reflexivity].
    destruct (_ && _); [reflexivity|].
    destruct sb as [[[st|]]|]; try reflexivity.
    destruct (negb _); reflexivity.
Qed.




(** Product 2 has 5 pieces: asking for 6 of it discards the whole
    request, the line for product 1 included. *)
Lemma create_order_rejects_sample :
  let result :=
    create_order sample_db 100 sample_sales1
                 (Some (sample_request [order_line 1 2; order_line 2 6])) in
  fst result = sample_db
  /\ orders (fst result) = orders sample_db
  /\ order_items (fst result) = order_items sample_db
  /\ success (snd result) = false
  /\ data (snd result) = None
  /\ (status_code (snd result) = 400 \/ status_code (snd result) = 500).
Proof.
  apply (create_order_rejects_whole_order sample_db 100 sample_sales1
           (sample_request [order_line 1 2; order_line 2 6])
           [order_line 1 2; order_line 2 6] (order_line 2 6)).
  - reflexivity.
  - cbn. auto.
  - exists 2, 6. repeat split. right. right. vm_compute. reflexivity.
Defined.

(** Two of product 1 at 140.0 and one of product 2 at 100.0 make an
    order of 380.0, with the two prices copied into the items. *)
Lemma create_order_prices_sample :
  exists order items,
    data (snd (create_order sample_db 100 sample_sales1
                 (Some (sample_request [order_line 1 2; order_line 2 1]))))
    = Some (order, items)
    /\ Order.total_value order = 380%float
    /\ map OrderItem.unit_price items = [140%float; 100%float]
    /\ map OrderItem.total_price items = [280%float; 100%float].
Proof.
  destruct (create_order_prices sample_db 100 sample_sales1
              (Some (sample_request [order_line 1 2; order_line 2 1])) eq_refl)
    as (d & lines & order & items & _ & _ & Hdata & _).
  exists order, items. split; [exact Hdata|].
  vm_compute in Hdata. injection Hdata as <- <-.
  repeat split; reflexivity.
Defined.


End OrderCreation.

(** ** Order status and delivery date *)

Section OrderStatus.

Lemma order_get_id (l : list Order.t) (k : Z) (o : Order.t) :
  Order.get l k = Some o -> Order.id o = k.
Proof.
  unfold Order.get. intros H. apply find_some in H. now apply Z.eqb_eq.
Qed.

Lemma order_get_update (l : list Order.t) (o1 : Order.t) (i : Z) :
  Order.get (replace_first (fun x => Order.id x =? Order.id o1) o1 l) i
  = if i =? Order.id o1
    then match Order.get l (Order.id o1) with
         | Some _ => Some o1
         | None => None
         end
    else Order.get l i.
Proof.
  unfold Order.get. induction l as [|x l IH]; cbn.
  - now destruct (i =? Order.id o1).
  - destruct (Order.id x =? Order.id o1) eqn:Ex; cbn.
    + apply Z.eqb_eq in Ex. rewrite Ex.
      destruct (i =? Order.id o1) eqn:Ei; cbn.
      * apply Z.eqb_eq in Ei. subst i. now rewrite Z.eqb_refl.
      * rewrite Z.eqb_sym, Ei. reflexivity.
    + rewrite IH. destruct (i =? Order.id o1) eqn:Ei.
      * apply Z.eqb_eq in Ei. subst i. now rewrite Ex.
      * reflexivity.
Qed.

Lemma not_both (b : bool) : b && negb b = false.
Proof. now destruct b. Qed.

(** C5 (as the code has it). Across any call of [update_order_status],
    accepted or refused, every order keeps its [delivery_date] unless
    the call moved that order's status from something other than
    [delivered] to [delivered]; in that case, and each time it happens,
    the date becomes the clock's reading.  So setting [delivered] on an
    order that is already delivered, and every transition between two
    other statuses, leaves the date alone. *)
Theorem update_order_status_delivery_date (db : DB)
    (utcnow utcnow' : Py.datetime) (current_user : User.t) (order_id : Z)
    (body : option StatusData.t) (i : Z) (o : Order.t) :
  Order.get (orders db) i = Some o ->
  exists o',
    Order.get
      (orders (fst (update_order_status db utcnow utcnow' current_user
                                        order_id body))) i
    = Some o'
    /\ Order.delivery_date o'
       = if String.eqb (Order.status o') "delivered"
            && negb (String.eqb (Order.status o) "delivered")
         then Some utcnow'
         else Order.delivery_date o.
Proof.
  intros Hi.
  assert (Hsame : exists o',
             Order.get (orders db) i = Some o'
             /\ Order.delivery_date o'
                = if String.eqb (Order.status o') "delivered"
                     && negb (String.eqb (Order.status o) "delivered")
                  then Some utcnow' else Order.delivery_date o).
  { exists o. split; [exact Hi|]. now rewrite not_both. }
  unfold update_order_status, begin, commit, with_working.
  cbn [committed working].
  destruct (Order.get (orders db) order_id) as [order|] eqn:Eo;
    [|exact Hsame].
  destruct (User.is_sales current_user
            && negb (Order.sales_person_id order =? User.id current_user));
    [exact Hsame|].
  destruct body as [[[new_status|]]|]; try exact Hsame.
  destruct (negb (existsb (String.eqb new_status) valid_statuses));
    [exact Hsame|].
  cbn [fst update_order orders].
  pose proof (order_get_id _ _ _ Eo) as Hid.
  match goal with
  | |- context [replace_first _ ?o1 _] =>
      assert (Hid1 : Order.id o1 = order_id)
        by (destruct (String.eqb new_status "delivered"
                      && negb (String.eqb (Order.status order) "delivered"));
            cbn; exact Hid);
      rewrite (order_get_update (orders db) o1 i), Hid1
  end.
  destruct (i =? order_id) eqn:Ei.
  - apply Z.eqb_eq in Ei. subst i. rewrite Eo.
    rewrite Hi in Eo. injection Eo as <-.
    eexists. split; [reflexivity|].
    destruct (String.eqb new_status "delivered") eqn:En;
      destruct (String.eqb (Order.status o) "delivered") eqn:Es;
      cbn; rewrite ?En; reflexivity.
  - exact Hsame.
Qed.

(** The first delivery of the sample order stamps it with the second
    reading of the clock. *)
Lemma update_order_status_delivery_sample :
  exists o',
    Order.get
      (orders (fst (update_order_status sample_db 10 11 sample_admin 1
                                        (set_status_to "delivered")))) 1
    = Some o'
    /\ Order.delivery_date o' = Some 11.
Proof.
  destruct (update_order_status_delivery_date sample_db 10 11 sample_admin 1
              (set_status_to "delivered") 1 sample_order eq_refl)
    as (o' & Hget & _).
  exists o'. split; [exact Hget|].
  vm_compute in Hget. injection Hget as <-. reflexivity.
Defined.

(** The delivery dates of order 1 along the sample calls: stamped at
    11, kept while reopened, stamped again at 31, kept by the repeated
    [delivered]. *)
Example delivery_dates_along_sample_calls :
  map (fun db => delivery_date_of db 1)
      [ apply_status_request sample_db (nth 0 sample_status_calls
          (mkStatusRequest 0 0 sample_admin 0 None));
        fold_left apply_status_request (firstn 2 sample_status_calls)
                  sample_db;
        fold_left apply_status_request (firstn 3 sample_status_calls)
                  sample_db;
        fold_left apply_status_request sample_status_calls sample_db ]
  = [Some (Some 11); Some (Some 11); Some (Some 31); Some (Some 31)].
Proof. vm_compute. reflexivity. Qed.

(** C5 as stated fails: that no order has its [delivery_date] written
    more than once is refuted by the sample calls, which write it
    twice. *)
Lemma delivery_date_written_twice :
  ~ (forall (db : DB) (calls : list status_request) (order_id : Z),
       (delivery_date_writes order_id db calls <= 1)%nat).
Proof.
  intros H. specialize (H sample_db sample_status_calls 1).
  vm_compute in H. lia.
Qed.

End OrderStatus.

(** ** Access to an order *)

Section OrderAccess.

(** C8. For an existing order and a caller whose role is [sales]:
    when the order's [sales_person_id] is not the caller's id,
    [get_order] answers 403 and carries no data; when it is, [get_order]
    answers 200 and the data is that order. *)
Theorem get_order_ownership (db : DB) (current_user : User.t)
    (order_id : Z) (order : Order.t) :
  Order.get (orders db) order_id = Some order ->
  User.is_sales current_user = true ->
  let resp := get_order db current_user order_id in
  (Order.sales_person_id order <> User.id current_user ->
   status_code resp = 403 /\ success resp = false /\ data resp = None)
  /\ (Order.sales_person_id order = User.id current_user ->
      status_code resp = 200 /\ success resp = true
      /\ exists detail,
           data resp = Some detail /\ detail_order detail = order).
Proof.
  intros Hget Hsales resp. subst resp. unfold get_order.
  rewrite Hget, Hsales. cbn [andb]. split; intros Hown.
  - apply Z.eqb_neq in Hown. rewrite Hown. cbn. auto.
  - apply Z.eqb_eq in Hown. rewrite Hown. cbn. eauto.
Qed.

(** Order 1 belongs to [sales1]: [sales2] is refused, [sales1] reads
    it. *)
Lemma get_order_ownership_sample :
  status_code (get_order sample_db sample_sales2 1) = 403
  /\ data (get_order sample_db sample_sales2 1) = None
  /\ status_code (get_order sample_db sample_sales1 1) = 200
  /\ option_map detail_order (data (get_order sample_db sample_sales1 1))
     = Some sample_order.
Proof.
  destruct (get_order_ownership sample_db sample_sales2 1 sample_order
              eq_refl eq_refl) as [Hother _].
  destruct (get_order_ownership sample_db sample_sales1 1 sample_order
              eq_refl eq_refl) as [_ Hown].
  destruct Hother as (H403 & _ & Hnone); [discriminate|].
  destruct (Hown eq_refl) as (H200 & _ & detail & Hdata & Horder).
  split; [exact H403|]. split; [exact Hnone|]. split; [exact H200|].
  rewrite Hdata. cbn. now rewrite Horder.
Defined.

End OrderAccess.

(** ** Registration *)

Section Registration.

Variable strip : string -> string.
Variable generate_password_hash : string -> string.

Lemma filter_snoc_false {A : Type} (p : A -> bool) (l : list A) (x : A) :
  p x = false -> filter p (l ++ [x]) = filter p l.
Proof.
  intros H. rewrite filter_app. cbn. rewrite H. apply app_nil_r.
Qed.

(** C9. Whatever the body of the request (its [role] key included),
    [register] either leaves the database as it is and reports a
    failure, or appends one user whose role is [sales]; the
    administrators of the database are the same before and after; and
    the database left and the status answered do not depend on the
    value sent under [role]. *)
Theorem register_creates_sales_only (db : DB) (utcnow : Py.datetime)
    (body : option RegisterData.t) :
  let result := register strip generate_password_hash db utcnow body in
  ((fst result = db /\ success (snd result) = false
    /\ status_code (snd result) = 400)
   \/ (exists u,
         fst result
         = mkDB (users db ++ [u]) (products db) (inventory db) (orders db)
                (order_items db)
         /\ snd result = ok_response 201 UserRegistered u
         /\ User.role u = "sales"
         /\ User.is_sales u = true
         /\ User.is_admin u = false))
  /\ filter User.is_admin (users (fst result))
     = filter User.is_admin (users db)
  /\ (forall d requested_role,
        body = Some d ->
        let result' :=
          register strip generate_password_hash db utcnow
                   (Some (RegisterData.with_role requested_role d)) in
        fst result' = fst result
        /\ status_code (snd result') = status_code (snd result)).
Proof.
  intros result.
  assert (Hcases :
    (fst result = db /\ success (snd result) = false
     /\ status_code (snd result) = 400)
    \/ (exists u,
          fst result
          = mkDB (users db ++ [u]) (products db) (inventory db) (orders db)
                 (order_items db)
          /\ snd result = ok_response 201 UserRegistered u
          /\ User.role u = "sales"
          /\ User.is_sales u = true
          /\ User.is_admin u = false)).
  { subst result. unfold register. cbn.
    destruct body as [d|]; [|left; auto].
    destruct (RegisterData.is_empty d); [left; auto|].
    destruct (missing_or_blank strip (RegisterData.username d));
      [left; auto|].
    destruct (missing_or_blank strip (RegisterData.email d));
      [left; auto|].
    destruct (missing_or_blank strip (RegisterData.password d));
      [left; auto|].
    destruct (missing_or_blank strip (RegisterData.full_name d));
      [left; auto|].
    destruct (User.first_by_username _ _); [left; auto|].
    destruct (User.first_by_email _ _); [left; auto|].
    right. eexists. cbn. repeat split. }
  split; [exact Hcases|]. split.
  - destruct Hcases as [(-> & _) | (u & -> & _ & _ & _ & Hadm)];
      [reflexivity|].
    cbn. now apply filter_snoc_false.
  - intros d r -> result'. subst result result'.
    unfold register, RegisterData.with_role, RegisterData.is_empty.
    destruct d as [[un|] em pw fn ph ro]; cbn.
    + now destruct r.
    + destruct em, pw, fn, ph, ro, r; cbn; auto.
Qed.

End Registration.

(** A body that asks for the role [admin] still makes a [sales] user. *)
Example register_sample :
  option_map User.role
    (data (snd (register ascii_strip sample_hash sample_db 100
                         (Some sample_registration))))
  = Some "sales"
  /\ option_map User.username
       (data (snd (register ascii_strip sample_hash sample_db 100
                            (Some sample_registration))))
     = Some "newsales".
Proof. split; reflexivity. Qed.

(** ** One inventory record per product and day *)

Section InventoryUniqueness.

Variable strptime_date : string -> option Py.date.

Lemma calculate_totals_anchor (r r' : Inventory.t) :
  Inventory.calculate_totals r = Py.Ok r' -> anchor r' = anchor r.
Proof.
  unfold Inventory.calculate_totals.
  destruct (Py.int_mul_float _ _); cbn; [|discriminate].
  intros H. now injection H as <-.
Qed.

Lemma assign_if_anchor {A : Type} (v : option A)
    (set : A -> Inventory.t -> Inventory.t) (r : Inventory.t) :
  (forall a x, anchor (set a x) = anchor x) ->
  anchor (assign_if v set r) = anchor r.
Proof. intros H. destruct v; cbn; [apply H | reflexivity]. Qed.

Lemma inventory_get_first (l : list Inventory.t) (k : Z)
    (r : Inventory.t) :
  Inventory.get l k = Some r -> Inventory.id r = k.
Proof.
  unfold Inventory.get. intros H. apply find_some in H.
  now apply Z.eqb_eq.
Qed.

Lemma replace_first_anchor (l : list Inventory.t) (k : Z)
    (old new : Inventory.t) :
  Inventory.get l k = Some old ->
  anchor new = anchor old ->
  map anchor (replace_first (fun x => Inventory.id x =? k) new l)
  = map anchor l.
Proof.
  intros Hget Hnew. revert Hget. unfold Inventory.get.
  induction l as [|x l IH]; cbn; [discriminate|].
  destruct (Inventory.id x =? k); cbn.
  - intros H. injection H as ->. now rewrite Hnew.
  - intros H. now rewrite (IH H).
Qed.

Lemma map_anchor_key (l l' : list Inventory.t) :
  map anchor l' = map anchor l -> map record_key l' = map record_key l.
Proof.
  intros H.
  assert (E : forall t, map record_key t = map snd (map anchor t)).
  { intros t. rewrite map_map. reflexivity. }
  now rewrite !E, H.
Qed.

Lemma first_by_product_and_date_none (l : list Inventory.t) (pid : Z)
    (d : Py.date) :
  first_by_product_and_date l pid d = None ->
  ~ In (pid, d) (map record_key l).
Proof.
  unfold first_by_product_and_date. intros Hnone Hin.
  apply in_map_iff in Hin. destruct Hin as (r & Hkey & Hr).
  pose proof (find_none _ _ Hnone r Hr) as Hf. cbn in Hf.
  unfold record_key in Hkey. injection Hkey as Hp Hd.
  rewrite Hp, Z.eqb_refl, Hd in Hf. cbn in Hf.
  assert (Hrefl : Py.date_eqb d d = true) by now apply date_eqb_eq.
  congruence.
Qed.

Lemma first_by_product_and_date_some (l : list Inventory.t)
    (r : Inventory.t) :
  In r l ->
  first_by_product_and_date l (Inventory.product_id r) (Inventory.date r)
  <> None.
Proof.
  unfold first_by_product_and_date. intros Hr Hnone.
  pose proof (find_none _ _ Hnone r Hr) as Hf. cbn in Hf.
  rewrite Z.eqb_refl in Hf. cbn in Hf.
  assert (Hrefl : Py.date_eqb (Inventory.date r) (Inventory.date r) = true)
    by now apply date_eqb_eq.
  congruence.
Qed.

(** [create_inventory_record] leaves the table alone or appends one
    row whose product and date no row had. *)
Lemma create_inventory_record_outcome (db : DB) (utcnow : Py.datetime)
    (today : Py.date) (current_user : User.t)
    (body : option InventoryData.t) :
  let result :=
    create_inventory_record strptime_date db utcnow today current_user
                            body in
  (fst result = db /\ success (snd result) = false)
  \/ (exists r,
        inventory (fst result) = inventory db ++ [r]
        /\ ~ In (record_key r) (map record_key (inventory db))
        /\ status_code (snd result) = 201).
Proof.
  unfold create_inventory_record. cbn.
  destruct (negb (User.is_admin current_user)); [left; auto|].
  destruct body as [d|]; [|left; auto].
  destruct (InventoryData.is_empty d); [left; auto|].
  destruct (InventoryData.product_id d) as [pid|]; [|left; auto].
  destruct (Product.get (products db) pid); [|left; auto].
  destruct (match InventoryData.date d with
            | Some text => strptime_date text
            | None => Some today
            end) as [day|]; [|left; auto].
  destruct (first_by_product_and_date (inventory db) pid day) eqn:Efirst;
    [left; auto|].
  destruct (Inventory.calculate_totals _) as [r|e] eqn:Ecalc;
    [|left; auto].
  right. exists r. cbn. repeat split.
  apply calculate_totals_anchor in Ecalc.
  unfold anchor, record_key in Ecalc. injection Ecalc as _ Hp Hd.
  unfold record_key at 1. rewrite Hp, Hd. cbn.
  now apply first_by_product_and_date_none.
Qed.

(** [update_inventory_record] changes no row's key, product or date. *)
Lemma update_inventory_record_anchors (db : DB) (utcnow : Py.datetime)
    (current_user : User.t) (inventory_id : Z)
    (body : option InventoryData.t) :
  map anchor
      (inventory (fst (update_inventory_record db utcnow current_user
                                               inventory_id body)))
  = map anchor (inventory db).
Proof.
  unfold update_inventory_record. cbn.
  destruct (negb (User.is_admin current_user)); [reflexivity|].
  destruct (Inventory.get (inventory db) inventory_id) as [old|] eqn:Eget;
    [|reflexivity].
  destruct body as [d|]; [|reflexivity].
  destruct (InventoryData.is_empty d); [reflexivity|].
  destruct (Inventory.calculate_totals _) as [r|e] eqn:Ecalc;
    [|reflexivity].
  apply calculate_totals_anchor in Ecalc.
  repeat (rewrite assign_if_anchor in Ecalc; [|reflexivity]).
  assert (Hid : Inventory.id r = inventory_id).
  { apply inventory_get_first in Eget. unfold anchor in Ecalc.
    injection Ecalc as -> _. exact Eget. }
  cbn. rewrite Hid.
  now apply replace_first_anchor with (old := old).
Qed.

(** C7. The inventory table holds at most one record per product and
    date, and both writing handlers keep it so: [POST /inventory]
    changes nothing when the product and date of the request already
    have a record (answering 400 to an administrator whose product
    exists), and otherwise appends at most one row with a new product
    and date; [PUT /inventory/<id>] leaves the key, product and date of
    every row as it found them, whatever the body contains. *)
Theorem inventory_one_record_per_product_and_date (db : DB)
    (utcnow : Py.datetime) (today : Py.date) (current_user : User.t)
    (create_body update_body : option InventoryData.t) (inventory_id : Z) :
  one_record_per_product_and_date (inventory db) ->
  let created :=
    create_inventory_record strptime_date db utcnow today current_user
                            create_body in
  let updated :=
    update_inventory_record db utcnow current_user inventory_id
                            update_body in
  one_record_per_product_and_date (inventory (fst created))
  /\ one_record_per_product_and_date (inventory (fst updated))
  /\ map (fun r => (Inventory.id r, Inventory.product_id r, Inventory.date r))
         (inventory (fst updated))
     = map (fun r => (Inventory.id r, Inventory.product_id r,
                      Inventory.date r))
           (inventory db)
  /\ (forall d pid day r,
        create_body = Some d ->
        InventoryData.product_id d = Some pid ->
        requested_date strptime_date today d = Some day ->
        In r (inventory db) ->
        record_key r = (pid, day) ->
        fst created = db
        /\ success (snd created) = false
        /\ (User.is_admin current_user = true ->
            Product.get (products db) pid <> None ->
            status_code (snd created) = 400)).
Proof.
  intros Hinv created updated.
  pose proof (create_inventory_record_outcome db utcnow today current_user
                create_body) as Hc.
  pose proof (update_inventory_record_anchors db utcnow current_user
                inventory_id update_body) as Hu.
  fold created in Hc. fold updated in Hu.
  split; [|split; [|split]].
  - destruct Hc as [(-> & _) | (r & -> & Hnew & _)]; [exact Hinv|].
    unfold one_record_per_product_and_date. rewrite map_app. cbn.
    apply NoDup_app; trivial.
    + constructor; [tauto | constructor].
    + intros k Hk [<- | []]. contradiction.
  - unfold one_record_per_product_and_date.
    now rewrite (map_anchor_key _ _ Hu).
  - assert (E : forall t,
               map (fun r => (Inventory.id r, Inventory.product_id r,
                              Inventory.date r)) t
               = map (fun a => (fst a, fst (snd a), snd (snd a)))
                     (map anchor t)).
    { intros t. rewrite map_map. reflexivity. }
    now rewrite !E, Hu.
  - intros d pid day r -> Hpid Hday Hr Hkey.
    unfold record_key in Hkey. injection Hkey as Hp Hd.
    pose proof (first_by_product_and_date_some _ _ Hr) as Hsome.
    rewrite Hp, Hd in Hsome.
    assert (Hne : InventoryData.is_empty d = false).
    { unfold InventoryData.is_empty. now rewrite Hpid. }
    subst created. unfold create_inventory_record. cbn.
    unfold requested_date in Hday.
    destruct (negb (User.is_admin current_user)) eqn:Eadm.
    { cbn. repeat split. intros Ha. rewrite Ha in Eadm. discriminate. }
    rewrite Hne, Hpid.
    destruct (Product.get (products db) pid).
    2: { cbn. repeat split. intros _ Hp'. now contradiction Hp'. }
    rewrite Hday.
    destruct (first_by_product_and_date (inventory db) pid day);
      [|contradiction].
    cbn. auto.
Qed.

End InventoryUniqueness.

(** On the sample table an administrator's second count of product 1
    for 2024-07-20 is answered 400, and an update whose body names
    another product and day moves nothing. *)
Lemma inventory_uniqueness_sample :
  let created :=
    create_inventory_record sample_strptime sample_db 100
      (Py.mkdate 2024 7 21) sample_admin (Some sample_duplicate_count) in
  let updated :=
    update_inventory_record sample_db 100 sample_admin 3
                            (Some sample_update) in
  fst created = sample_db
  /\ status_code (snd created) = 400
  /\ status_code (snd updated) = 200
  /\ map record_key (inventory (fst updated))
     = map record_key (inventory sample_db)
  /\ one_record_per_product_and_date (inventory (fst updated)).
Proof.
  assert (Hinv : one_record_per_product_and_date (inventory sample_db)).
  { unfold one_record_per_product_and_date. cbn.
    repeat constructor; cbn; intuition discriminate. }
  destruct (inventory_one_record_per_product_and_date sample_strptime
              sample_db 100 (Py.mkdate 2024 7 21) sample_admin
              (Some sample_duplicate_count) (Some sample_update) 3 Hinv)
    as (_ & Hupd & _ & Hdup).
  destruct (Hdup sample_duplicate_count 1 (Py.mkdate 2024 7 20)
                 (nth 0 sample_inventory sample_movement)
                 eq_refl eq_refl eq_refl (or_introl eq_refl) eq_refl)
    as (Hsame & _ & H400).
  split; [exact Hsame|]. split; [apply H400; [reflexivity|discriminate]|].
  split; [reflexivity|]. split; [reflexivity|exact Hupd].
Defined.

(** * Further properties of the handlers *)

(** ** Orders after their creation *)

Section OrderFrame.

Lemma map_replace_first_found {A B : Type} (f : A -> B) (p : A -> bool)
    (old new : A) (l : list A) :
  find p l = Some old -> f new = f old ->
  map f (replace_first p new l) = map f l.
Proof.
  intros Hfind Hf. revert Hfind.
  induction l as [|x l IH]; cbn; [discriminate|].
  destruct (p x); cbn.
  - intros H. injection H as ->. now rewrite Hf.
  - intros H. now rewrite (IH H).
Qed.

Lemma stamped_core (utcnow utcnow' : Py.datetime) (new_status : string)
    (order : Order.t) :
  order_core (stamped utcnow utcnow' new_status order) = order_core order
  /\ Order.status (stamped utcnow utcnow' new_status order) = new_status.
Proof. unfold stamped. destruct (_ && _); split; reflexivity. Qed.

(** Every run of [update_order_status] leaves the database alone or
    replaces the order it found by [stamped]. *)
Lemma update_order_status_outcome (db : DB) (utcnow utcnow' : Py.datetime)
    (current_user : User.t) (order_id : Z) (body : option StatusData.t) :
  let result :=
    update_order_status db utcnow utcnow' current_user order_id body in
  (fst result = db /\ success (snd result) = false
   /\ status_code (snd result) <> 200)
  \/ (exists order new_status,
        Order.get (orders db) order_id = Some order
        /\ (User.is_sales current_user = true ->
            Order.sales_person_id order = User.id current_user)
        /\ body = Some (StatusData.mk (Some new_status))
        /\ In new_status valid_statuses
        /\ fst result
           = mkDB (users db) (products db) (inventory db)
                  (replace_first (fun x => Order.id x =? order_id)
                                 (stamped utcnow utcnow' new_status order)
                                 (orders db))
                  (order_items db)
        /\ snd result
           = ok_response 200
               (OrderStatusUpdated (Order.status order) new_status)
               (stamped utcnow utcnow' new_status order)).
Proof.
  unfold update_order_status, begin, commit, with_working.
  cbn [committed working].
  destruct (Order.get (orders db) order_id) as [order|] eqn:Eo;
    [|left; cbn; repeat split; discriminate].
  destruct (User.is_sales current_user
            && negb (Order.sales_person_id order =? User.id current_user))
    eqn:Eperm; [left; cbn; repeat split; discriminate|].
  destruct body as [[[new_status|]]|];
    try (left; cbn; repeat split; discriminate).
  destruct (negb (existsb (String.eqb new_status) valid_statuses)) eqn:Ev;
    [left; cbn; repeat split; discriminate|].
  right. exists order, new_status.
  split; [reflexivity|]. split.
  { intros Hs. rewrite Hs in Eperm. cbn in Eperm.
    apply negb_false_iff in Eperm. now apply Z.eqb_eq. }
  split; [reflexivity|]. split.
  { apply negb_false_iff in Ev. apply existsb_exists in Ev.
    destruct Ev as (x & Hx & Heq). apply String.eqb_eq in Heq. now subst x. }
  pose proof (order_get_id _ _ _ Eo) as Hid.
  pose proof (stamped_core utcnow utcnow' new_status order) as [Hcore _].
  assert (Hid' : Order.id (stamped utcnow utcnow' new_status order)
                 = order_id).
  { unfold order_core in Hcore. injection Hcore as Hi _. congruence. }
  cbn [fst snd]. fold (stamped utcnow utcnow' new_status order).
  unfold update_order. rewrite Hid'. split; reflexivity.
Qed.

(** X1. A status update writes nothing but the status columns of the
    order it names: users, products, inventory and order items are as
    before, every order keeps its key, owner, customer, total and
    creation columns, every other order is returned by [query.get]
    exactly as before, and when the caller has role [sales] and the
    order belongs to someone else the whole database is unchanged. *)
Theorem update_order_status_frame (db : DB) (utcnow utcnow' : Py.datetime)
    (current_user : User.t) (order_id : Z) (body : option StatusData.t) :
  let db' :=
    fst (update_order_status db utcnow utcnow' current_user order_id body) in
  users db' = users db
  /\ products db' = products db
  /\ inventory db' = inventory db
  /\ order_items db' = order_items db
  /\ map order_core (orders db') = map order_core (orders db)
  /\ (forall i, i <> order_id ->
                Order.get (orders db') i = Order.get (orders db) i)
  /\ (forall order,
        User.is_sales current_user = true ->
        Order.get (orders db) order_id = Some order ->
        Order.sales_person_id order <> User.id current_user ->
        db' = db).
Proof.
  intros db'. subst db'.
  destruct (update_order_status_outcome db utcnow utcnow' current_user
              order_id body)
    as [(-> & _) | (order & st & Hget & Hown & _ & _ & -> & _)].
  - repeat split; trivial.
  - cbn [fst users products inventory orders order_items].
    repeat split; trivial.
    + apply map_replace_first_found with (old := order); [exact Hget|].
      apply stamped_core.
    + intros i Hi.
      destruct (stamped_core utcnow utcnow' st order) as [Hcore _].
      assert (Hid : Order.id (stamped utcnow utcnow' st order) = order_id).
      { unfold order_core in Hcore. injection Hcore as Hc _.
        rewrite Hc. now apply order_get_id in Hget. }
      pose proof (order_get_update (orders db)
                    (stamped utcnow utcnow' st order) i) as Hu.
      rewrite Hid in Hu. rewrite Hu.
      apply Z.eqb_neq in Hi. now rewrite Hi.
    + intros order' Hs Hget' Hne. rewrite Hget in Hget'.
      injection Hget' as <-. now specialize (Hown Hs).
Qed.

End OrderFrame.

(** ** Keys and references of the order tables *)

Section OrderTables.

Lemma NoDup_snoc_fresh (keys : list Z) :
  NoDup keys -> NoDup (keys ++ [next_id keys]).
Proof.
  intros H. apply NoDup_app; trivial.
  - constructor; [tauto | constructor].
  - intros k Hk [<- | []]. apply next_id_fresh in Hk. lia.
Qed.

Lemma process_items_keys (utcnow : Py.datetime) (oid : Z)
    (items : list ItemData.t) :
  forall s total acc s' total' acc',
    process_items utcnow oid items s total acc
    = (s', Py.Ok (Completed total' acc')) ->
    NoDup (map OrderItem.id (order_items (working s))) ->
    NoDup (map OrderItem.id (order_items (working s'))).
Proof.
  induction items as [|line rest IH]; intros s total acc s' total' acc' H Hnd;
    cbn in H.
  - now injection H as <- _ _.
  - destruct (ItemData.product_id line) as [pid|];
      [destruct (ItemData.quantity line) as [qty|]|]; try discriminate.
    destruct (Product.get (products (working s)) pid) as [p|];
      [|discriminate].
    destruct (Product.is_active p); [|discriminate].
    destruct (Inventory.get_current_stock _ _ <? qty); [discriminate|].
    destruct (OrderItem.calculate_total_price _) as [it|e] eqn:Eit;
      [|discriminate].
    apply calculate_total_price_ok in Eit. cbn in Eit.
    apply IH in H; trivial. cbn. rewrite map_app. cbn.
    subst it. cbn. now apply NoDup_snoc_fresh.
Qed.

Lemma create_order_item_keys (db : DB) (utcnow : Py.datetime)
    (current_user : User.t) (body : option OrderData.t) :
  NoDup (map OrderItem.id (order_items db)) ->
  NoDup (map OrderItem.id
             (order_items (fst (create_order db utcnow current_user body)))).
Proof.
  intros Hnd. unfold create_order. cbn.
  destruct body as [d|]; trivial.
  destruct (OrderData.is_empty d); trivial.
  destruct (OrderData.customer_name d); trivial.
  destruct (OrderData.delivery_area d); trivial.
  destruct (OrderData.items d) as [[|line lines]|]; trivial.
  destruct (process_items _ _ _ _ _ _) as [s' r] eqn:E.
  pose proof (process_items_spec _ _ _ _ _ _ _ _ E) as [Hc Hs].
  destruct r as [[r | total items] | e]; cbn.
  - now rewrite Hc.
  - eapply process_items_keys; [exact E | exact Hnd].
  - now rewrite Hc.
Qed.

Lemma Forall_replace_first {A : Type} (P : A -> Prop) (p : A -> bool)
    (new : A) (l : list A) :
  P new -> Forall P l -> Forall P (replace_first p new l).
Proof.
  intros Hn. induction 1 as [|x l Hx Hl IH]; cbn; [constructor|].
  destruct (p x); constructor; trivial.
Qed.

(** X2. Order keys stay distinct, item keys stay distinct, every order
    has one of the five statuses, and every item points to a stored
    order and a stored product: [create_order] and
    [update_order_status] keep all four, whatever the request. *)
Theorem order_tables_stay_consistent (db : DB)
    (utcnow utcnow' : Py.datetime) (current_user : User.t)
    (body : option OrderData.t) (order_id : Z)
    (status_body : option StatusData.t) :
  order_tables_consistent db ->
  order_tables_consistent (fst (create_order db utcnow current_user body))
  /\ order_tables_consistent
       (fst (update_order_status db utcnow utcnow' current_user order_id
                                 status_body)).
Proof.
  intros (Hok & Hik & Hst & Href). split.
  - pose proof (create_order_item_keys db utcnow current_user body Hik)
      as Hik'.
    destruct (create_order db utcnow current_user body) as [db' resp] eqn:E.
    apply create_order_outcome in E. cbn [fst] in *.
    destruct E as [(-> & _) | E]; [repeat split; trivial|].
    destruct E as (d & lines & order & items & _ & _ & _ & -> & Hall & _
                   & Hid & _ & Hpend & _).
    unfold order_tables_consistent.
    cbn [orders order_items products] in *. repeat split; trivial.
    + rewrite map_app. cbn [map]. rewrite Hid. now apply NoDup_snoc_fresh.
    + apply Forall_app. split; trivial. constructor; [|constructor].
      rewrite Hpend. cbn. auto.
    + apply Forall_app. split.
      * eapply Forall_impl; [|exact Href]. cbn. intros it [Ho Hp].
        split; trivial. rewrite map_app. apply in_or_app. now left.
      * clear - Hall. induction Hall as [|l it ls its Hit _ IH];
          constructor; trivial.
        destruct Hit as (p & _ & _ & Hget & _ & _ & Ho & _).
        split; [|congruence].
        rewrite map_app. apply in_or_app. right. cbn. auto.
  - destruct (update_order_status_outcome db utcnow utcnow' current_user
                order_id status_body)
      as [(-> & _) | (order & st & Hget & _ & _ & Hin & -> & _)];
      [repeat split; trivial|].
    assert (Hids : map Order.id
                     (replace_first (fun x => Order.id x =? order_id)
                        (stamped utcnow utcnow' st order) (orders db))
                   = map Order.id (orders db)).
    { apply map_replace_first_found with (old := order); [exact Hget|].
      destruct (stamped_core utcnow utcnow' st order) as [Hc _].
      unfold order_core in Hc. now injection Hc as Hc _. }
    unfold order_tables_consistent. cbn. rewrite Hids.
    repeat split; trivial.
    apply Forall_replace_first; trivial.
    destruct (stamped_core utcnow utcnow' st order) as [_ Hs].
    now rewrite Hs.
Qed.

Lemma find_snoc_fresh {A : Type} (p : A -> bool) (l : list A) (x : A) :
  (forall y, In y l -> p y = false) -> p x = true ->
  find p (l ++ [x]) = Some x.
Proof.
  intros Hl Hx. induction l as [|y l IH]; cbn.
  - now rewrite Hx.
  - rewrite (Hl y (or_introl eq_refl)). apply IH.
    intros z Hz. apply Hl. now right.
Qed.

Lemma filter_none {A : Type} (p : A -> bool) (l : list A) :
  (forall y, In y l -> p y = false) -> filter p l = [].
Proof.
  induction l as [|y l IH]; cbn; trivial. intros H.
  rewrite (H y (or_introl eq_refl)). apply IH. intros z Hz. apply H.
  now right.
Qed.

Lemma filter_all {A : Type} (p : A -> bool) (l : list A) :
  (forall y, In y l -> p y = true) -> filter p l = l.
Proof.
  induction l as [|y l IH]; cbn; trivial. intros H.
  rewrite (H y (or_introl eq_refl)). f_equal. apply IH. intros z Hz.
  apply H. now right.
Qed.

(** X3. An order that [create_order] has just answered with 201 can be
    read back by its creator: provided every stored item belongs to a
    stored order, [get_order] on the new key answers 200 with exactly
    that order and exactly the created items, each with its product. *)
Theorem created_order_is_retrievable (db db' : DB) (utcnow : Py.datetime)
    (current_user : User.t) (body : option OrderData.t)
    (order : Order.t) (items : list OrderItem.t) :
  create_order db utcnow current_user body
  = (db', ok_response 201 OrderCreated (order, items)) ->
  (forall it, In it (order_items db) ->
              In (OrderItem.order_id it) (map Order.id (orders db))) ->
  let resp := get_order db' current_user (Order.id order) in
  status_code resp = 200
  /\ exists detail,
       data resp = Some detail
       /\ detail_order detail = order
       /\ map fst (detail_items detail) = items
       /\ Forall (fun entry =>
                    exists p, snd entry = Some p
                              /\ Product.trade_price p
                                 = OrderItem.unit_price (fst entry))
                 (detail_items detail).
Proof.
  intros E Href resp. subst resp.
  apply create_order_outcome in E.
  destruct E as [(_ & Hs & _) | E]; [discriminate|].
  destruct E as (d & lines & order' & items' & _ & _ & Hresp & -> & Hall & _
                 & Hid & Hown & _).
  unfold ok_response in Hresp. injection Hresp as <- <-.
  unfold get_order. cbn [orders order_items products users].
  assert (Hget : Order.get (orders db ++ [order]) (Order.id order)
                 = Some order).
  { unfold Order.get. apply find_snoc_fresh.
    - intros y Hy. apply Z.eqb_neq.
      pose proof (next_id_fresh _ _ (in_map Order.id _ _ Hy)). lia.
    - apply Z.eqb_refl. }
  rewrite Hget, Hown, Z.eqb_refl, andb_false_r.
  assert (Hitems : OrderItem.filter_by_order_id (Order.id order)
                     (order_items db ++ items) = items).
  { unfold OrderItem.filter_by_order_id. rewrite filter_app.
    rewrite filter_none, filter_all; trivial.
    - intros it Hit. apply Z.eqb_eq.
      destruct (Forall2_in_left (fun a b => item_of_line (products db)
                  (inventory db) (Order.id order) b a) items lines it)
        as (l & _ & Hl); trivial.
      + now apply Forall2_flip.
      + now destruct Hl as (p & _ & _ & _ & _ & _ & Ho & _).
    - intros it Hit. apply Z.eqb_neq.
      pose proof (next_id_fresh _ _ (Href it Hit)). lia. }
  rewrite Hitems. cbn. split; [reflexivity|].
  eexists. split; [reflexivity|]. cbn. split; [reflexivity|]. split.
  - rewrite map_map. cbn. apply map_id.
  - clear - Hall. induction Hall as [|l it ls its Hit _ IH]; cbn;
      constructor; trivial.
    destruct Hit as (p & _ & _ & Hget & _ & _ & _ & Hu & _).
    exists p. cbn. split; congruence.
Qed.

End OrderTables.

(** The sample database is consistent, and stays so through the sample
    order and the delivery of order 1. *)
Lemma order_tables_consistent_sample :
  order_tables_consistent
    (fst (create_order sample_db 100 sample_sales1
            (Some (sample_request [order_line 1 2; order_line 2 1]))))
  /\ order_tables_consistent
       (fst (update_order_status sample_db 100 101 sample_sales1 1
                                 (set_status_to "delivered"))).
Proof.
  apply order_tables_stay_consistent.
  unfold order_tables_consistent. cbn.
  repeat split; repeat constructor; cbn; intuition discriminate.
Defined.

(** The sample order is stored under key 2 and read back by its
    creator with its two items. *)
Lemma created_order_is_retrievable_sample :
  let result :=
    create_order sample_db 100 sample_sales1
                 (Some (sample_request [order_line 1 2; order_line 2 1])) in
  status_code (get_order (fst result) sample_sales1 2) = 200
  /\ option_map (fun d => List.length (detail_items d))
                (data (get_order (fst result) sample_sales1 2))
     = Some 2%nat.
Proof.
  intros result.
  assert (H : exists order items,
             create_order sample_db 100 sample_sales1
               (Some (sample_request [order_line 1 2; order_line 2 1]))
             = (fst result, ok_response 201 OrderCreated (order, items))
             /\ Order.id order = 2 /\ List.length items = 2%nat).
  { eexists. eexists. split; [vm_compute; reflexivity|].
    split; reflexivity. }
  destruct H as (order & items & Hrun & Hid & Hlen).
  destruct (created_order_is_retrievable sample_db (fst result) 100
              sample_sales1 _ order items Hrun)
    as (H200 & detail & Hdata & _ & Hitems & _).
  - intros it [<- | []]. cbn. auto.
  - rewrite Hid in H200, Hdata. split; [exact H200|].
    rewrite Hdata. cbn. rewrite <- Hlen, <- Hitems.
    now rewrite length_map.
Defined.

(** ** The line that stops an order *)

Section FirstOffendingLine.





End FirstOffendingLine.



(** ** Inventory records and the current stock *)

Section InventoryTotals.

Variable strptime_date : string -> option Py.date.

Lemma calculate_totals_consistent (r r' : Inventory.t) :
  Inventory.calculate_totals r = Py.Ok r' ->
  totals_consistent r'
  /\ anchor r' = anchor r
  /\ (Inventory.opening_pieces r', Inventory.lifting_pieces r',
      Inventory.return_market_pieces r', Inventory.return_office_pieces r')
     = (Inventory.opening_pieces r, Inventory.lifting_pieces r,
        Inventory.return_market_pieces r, Inventory.return_office_pieces r)
  /\ (Inventory.lifting_price r', Inventory.return_market_price r',
      Inventory.return_office_price r', Inventory.ims_pieces r',
      Inventory.ims_value r', Inventory.created_at r',
      Inventory.updated_at r')
     = (Inventory.lifting_price r, Inventory.return_market_price r,
        Inventory.return_office_price r, Inventory.ims_pieces r,
        Inventory.ims_value r, Inventory.created_at r,
        Inventory.updated_at r).
Proof.
  unfold Inventory.calculate_totals.
  destruct (Py.int_mul_float _ _) as [v|e] eqn:E; cbn; [|discriminate].
  intros H. injection H as <-. apply int_mul_float_ok in E. cbn in E.
  unfold totals_consistent. cbn. repeat split. exact E.
Qed.

(** What [create_inventory_record] has done when it answers 201. *)
Lemma create_inventory_record_created (db db' : DB)
    (utcnow : Py.datetime) (today : Py.date) (current_user : User.t)
    (body : option InventoryData.t) (r : Inventory.t) :
  create_inventory_record strptime_date db utcnow today current_user body
  = (db', ok_response 201 InventoryCreated r) ->
  exists d pid day,
    body = Some d
    /\ User.is_admin current_user = true
    /\ InventoryData.product_id d = Some pid
    /\ requested_date strptime_date today d = Some day
    /\ first_by_product_and_date (inventory db) pid day = None
    /\ db' = add_inventory r db
    /\ Inventory.product_id r = pid
    /\ Inventory.date r = day
    /\ Inventory.opening_pieces r
       = get_default (InventoryData.opening_pieces d) 0
    /\ Inventory.lifting_pieces r
       = get_default (InventoryData.lifting_pieces d) 0
    /\ Inventory.return_market_pieces r
       = get_default (InventoryData.return_market_pieces d) 0
    /\ Inventory.return_office_pieces r
       = get_default (InventoryData.return_office_pieces d) 0
    /\ totals_consistent r.
Proof.
  unfold create_inventory_record, requested_date. cbn.
  destruct (User.is_admin current_user); cbn; [|discriminate].
  destruct body as [d|]; [|discriminate].
  destruct (InventoryData.is_empty d); [discriminate|].
  destruct (InventoryData.product_id d) as [pid|] eqn:Epid; [|discriminate].
  destruct (Product.get (products db) pid); [|discriminate].
  destruct (match InventoryData.date d with
            | Some text => strptime_date text
            | None => Some today
            end) as [day|] eqn:Eday; [|discriminate].
  destruct (first_by_product_and_date (inventory db) pid day) eqn:Efirst;
    [discriminate|].
  destruct (Inventory.calculate_totals _) as [r0|e] eqn:Ecalc;
    [|discriminate].
  intros H. unfold ok_response in H. injection H as <- <-.
  apply calculate_totals_consistent in Ecalc.
  destruct Ecalc as (Hcons & Ha & Hm & _).
  unfold anchor, record_key in Ha. cbn in Ha, Hm.
  injection Ha as _ Hp Hd. injection Hm as Ho Hl Hrm Hro.
  exists d, pid, day. repeat split; trivial; apply Hcons.
Qed.

Lemma first_order_by_is_latest (q : list Inventory.t) :
  Inventory.first (Inventory.order_by_date_desc q) = latest_record q.
Proof.
  unfold Inventory.first, Inventory.order_by_date_desc.
  induction q as [|x q IH]; cbn; [reflexivity|].
  rewrite <- IH.
  destruct (fold_right Inventory.insert_date_desc [] q) as [|y l]; cbn;
    [reflexivity|].
  now destruct (Py.date_ltb (Inventory.date x) (Inventory.date y)).
Qed.

Lemma date_not_ltb_trans (a b c : Py.date) :
  Py.date_ltb a b = false -> Py.date_ltb b c = false ->
  Py.date_ltb a c = false.
Proof.
  intros Hab Hbc. apply date_not_ltb_leb in Hab, Hbc.
  pose proof (date_leb_trans _ _ _ Hbc Hab) as H.
  unfold Py.date_leb in H. now apply negb_true_iff in H.
Qed.

Lemma date_ltb_trans (a b c : Py.date) :
  Py.date_ltb a b = true -> Py.date_ltb b c = true ->
  Py.date_ltb a c = true.
Proof.
  intros Hab Hbc. destruct (Py.date_ltb a c) eqn:Hac; trivial.
  apply date_not_ltb_leb in Hac. apply date_ltb_leb in Hab.
  pose proof (date_leb_trans _ _ _ Hac Hab) as H.
  unfold Py.date_leb in H. rewrite Hbc in H. discriminate.
Qed.

Lemma latest_record_snoc (l : list Inventory.t) (r : Inventory.t) :
  latest_record (l ++ [r])
  = match latest_record l with
    | None => Some r
    | Some y =>
        if Py.date_ltb (Inventory.date y) (Inventory.date r)
        then Some r
        else Some y
    end.
Proof.
  induction l as [|x l IH]; cbn; [reflexivity|].
  rewrite IH. destruct (latest_record l) as [y|]; cbn.
  - destruct (Py.date_ltb (Inventory.date y) (Inventory.date r)) eqn:Eyr;
      destruct (Py.date_ltb (Inventory.date x) (Inventory.date y)) eqn:Exy;
      cbn; rewrite ?Eyr; trivial.
    + now rewrite (date_ltb_trans _ _ _ Exy Eyr).
    + now rewrite (date_not_ltb_trans _ _ _ Exy Eyr).
  - now destruct (Py.date_ltb (Inventory.date x) (Inventory.date r)).
Qed.

Lemma current_stock_latest (l : list Inventory.t) (pid : Z) :
  Inventory.get_current_stock l pid
  = match latest_record (Inventory.filter_by_product_id pid l) with
    | Some y => Inventory.present_stock y
    | None => 0
    end.
Proof.
  unfold Inventory.get_current_stock. now rewrite first_order_by_is_latest.
Qed.

Lemma latest_record_dated_before (l : list Inventory.t) (pid : Z)
    (day : Py.date) :
  all_dated_before l pid day
  = match latest_record (Inventory.filter_by_product_id pid l) with
    | Some y => Py.date_ltb (Inventory.date y) day
    | None => true
    end.
Proof.
  destruct (latest_record (Inventory.filter_by_product_id pid l))
    as [y|] eqn:E.
  - rewrite <- first_order_by_is_latest in E.
    apply first_order_by_latest in E. destruct E as [Hin Hmax].
    destruct (Py.date_ltb (Inventory.date y) day) eqn:Ey.
    + unfold all_dated_before. apply forallb_forall. intros x Hx.
      destruct (Inventory.product_id x =? pid) eqn:Ep; cbn; trivial.
      assert (Hxf : In x (Inventory.filter_by_product_id pid l))
        by (apply filter_In; auto).
      specialize (Hmax x Hxf). unfold Py.date_leb in Hmax.
      apply negb_true_iff in Hmax.
      destruct (Py.date_ltb (Inventory.date x) day) eqn:Ex; trivial.
      now rewrite (date_not_ltb_trans _ _ _ Hmax Ex) in Ey.
    + apply not_true_is_false. intros Hall.
      unfold all_dated_before in Hall.
      apply filter_In in Hin. destruct Hin as [Hin Hp].
      pose proof (proj1 (forallb_forall _ _) Hall y Hin) as Hy.
      cbn in Hy. rewrite Hp, Ey in Hy. discriminate.
  - rewrite <- first_order_by_is_latest in E.
    apply first_order_by_none in E.
    unfold all_dated_before. apply forallb_forall. intros x Hx.
    destruct (Inventory.product_id x =? pid) eqn:Ep; cbn; trivial.
    assert (Hxf : In x (Inventory.filter_by_product_id pid l))
      by (apply filter_In; auto).
    rewrite E in Hxf. contradiction.
Qed.

(** X6. Whenever [POST /inventory] answers 201, the current stock of
    the record's product becomes the record's [present_stock] (opening
    plus returns minus lifting of the request, absent counts being 0)
    exactly when every record the product already had is dated before
    the new one; a record entered for an earlier day leaves the current
    stock as it was, and so does any record of another product. *)
Theorem create_inventory_record_current_stock (db db' : DB)
    (utcnow : Py.datetime) (today : Py.date) (current_user : User.t)
    (body : option InventoryData.t) (r : Inventory.t) :
  create_inventory_record strptime_date db utcnow today current_user body
  = (db', ok_response 201 InventoryCreated r) ->
  (exists d,
     body = Some d
     /\ Inventory.present_stock r
        = get_default (InventoryData.opening_pieces d) 0
          + get_default (InventoryData.return_market_pieces d) 0
          + get_default (InventoryData.return_office_pieces d) 0
          - get_default (InventoryData.lifting_pieces d) 0)
  /\ forall pid,
       Inventory.get_current_stock (inventory db') pid
       = if (Inventory.product_id r =? pid)
            && all_dated_before (inventory db) pid (Inventory.date r)
         then Inventory.present_stock r
         else Inventory.get_current_stock (inventory db) pid.
Proof.
  intros H. apply create_inventory_record_created in H.
  destruct H as (d & pid0 & day & -> & _ & _ & _ & _ & -> & Hp & Hd & Ho & Hl
                 & Hm & Hf & Hcons).
  split.
  - exists d. split; [reflexivity|].
    destruct Hcons as (Ht & Hpr & _). rewrite Hpr, Ht, Ho, Hl, Hm, Hf.
    reflexivity.
  - intros pid. cbn [add_inventory inventory].
    rewrite !current_stock_latest, latest_record_dated_before.
    unfold Inventory.filter_by_product_id. rewrite filter_app. cbn.
    destruct (Inventory.product_id r =? pid); cbn.
    + rewrite latest_record_snoc.
      destruct (latest_record _) as [y|]; trivial.
      now destruct (Py.date_ltb (Inventory.date y) (Inventory.date r)).
    + now rewrite app_nil_r.
Qed.

Lemma create_inventory_record_cases (db : DB) (utcnow : Py.datetime)
    (today : Py.date) (current_user : User.t)
    (body : option InventoryData.t) :
  let result :=
    create_inventory_record strptime_date db utcnow today current_user
                            body in
  (fst result = db /\ success (snd result) = false)
  \/ (exists r,
        result = (add_inventory r db, ok_response 201 InventoryCreated r)).
Proof.
  unfold create_inventory_record. cbn.
  destruct (negb (User.is_admin current_user)); [left; auto|].
  destruct body as [d|]; [|left; auto].
  destruct (InventoryData.is_empty d); [left; auto|].
  destruct (InventoryData.product_id d) as [pid|]; [|left; auto].
  destruct (Product.get (products db) pid); [|left; auto].
  destruct (match InventoryData.date d with
            | Some text => strptime_date text
            | None => Some today
            end) as [day|]; [|left; auto].
  destruct (first_by_product_and_date (inventory db) pid day);
    [left; auto|].
  destruct (Inventory.calculate_totals _) as [r|e]; [|left; auto].
  right. now exists r.
Qed.

(** What [update_inventory_record] does, by its answer. *)
Lemma update_inventory_record_cases (db : DB) (utcnow : Py.datetime)
    (current_user : User.t) (inventory_id : Z)
    (body : option InventoryData.t) :
  let result :=
    update_inventory_record db utcnow current_user inventory_id body in
  (fst result = db /\ success (snd result) = false)
  \/ (exists old d r,
        Inventory.get (inventory db) inventory_id = Some old
        /\ body = Some d
        /\ User.is_admin current_user = true
        /\ result = (update_inventory r db,
                     ok_response 200 InventoryUpdated r)
        /\ totals_consistent r
        /\ anchor r = anchor old
        /\ (Inventory.opening_pieces r, Inventory.lifting_pieces r,
            Inventory.return_market_pieces r,
            Inventory.return_office_pieces r)
           = merged_movement d old
        /\ Inventory.created_at r = Inventory.created_at old
        /\ Inventory.updated_at r = utcnow).
Proof.
  unfold update_inventory_record. cbn.
  destruct (User.is_admin current_user); cbn; [|left; auto].
  destruct (Inventory.get (inventory db) inventory_id) as [old|] eqn:Eget;
    [|left; auto].
  destruct body as [d|]; [|left; auto].
  destruct (InventoryData.is_empty d); [left; auto|].
  destruct (Inventory.calculate_totals _) as [r|e] eqn:Ecalc;
    [|left; auto].
  right. exists old, d, (Inventory.set_updated_at utcnow r).
  apply calculate_totals_consistent in Ecalc.
  destruct Ecalc as (Hcons & Ha & Hm & Hrest).
  split; [reflexivity|]. split; [reflexivity|]. split; [reflexivity|].
  split; [reflexivity|]. split; [exact Hcons|]. split.
  { change (anchor (Inventory.set_updated_at utcnow r)) with (anchor r).
    rewrite Ha. repeat (rewrite assign_if_anchor; [|reflexivity]).
    reflexivity. }
  split.
  { transitivity (Inventory.opening_pieces r, Inventory.lifting_pieces r,
                  Inventory.return_market_pieces r,
                  Inventory.return_office_pieces r); [reflexivity|].
    rewrite Hm. unfold merged_movement.
    destruct d as [pi da [o|] [l|] [lp|] [rm|] [rmp|] [ro|] [rop|] [ip|]
                   [iv|]]; reflexivity. }
  split; [|reflexivity].
  transitivity (Inventory.created_at r); [reflexivity|].
  injection Hrest as _ _ _ _ _ Hcr _. rewrite Hcr.
  destruct d as [pi da [o|] [l|] [lp|] [rm|] [rmp|] [ro|] [rop|] [ip|]
                 [iv|]]; reflexivity.
Qed.

Lemma inventory_get_update (l : list Inventory.t) (new : Inventory.t)
    (k : Z) (old : Inventory.t) :
  Inventory.get l k = Some old -> Inventory.id new = k ->
  Inventory.get (replace_first (fun x => Inventory.id x =? k) new l) k
  = Some new.
Proof.
  unfold Inventory.get. intros Hget Hid. revert Hget.
  induction l as [|x l IH]; cbn; [discriminate|].
  destruct (Inventory.id x =? k) eqn:Ex; cbn.
  - intros _. now rewrite Hid, Z.eqb_refl.
  - rewrite Ex. exact IH.
Qed.

(** X7. Both writing handlers keep the derived columns in step with
    the movement columns: if every stored record has [total_stock] =
    opening + returns - lifting, [present_stock] = [total_stock] and
    [closing_value] = [present_stock * 140.0], then so has every record
    after [POST /inventory] and after [PUT /inventory/<id>]. *)
Theorem inventory_totals_stay_consistent (db : DB) (utcnow : Py.datetime)
    (today : Py.date) (current_user : User.t)
    (create_body update_body : option InventoryData.t) (inventory_id : Z) :
  Forall totals_consistent (inventory db) ->
  Forall totals_consistent
    (inventory (fst (create_inventory_record strptime_date db utcnow today
                       current_user create_body)))
  /\ Forall totals_consistent
       (inventory (fst (update_inventory_record db utcnow current_user
                          inventory_id update_body))).
Proof.
  intros Hall. split.
  - destruct (create_inventory_record_cases db utcnow today current_user
                create_body) as [(-> & _) | (r & Hr)]; trivial.
    pose proof (create_inventory_record_created _ _ _ _ _ _ _ Hr) as Hc.
    destruct Hc as (d & pid & day & _ & _ & _ & _ & _ & _ & _ & _ & _ & _
                    & _ & _ & Hcons).
    rewrite Hr. cbn. apply Forall_app. split; trivial.
    now constructor.
  - destruct (update_inventory_record_cases db utcnow current_user
                inventory_id update_body)
      as [(-> & _) | (old & d & r & _ & _ & _ & -> & Hcons & _)]; trivial.
    cbn. now apply Forall_replace_first.
Qed.

(** X8. When [PUT /inventory/<id>] answers 200, the stored row has the
    movement counts of the body where the body names them and the old
    ones elsewhere, derived columns recomputed from the merged counts,
    the old key, product, date and creation time, and the request's
    time as [updated_at]; reading the key back gives that row; and the
    row is the data of the answer. *)
Theorem update_inventory_record_merges (db db' : DB) (utcnow : Py.datetime)
    (current_user : User.t) (inventory_id : Z)
    (body : option InventoryData.t) (r : Inventory.t) :
  update_inventory_record db utcnow current_user inventory_id body
  = (db', ok_response 200 InventoryUpdated r) ->
  exists old d,
    Inventory.get (inventory db) inventory_id = Some old
    /\ body = Some d
    /\ (Inventory.opening_pieces r, Inventory.lifting_pieces r,
        Inventory.return_market_pieces r, Inventory.return_office_pieces r)
       = merged_movement d old
    /\ totals_consistent r
    /\ (Inventory.id r, Inventory.product_id r, Inventory.date r,
        Inventory.created_at r)
       = (Inventory.id old, Inventory.product_id old, Inventory.date old,
          Inventory.created_at old)
    /\ Inventory.updated_at r = utcnow
    /\ Inventory.get (inventory db') inventory_id = Some r.
Proof.
  intros H.
  destruct (update_inventory_record_cases db utcnow current_user
              inventory_id body)
    as [(_ & Hs) | (old & d & r0 & Hget & -> & _ & Hr & Hcons & Ha & Hm & Hcr
                    & Hup)].
  - rewrite H in Hs. discriminate.
  - rewrite H in Hr. unfold ok_response in Hr. injection Hr as -> ->.
    exists old, d.
    split; [exact Hget|]. split; [reflexivity|]. split; [exact Hm|].
    split; [exact Hcons|]. split; [|split; [exact Hup|]].
    + unfold anchor, record_key in Ha. injection Ha as -> -> ->.
      now rewrite Hcr.
    + pose proof (inventory_get_first _ _ _ Hget) as Hid.
      assert (Hid' : Inventory.id r0 = inventory_id).
      { unfold anchor in Ha. injection Ha as -> _. exact Hid. }
      unfold update_inventory. cbn [inventory]. rewrite Hid'.
      now apply inventory_get_update with (old := old).
Qed.

End InventoryTotals.

(** Thirty pieces of product 2 counted for 2024-07-21 (one lifted, two
    returned) become its current stock; product 1 keeps its 15. *)
Lemma create_inventory_record_current_stock_sample :
  let db' :=
    fst (create_inventory_record sample_strptime sample_db 100
           (Py.mkdate 2024 7 22) sample_admin (Some sample_new_count)) in
  Inventory.get_current_stock (inventory db') 2 = 31
  /\ Inventory.get_current_stock (inventory db') 1 = 15.
Proof.
  intros db'.
  assert (H : exists r,
             create_inventory_record sample_strptime sample_db 100
               (Py.mkdate 2024 7 22) sample_admin (Some sample_new_count)
             = (db', ok_response 201 InventoryCreated r)
             /\ Inventory.product_id r = 2
             /\ Inventory.date r = Py.mkdate 2024 7 21
             /\ Inventory.present_stock r = 31).
  { eexists. split; [vm_compute; reflexivity|]. repeat split. }
  destruct H as (r & Hrun & Hp & Hd & Hs).
  destruct (create_inventory_record_current_stock sample_strptime
              sample_db db' 100 (Py.mkdate 2024 7 22) sample_admin
              (Some sample_new_count) r Hrun) as [_ Hstock].
  split.
  - rewrite (Hstock 2), Hp, Hd, Hs. reflexivity.
  - rewrite (Hstock 1), Hp. reflexivity.
Defined.

(** The sample table is consistent, and stays so. *)
Lemma inventory_totals_consistent_sample :
  Forall totals_consistent
    (inventory (fst (create_inventory_record sample_strptime sample_db 100
                       (Py.mkdate 2024 7 22) sample_admin
                       (Some sample_late_count))))
  /\ Forall totals_consistent
       (inventory (fst (update_inventory_record sample_db 100 sample_admin
                          3 (Some sample_update)))).
Proof.
  apply inventory_totals_stay_consistent.
  repeat constructor.
Defined.

(** Lifting 7 of the 5 pieces of record 3 leaves minus two. *)
Lemma update_inventory_record_merges_sample :
  exists r,
    Inventory.get
      (inventory (fst (update_inventory_record sample_db 100 sample_admin 3
                         (Some sample_update)))) 3
    = Some r
    /\ Inventory.present_stock r = -2
    /\ Inventory.product_id r = 2.
Proof.
  assert (H : exists r,
             update_inventory_record sample_db 100 sample_admin 3
                                     (Some sample_update)
             = (fst (update_inventory_record sample_db 100 sample_admin 3
                       (Some sample_update)),
                ok_response 200 InventoryUpdated r)
             /\ Inventory.present_stock r = -2
             /\ Inventory.product_id r = 2).
  { eexists. split; [vm_compute; reflexivity|]. split; reflexivity. }
  destruct H as (r & Hrun & Hs & Hp).
  destruct (update_inventory_record_merges _ _ _ _ _ _ _ Hrun)
    as (old & d & _ & _ & _ & _ & _ & _ & Hget).
  exists r. auto.
Defined.

(** ** The stock reports *)

Section StockReports.

Lemma insert_by_perm {A : Type} (key : A -> Z) (x : A) (l : list A) :
  Permutation (insert_by key x l) (x :: l).
Proof.
  induction l as [|y l IH]; cbn; [reflexivity|].
  destruct (key y <? key x); [|reflexivity].
  rewrite IH. apply perm_swap.
Qed.

Lemma sort_by_perm {A : Type} (key : A -> Z) (l : list A) :
  Permutation (sort_by key l) l.
Proof.
  induction l as [|x l IH]; cbn; [constructor|].
  rewrite insert_by_perm. now constructor.
Qed.

Lemma insert_by_sorted {A : Type} (key : A -> Z) (x : A) (l : list A) :
  StronglySorted (fun a b => key a <= key b) l ->
  StronglySorted (fun a b => key a <= key b) (insert_by key x l).
Proof.
  induction 1 as [|y l Hl IH Hy]; cbn.
  - repeat constructor.
  - destruct (key y <? key x) eqn:E.
    + apply Z.ltb_lt in E. constructor; trivial.
      apply Forall_forall. intros z Hz.
      apply (Permutation_in _ (insert_by_perm key x l)) in Hz.
      destruct Hz as [<- | Hz]; [lia|].
      exact (proj1 (Forall_forall _ _) Hy z Hz).
    + apply Z.ltb_ge in E. constructor; [now constructor|].
      constructor; trivial.
      eapply Forall_impl; [|exact Hy]. cbn. intros. lia.
Qed.

Lemma sort_by_sorted {A : Type} (key : A -> Z) (l : list A) :
  StronglySorted (fun a b => key a <= key b) (sort_by key l).
Proof.
  induction l as [|x l IH]; cbn; [constructor|].
  now apply insert_by_sorted.
Qed.

Lemma sort_by_length {A : Type} (key : A -> Z) (l : list A) :
  len (sort_by key l) = len l.
Proof.
  unfold len. now rewrite (Permutation_length (sort_by_perm key l)).
Qed.

Lemma low_stock_loop_filter (inventory : list Inventory.t) (threshold : Z)
    (products : list Product.t) :
  forall acc,
    low_stock_loop inventory threshold products acc
    = acc
      ++ map (low_stock_entry inventory threshold)
           (filter (fun p =>
                      Inventory.get_current_stock inventory (Product.id p)
                      <=? threshold)
                   products).
Proof.
  induction products as [|p rest IH]; intros acc; cbn.
  - now rewrite app_nil_r.
  - destruct (_ <=? threshold); rewrite IH; trivial.
    cbn. now rewrite <- app_assoc.
Qed.

(** X9. [get_low_stock_items] always answers 200.  Its list holds one
    entry for each active product whose current stock is at most the
    threshold (10 when none is given) and for no other product, in the
    order of rising stock; an entry is [critical] exactly when its stock
    is 0, so a negative stock is reported as [low]; [count] and
    [critical_items] count the entries and the zero-stock entries. *)
Theorem get_low_stock_items_report (db : DB) (threshold : option Z) :
  exists report,
    get_low_stock_items db threshold
    = answer 200 "Low stock items retrieved successfully" report
    /\ report_threshold report = get_default threshold 10
    /\ Permutation
         (map LowStockItem.product_id (low_stock_list report))
         (map Product.id
            (filter (fun p =>
                       Product.is_active p
                       && (Inventory.get_current_stock (inventory db)
                                                       (Product.id p)
                           <=? get_default threshold 10))
                    (products db)))
    /\ StronglySorted
         (fun a b =>
            LowStockItem.current_stock a <= LowStockItem.current_stock b)
         (low_stock_list report)
    /\ Forall (fun item =>
                 LowStockItem.current_stock item
                 = Inventory.get_current_stock (inventory db)
                     (LowStockItem.product_id item)
                 /\ LowStockItem.current_stock item
                    <= get_default threshold 10
                 /\ (LowStockItem.urgency item = "critical"
                     <-> LowStockItem.current_stock item = 0)
                 /\ (LowStockItem.current_stock item <> 0
                     -> LowStockItem.urgency item = "low"))
              (low_stock_list report)
    /\ report_count report = len (low_stock_list report)
    /\ critical_items report
       = len (filter (fun item => LowStockItem.current_stock item =? 0)
                     (low_stock_list report)).
Proof.
  unfold get_low_stock_items. eexists. split; [reflexivity|]. cbn.
  set (th := get_default threshold 10).
  rewrite low_stock_loop_filter. cbn [app].
  set (entries := map (low_stock_entry (inventory db) th) _).
  assert (Hent : Forall (fun item =>
                   LowStockItem.current_stock item
                   = Inventory.get_current_stock (inventory db)
                       (LowStockItem.product_id item)
                   /\ LowStockItem.current_stock item <= th
                   /\ (LowStockItem.urgency item = "critical"
                       <-> LowStockItem.current_stock item = 0)
                   /\ (LowStockItem.current_stock item <> 0
                       -> LowStockItem.urgency item = "low"))
                entries).
  { subst entries. apply Forall_forall. intros item Hitem.
    apply in_map_iff in Hitem. destruct Hitem as (p & <- & Hp).
    apply filter_In in Hp. destruct Hp as [Hp Hle].
    apply filter_In in Hp. apply Z.leb_le in Hle. cbn.
    repeat split; trivial.
    - destruct (Z.eqb_spec (Inventory.get_current_stock (inventory db)
                                                       (Product.id p)) 0);
        [trivial|discriminate].
    - intros ->. reflexivity.
    - intros Hne. apply Z.eqb_neq in Hne. now rewrite Hne. }
  split; [reflexivity|]. split; [|split; [|split; [|split]]].
  - rewrite (Permutation_map _ (sort_by_perm _ entries)).
    subst entries. rewrite map_map. cbn.
    assert (E : forall l,
               filter (fun p =>
                         Inventory.get_current_stock (inventory db)
                                                     (Product.id p) <=? th)
                      (filter Product.is_active l)
               = filter (fun p =>
                           Product.is_active p
                           && (Inventory.get_current_stock (inventory db)
                                 (Product.id p) <=? th)) l).
    { induction l as [|p l IH]; cbn; trivial.
      destruct (Product.is_active p); cbn; rewrite IH; trivial. }
    now rewrite E.
  - apply sort_by_sorted.
  - apply Forall_forall. intros item Hitem.
    apply (Permutation_in _ (sort_by_perm _ entries)) in Hitem.
    exact (proj1 (Forall_forall _ _) Hent item Hitem).
  - reflexivity.
  - f_equal. apply filter_ext_in. intros item Hitem.
    apply (Permutation_in _ (sort_by_perm _ entries)) in Hitem.
    destruct (proj1 (Forall_forall _ _) Hent item Hitem)
      as (_ & _ & Hcrit & Hlow).
    destruct (Z.eqb_spec (LowStockItem.current_stock item) 0) as [Hz|Hz].
    + apply String.eqb_eq. now apply Hcrit.
    + rewrite (Hlow Hz). reflexivity.
Qed.

Lemma latest_record_in (l : list Inventory.t) (y : Inventory.t) :
  latest_record l = Some y -> In y l.
Proof.
  revert y. induction l as [|x l IH]; cbn; [discriminate|].
  intros y. destruct (latest_record l) as [z|].
  - destruct (Py.date_ltb _ _); intros H; injection H as <-; auto.
  - intros H. injection H as <-. auto.
Qed.

Lemma current_stock_in_range (inventory : list Inventory.t) (pid : Z) :
  Forall (fun r => db_integer (Inventory.present_stock r)) inventory ->
  db_integer (Inventory.get_current_stock inventory pid).
Proof.
  intros Hall. rewrite current_stock_latest.
  destruct (latest_record _) as [y|] eqn:E.
  - apply latest_record_in in E. apply filter_In in E.
    exact (proj1 (Forall_forall _ _) Hall y (proj1 E)).
  - unfold db_integer. lia.
Qed.

Lemma stock_levels_loop_float (inventory : list Inventory.t)
    (products : list Product.t) :
  Forall (fun r => db_integer (Inventory.present_stock r)) inventory ->
  forall acc t,
    stock_levels_loop inventory products acc (Float t)
    = Py.Ok (acc ++ map (stock_entry inventory) products,
             Float (fold_left PrimFloat.add
                      (map (fun p => StockInfo.current_value
                                       (stock_entry inventory p))
                           products) t)).
Proof.
  intros Hall. induction products as [|p rest IH]; intros acc t; cbn.
  - now rewrite app_nil_r.
  - unfold Py.int_mul_float.
    rewrite float_of_int_in_range.
    + cbn. rewrite IH. now rewrite <- app_assoc.
    + apply db_integer_in_float_range.
      pose proof (current_stock_in_range inventory (Product.id p) Hall) as H.
      unfold db_integer in H. lia.
Qed.

Lemma stock_levels_loop_start (inventory : list Inventory.t)
    (products : list Product.t) :
  Forall (fun r => db_integer (Inventory.present_stock r)) inventory ->
  stock_levels_loop inventory products [] (Int 0)
  = Py.Ok (map (stock_entry inventory) products,
           match products with
           | [] => Int 0
           | _ :: _ =>
               Float (fold_left PrimFloat.add
                        (map (fun p => StockInfo.current_value
                                         (stock_entry inventory p))
                             products) 0%float)
           end).
Proof.
  intros Hall. destruct products as [|p rest]; [reflexivity|].
  cbn. unfold Py.int_mul_float. rewrite float_of_int_in_range.
  - cbn. now rewrite stock_levels_loop_float.
  - apply db_integer_in_float_range.
    pose proof (current_stock_in_range inventory (Product.id p) Hall) as H.
    unfold db_integer in H. lia.
Qed.

(** X10. Provided every stored [present_stock] is a column integer,
    [get_stock_levels] answers 200 with one entry per active product, in
    the order of rising stock; each entry carries the product's current
    stock, that stock times the trade price as its value, and the status
    [low] exactly when the stock is below 10; [total_products] and
    [low_stock_items] count the entries and the low ones; the total
    value is the integer 0 when no product is active, and otherwise the
    float sum of the values taken in table order. *)
Theorem get_stock_levels_report (db : DB) :
  Forall (fun r => db_integer (Inventory.present_stock r)) (inventory db) ->
  exists report,
    get_stock_levels db
    = answer 200 "Stock levels retrieved successfully" report
    /\ Permutation (report_products report)
         (map (stock_entry (inventory db))
              (filter Product.is_active (products db)))
    /\ StronglySorted
         (fun a b => StockInfo.current_stock a <= StockInfo.current_stock b)
         (report_products report)
    /\ Forall (fun item =>
                 StockInfo.current_stock item
                 = Inventory.get_current_stock (inventory db)
                     (StockInfo.product_id item)
                 /\ StockInfo.current_value item
                    = PrimFloat.mul
                        (Py.nearest_float (StockInfo.current_stock item))
                        (StockInfo.trade_price item)
                 /\ (StockInfo.stock_status item = "low"
                     <-> StockInfo.current_stock item < 10))
              (report_products report)
    /\ total_products report
       = len (filter Product.is_active (products db))
    /\ low_stock_items report
       = len (filter (fun item => StockInfo.current_stock item <? 10)
                     (report_products report))
    /\ total_inventory_value report
       = match filter Product.is_active (products db) with
         | [] => Int 0
         | active =>
             Float (fold_left PrimFloat.add
                      (map (fun p => StockInfo.current_value
                                       (stock_entry (inventory db) p))
                           active) 0%float)
         end.
Proof.
  intros Hall. unfold get_stock_levels.
  rewrite (stock_levels_loop_start _ _ Hall).
  set (active := filter Product.is_active (products db)).
  set (entries := map (stock_entry (inventory db)) active).
  assert (Hent : Forall (fun item =>
                   StockInfo.current_stock item
                   = Inventory.get_current_stock (inventory db)
                       (StockInfo.product_id item)
                   /\ StockInfo.current_value item
                      = PrimFloat.mul
                          (Py.nearest_float (StockInfo.current_stock item))
                          (StockInfo.trade_price item)
                   /\ (StockInfo.stock_status item = "low"
                       <-> StockInfo.current_stock item < 10))
                entries).
  { subst entries. apply Forall_forall. intros item Hitem.
    apply in_map_iff in Hitem. destruct Hitem as (p & <- & _). cbn.
    repeat split; trivial.
    - destruct (Z.ltb_spec (Inventory.get_current_stock (inventory db)
                                                       (Product.id p)) 10);
        [trivial|discriminate].
    - intros H. apply Z.ltb_lt in H. now rewrite H. }
  eexists. split; [reflexivity|]. cbn.
  split; [apply sort_by_perm|]. split; [apply sort_by_sorted|].
  split; [|split; [|split]].
  - apply Forall_forall. intros item Hitem.
    apply (Permutation_in _ (sort_by_perm _ entries)) in Hitem.
    exact (proj1 (Forall_forall _ _) Hent item Hitem).
  - rewrite sort_by_length. subst entries. unfold len.
    now rewrite length_map.
  - f_equal. apply filter_ext_in. intros item Hitem.
    apply (Permutation_in _ (sort_by_perm _ entries)) in Hitem.
    destruct (proj1 (Forall_forall _ _) Hent item Hitem) as (_ & _ & Hlow).
    destruct (Z.ltb_spec (StockInfo.current_stock item) 10) as [Hz|Hz].
    + apply String.eqb_eq. now apply Hlow.
    + destruct (String.eqb_spec (StockInfo.stock_status item) "low")
        as [E|E]; trivial.
      apply Hlow in E. lia.
  - subst active. destruct (filter Product.is_active (products db));
      reflexivity.
Qed.

End StockReports.

(** On the sample database: products 1 (15 pieces, 2100.0) and 2 (5
    pieces, 500.0, low) are reported, the withdrawn product 3 is not. *)
Lemma get_stock_levels_sample :
  option_map
    (fun report =>
       (map (fun i => (StockInfo.product_id i, StockInfo.current_stock i,
                       StockInfo.stock_status i))
            (report_products report),
        total_inventory_value report, low_stock_items report))
    (reply_data (get_stock_levels sample_db))
  = Some ([(2, 5, "low"); (1, 15, "normal")], Float 2600%float, 1).
Proof.
  destruct (get_stock_levels_report sample_db) as (report & Hrun & _).
  - repeat constructor; unfold db_integer; cbn; lia.
  - rewrite Hrun. vm_compute in Hrun. injection Hrun as <-. reflexivity.
Defined.

(** ** The order list *)

Section OrderList.












End OrderList.

(** ** Profile and password changes *)

Section ProfileWrites.

Variable strip : string -> string.
Variable generate_password_hash : string -> string.
Variable check_password_hash : string -> string -> bool.

Lemma datetime_not_bound :
  lookup_global auth_globals "datetime" = Some (NameError "datetime").
Proof. reflexivity. Qed.

(** X12.  [PUT /profile] never changes the database and never answers
    200: an empty body and an email address of another account are
    refused with 400, and every other request ends in the handler's
    [except] clause with 500, because [routes/auth.py] never binds the
    name [datetime] that the assignment to [updated_at] evaluates. *)
Theorem update_profile_never_succeeds (db : DB) (utcnow : Py.datetime)
    (current_user : User.t) (data : option ProfileData.t) :
  let r := update_profile strip db utcnow current_user data in
  fst r = db
  /\ ((snd r = refuse 400 "No data provided"
       /\ match data with
          | None => True
          | Some d => ProfileData.is_empty d = true
          end)
      \/ (snd r = refuse 400 "Email already exists"
          /\ exists d text other,
               data = Some d
               /\ ProfileData.email d = Some text
               /\ first_other_with_email (users db) (strip text)
                                         (User.id current_user)
                  = Some other)
      \/ snd r = refuse 500
                   "Error updating profile: name 'datetime' is not defined").
Proof.
  unfold update_profile. cbv zeta. rewrite datetime_not_bound.
  destruct data as [d|]; [|cbn; auto].
  destruct (ProfileData.is_empty d) eqn:Hempty; [cbn; auto|].
  destruct (ProfileData.email d) as [text|] eqn:Hemail.
  - destruct (String.eqb (strip text) ""); [cbn; auto|].
    match goal with
    | |- context [first_other_with_email ?q ?e ?k] =>
        destruct (first_other_with_email q e k) as [other|] eqn:Hother
    end.
    + split; [reflexivity|]. right. left. split; [reflexivity|].
      exists d, text, other. repeat split; try assumption.
      revert Hother. cbn [working begin].
      destruct (ProfileData.full_name d) as [n|];
        [destruct (String.eqb (strip n) "")|];
        destruct (ProfileData.phone d); cbn; trivial.
    + cbn; auto.
  - cbn; auto.
Qed.

(** X13.  [POST /change-password] never changes a password: whatever
    the request, the database is left as it was, and the answer is a
    400 refusal (missing or blank passwords, wrong current password,
    new password shorter than six characters) or, for a request that
    passes every check, the 500 of the [except] clause, because
    [routes/auth.py] never binds the name [datetime]. *)
Theorem change_password_never_succeeds (db : DB) (utcnow : Py.datetime)
    (current_user : User.t) (data : option PasswordData.t) :
  let r := change_password generate_password_hash check_password_hash
                           db utcnow current_user data in
  fst r = db
  /\ ((reply_status (snd r) = 400 /\ reply_success (snd r) = false
       /\ match data with
          | Some (PasswordData.mk (Some current) (Some new)) =>
              current = "" \/ new = ""
              \/ check_password_hash (User.password_hash current_user)
                                     current = false
              \/ Z.of_nat (String.length new) < 6
          | _ => True
          end)
      \/ snd r = refuse 500
                   "Error changing password: name 'datetime' is not defined").
Proof.
  unfold change_password. cbv zeta. rewrite datetime_not_bound.
  destruct data as [[current new]|]; [|cbn; auto].
  destruct current as [current|], new as [new|]; cbn;
    try (destruct (String.eqb _ ""); cbn; auto; fail); auto.
  - destruct (String.eqb_spec current "") as [Hc|Hc]; cbn.
    { split; [reflexivity|]. left. repeat split. tauto. }
    destruct (String.eqb_spec new "") as [Hn|Hn]; cbn.
    { split; [reflexivity|]. left. repeat split. tauto. }
    destruct (check_password_hash (User.password_hash current_user) current)
      eqn:Hcheck; cbn.
    2:{ split; [reflexivity|]. left. repeat split. tauto. }
    destruct (Z.ltb_spec (Z.of_nat (String.length new)) 6) as [Hl|Hl]; cbn.
    { split; [reflexivity|]. left. repeat split. tauto. }
    auto.
Qed.

End ProfileWrites.

(** ** Logging in *)

Section Login.

Variable strip : string -> string.
Variable generate_password_hash : string -> string.
Variable check_password_hash : string -> string -> bool.
Variable create_access_token : Z -> string.

Lemma login_cases (db : DB) (utcnow : Py.datetime)
    (data : option LoginData.t) :
  let r := login strip check_password_hash create_access_token db utcnow
                 data in
  (fst r = db /\ reply_success (snd r) = false /\ reply_data (snd r) = None
   /\ (reply_status (snd r) = 400 \/ reply_status (snd r) = 401))
  \/ exists d password u,
       data = Some d
       /\ LoginData.password d = Some password
       /\ password <> ""
       /\ first_by_username_or_email
            (users db) (strip (get_default (LoginData.username d) ""))
          = Some u
       /\ check_password_hash (User.password_hash u) password = true
       /\ User.is_active u = true
       /\ r = (update_user_row (set_user_last_login (Some utcnow) u) db,
               answer 200 "Login successful"
                      (create_access_token (User.id u),
                       set_user_last_login (Some utcnow) u)).
Proof.
  unfold login. cbv zeta. cbn [working begin committed].
  destruct data as [d|]; [|left; cbn; auto].
  destruct (LoginData.is_empty d); [left; cbn; auto|].
  destruct (String.eqb (strip (get_default (LoginData.username d) "")) "");
    [left; cbn; auto|].
  cbn [orb].
  destruct (LoginData.password d) as [password|] eqn:Hpw;
    [|left; cbn; auto].
  cbn [get_default].
  destruct (String.eqb_spec password "") as [Hp|Hp]; [left; cbn; auto|].
  destruct (first_by_username_or_email _ _) as [u|] eqn:Hu;
    [|left; cbn; auto].
  destruct (check_password_hash (User.password_hash u) password) eqn:Hc;
    [|left; cbn; auto].
  destruct (User.is_active u) eqn:Ha; [|left; cbn; auto].
  right. exists d, password, u. cbn. repeat split; assumption.
Qed.

Lemma first_by_username_or_email_some (l : list User.t) (x : string)
    (u : User.t) :
  first_by_username_or_email l x = Some u ->
  In u l /\ (User.username u = x \/ User.email u = x).
Proof.
  intros H. apply find_some in H. destruct H as [Hin H]. split; [exact Hin|].
  apply orb_true_iff in H. destruct H as [H|H]; apply String.eqb_eq in H; auto.
Qed.


Lemma user_get_in (l : list User.t) (u : User.t) :
  NoDup (map User.id l) -> In u l -> User.get l (User.id u) = Some u.
Proof.
  unfold User.get. induction l as [|x l IH]; [intros _ []|].
  cbn [map]. intros Hnd [Hx|Hin].
  - subst x. cbn. now rewrite Z.eqb_refl.
  - inversion Hnd as [|? ? Hnotin Hnd']; subst. cbn.
    destruct (Z.eqb_spec (User.id x) (User.id u)) as [He|He].
    + exfalso. apply Hnotin. rewrite He. now apply in_map.
    + now apply IH.
Qed.


Hypothesis check_accepts_generated :
  forall password,
    check_password_hash (generate_password_hash password) password = true.
Hypothesis strip_empty : strip "" = "".

Lemma register_cases (db : DB) (utcnow : Py.datetime)
    (data : option RegisterData.t) :
  let r := register strip generate_password_hash db utcnow data in
  (fst r = db /\ success (snd r) = false /\ status_code (snd r) = 400)
  \/ exists d name password u,
       data = Some d
       /\ RegisterData.username d = Some name
       /\ RegisterData.password d = Some password
       /\ strip name <> ""
       /\ strip password <> ""
       /\ User.first_by_username (users db) (User.username u) = None
       /\ User.first_by_email (users db) (User.email u) = None
       /\ u = User.mk (next_id (map User.id (users db))) (strip name)
                      (strip (get_default (RegisterData.email d) ""))
                      (generate_password_hash password)
                      (strip (get_default (RegisterData.full_name d) ""))
                      (Some (strip (get_default (RegisterData.phone d) "")))
                      "sales" true utcnow utcnow None
       /\ r = (add_user u db, ok_response 201 UserRegistered u).
Proof.
  unfold register. cbv zeta. cbn [working begin committed].
  destruct data as [d|]; [|left; cbn; auto].
  destruct (RegisterData.is_empty d); [left; cbn; auto|].
  unfold missing_or_blank.
  destruct (RegisterData.username d) as [name|] eqn:Hun;
    [|left; cbn; auto].
  destruct (String.eqb_spec (strip name) "") as [Hn|Hn]; [left; cbn; auto|].
  destruct (RegisterData.email d) as [email|] eqn:Hem; [|left; cbn; auto].
  destruct (String.eqb (strip email) ""); [left; cbn; auto|].
  destruct (RegisterData.password d) as [password|] eqn:Hpw;
    [|left; cbn; auto].
  destruct (String.eqb_spec (strip password) "") as [Hp|Hp];
    [left; cbn; auto|].
  destruct (RegisterData.full_name d) as [full_name|] eqn:Hfn;
    [|left; cbn; auto].
  destruct (String.eqb (strip full_name) ""); [left; cbn; auto|].
  cbn [get_default].
  destruct (User.first_by_username (users db) (strip name)) eqn:Hname;
    [left; cbn; auto|].
  destruct (User.first_by_email (users db) (strip email)) eqn:Hmail;
    [left; cbn; auto|].
  right. eexists d, name, password, _.
  split; [reflexivity|]. split; [exact Hun|]. split; [exact Hpw|].
  split; [exact Hn|]. split; [exact Hp|].
  split; [|split; [|split; [reflexivity|]]].
  - exact Hname.
  - cbn [User.email]. rewrite Hem. exact Hmail.
  - rewrite Hem, Hfn. reflexivity.
Qed.


End Login.





(** ** The users table *)

Section Accounts.

Variable strip : string -> string.
Variable lower : string -> string.
Variable generate_password_hash : string -> string.
Variable check_password_hash : string -> string -> bool.
Variable create_access_token : Z -> string.

Lemma user_get_some (l : list User.t) (k : Z) (u : User.t) :
  User.get l k = Some u -> In u l /\ User.id u = k.
Proof.
  intros H. apply find_some in H. destruct H as [Hin H].
  split; [exact Hin|]. now apply Z.eqb_eq.
Qed.

Lemma find_replace_first {A : Type} (p : A -> bool) (old new : A)
    (l : list A) :
  find p l = Some old -> p new = true ->
  find p (replace_first p new l) = Some new.
Proof.
  intros Hfind Hnew. induction l as [|x l IH]; [discriminate|].
  cbn in *. destruct (p x) eqn:Hx.
  - cbn. now rewrite Hnew.
  - cbn. rewrite Hx. now apply IH.
Qed.

Lemma find_replace_first_other {A : Type} (p q : A -> bool) (old new : A)
    (l : list A) :
  find p l = Some old -> q old = false -> q new = false ->
  find q (replace_first p new l) = find q l.
Proof.
  intros Hfind Hold Hnew. induction l as [|x l IH]; [reflexivity|].
  cbn in *. destruct (p x) eqn:Hx.
  - injection Hfind as ->. cbn. now rewrite Hold, Hnew.
  - cbn. destruct (q x); [reflexivity|]. now apply IH.
Qed.

Lemma in_replace_first {A : Type} (p : A -> bool) (new : A) (l : list A)
    (z : A) :
  In z (replace_first p new l) -> z = new \/ In z l.
Proof.
  induction l as [|x l IH]; [intros []|]. cbn.
  destruct (p x).
  - intros [H|H]; [left; now symmetry|right; now right].
  - intros [H|H]; [right; now left|].
    destruct (IH H); [now left|right; now right].
Qed.

Lemma delete_user_cases (db : DB) (utcnow : Py.datetime)
    (current_user : User.t) (user_id : Z) :
  let r := delete_user db utcnow current_user user_id in
  (fst r = db /\ reply_success (snd r) = false
   /\ (reply_status (snd r) = 403 \/ reply_status (snd r) = 404
       \/ reply_status (snd r) = 400))
  \/ exists user,
       User.is_admin current_user = true
       /\ User.get (users db) user_id = Some user
       /\ user_id <> User.id current_user
       /\ r = (update_user_row
                 (set_user_updated_at utcnow (set_user_is_active false user))
                 db,
               mkReply 200 true "User account deactivated successfully"
                       None).
Proof.
  unfold delete_user. cbv zeta. cbn [working begin committed].
  destruct (User.is_admin current_user); [|left; cbn; auto].
  cbn [negb].
  destruct (User.get (users db) user_id) as [user|] eqn:Hget;
    [|left; cbn; auto].
  destruct (user_get_some _ _ _ Hget) as [_ Hid].
  destruct (Z.eqb_spec (User.id user) (User.id current_user)) as [He|He];
    [left; cbn; auto|].
  right. exists user. repeat split; trivial. congruence.
Qed.

(** X17.  A deactivation locks the account out: once [DELETE
    /users/<id>] has answered 200, a token of that account no longer
    reaches any handler, and, the keys of the users table being
    distinct, no login returns a token for it. *)
Theorem deactivated_account_is_locked_out (db : DB)
    (utcnow utcnow' : Py.datetime) (current_user : User.t) (user_id : Z)
    (R : Type) (f : User.t -> R) (data : option LoginData.t) :
  reply_status (snd (delete_user db utcnow current_user user_id)) = 200 ->
  NoDup (map User.id (users db)) ->
  let db' := fst (delete_user db utcnow current_user user_id) in
  token_required db' (Some user_id) f
  = inl (refuse 401 "User not found or account is inactive")
  /\ match reply_data (snd (login strip check_password_hash
                                  create_access_token db' utcnow' data)) with
     | Some (token, user) => User.id user <> user_id
     | None => True
     end.
Proof.
  intros Hok Hnd.
  destruct (delete_user_cases db utcnow current_user user_id)
    as [(_ & _ & Hcode)|(user & _ & Hget & _ & Hr)].
  { rewrite Hok in Hcode. destruct Hcode as [H|[H|H]]; discriminate. }
  cbv zeta. rewrite Hr. cbn [fst].
  destruct (user_get_some _ _ _ Hget) as [_ Hid].
  set (user' := set_user_updated_at utcnow (set_user_is_active false user)).
  assert (Hget' : User.get (users (update_user_row user' db)) user_id
                  = Some user').
  { cbn [users update_user_row].
    change (User.id user') with (User.id user). rewrite Hid.
    apply (find_replace_first _ user); [exact Hget|].
    cbn. rewrite Hid. apply Z.eqb_refl. }
  split.
  - unfold token_required. rewrite Hget'. reflexivity.
  - destruct (login_cases strip check_password_hash create_access_token
                          (update_user_row user' db) utcnow' data)
      as [(_ & _ & Hnone & _)|(d & password & u & _ & _ & _ & Hu & _ & Ha
                               & Hlogin)].
    + now rewrite Hnone.
    + rewrite Hlogin. cbn [snd reply_data answer].
      change (User.id (set_user_last_login (Some utcnow') u))
        with (User.id u).
      intros He.
      apply first_by_username_or_email_some in Hu. destruct Hu as [Hin _].
      assert (Hnd' : NoDup (map User.id (users (update_user_row user' db)))).
      { cbn [users update_user_row].
        rewrite (map_replace_first_found User.id _ user user');
          [exact Hnd| |reflexivity].
        change (User.id user') with (User.id user). now rewrite Hid. }
      pose proof (user_get_in _ u Hnd' Hin) as Hgetu.
      rewrite He, Hget' in Hgetu. injection Hgetu as <-.
      discriminate.
Qed.

(** X18.  [DELETE /users/<id>] deletes nothing: every row keeps its
    place and all its columns but [is_active] and [updated_at], the
    rows of the other accounts and the other tables are left as they
    were, and a caller never deactivates the own account this way. *)
Theorem delete_user_is_a_soft_delete (db : DB) (utcnow : Py.datetime)
    (current_user : User.t) (user_id : Z) :
  let db' := fst (delete_user db utcnow current_user user_id) in
  map user_without_activity (users db')
  = map user_without_activity (users db)
  /\ map (other_user_rows user_id) (users db')
     = map (other_user_rows user_id) (users db)
  /\ business_tables db' = business_tables db
  /\ User.get (users db') (User.id current_user)
     = User.get (users db) (User.id current_user).
Proof.
  destruct (delete_user_cases db utcnow current_user user_id)
    as [(Hdb & _)|(user & _ & Hget & Hne & Hr)]; cbv zeta.
  { rewrite Hdb. auto. }
  rewrite Hr. cbn [fst].
  destruct (user_get_some _ _ _ Hget) as [_ Hid].
  set (user' := set_user_updated_at utcnow (set_user_is_active false user)).
  assert (Hfind : find (fun x => User.id x =? User.id user') (users db)
                  = Some user).
  { change (User.id user') with (User.id user). now rewrite Hid. }
  cbn [users update_user_row].
  repeat split.
  - now apply (map_replace_first_found _ _ user).
  - apply (map_replace_first_found _ _ user); [exact Hfind|].
    unfold other_user_rows. change (User.id user') with (User.id user).
    now rewrite Hid, Z.eqb_refl.
  - apply (find_replace_first_other _ _ user); [exact Hfind| |].
    + rewrite Hid. now apply Z.eqb_neq.
    + change (User.id user') with (User.id user). rewrite Hid.
      now apply Z.eqb_neq.
Qed.

Lemma update_user_fields_ok (query : list User.t) (admin : bool)
    (user_id : Z) (d : UserData.t) (user user' : User.t) :
  update_user_fields strip lower query admin user_id d user = inl user' ->
  (User.id user', User.username user', User.password_hash user',
   User.created_at user', User.updated_at user', User.last_login user')
  = (User.id user, User.username user, User.password_hash user,
     User.created_at user, User.updated_at user, User.last_login user)
  /\ (admin = false ->
      User.role user' = User.role user
      /\ User.is_active user' = User.is_active user)
  /\ (valid_role user -> valid_role user')
  /\ (User.email user' = User.email user
      \/ first_other_with_email query (User.email user') user_id = None).
Proof.
  unfold update_user_fields. cbv zeta.
  set (u1 := match UserData.full_name d with
             | Some text =>
                 if String.eqb (strip text) "" then user
                 else set_user_full_name (strip text) user
             | None => user
             end).
  assert (H1 : user_privileges u1 = user_privileges user
               /\ User.email u1 = User.email user
               /\ User.updated_at u1 = User.updated_at user).
  { unfold u1. destruct (UserData.full_name d) as [text|]; [|auto].
    destruct (String.eqb (strip text) ""); auto. }
  clearbody u1.
  set (u2 := match UserData.phone d with
             | Some text => set_user_phone (Some (strip text)) u1
             | None => u1
             end).
  assert (H2 : user_privileges u2 = user_privileges user
               /\ User.email u2 = User.email user
               /\ User.updated_at u2 = User.updated_at user).
  { unfold u2. destruct (UserData.phone d); [|exact H1].
    destruct H1 as (Hp & He & Hu). repeat split; assumption. }
  clearbody u2. clear H1 u1.
  set (c := match UserData.email d with
            | Some text =>
                if String.eqb (strip text) "" then inl u2
                else match first_other_with_email query (strip text) user_id
                     with
                     | Some _ => inr "Email already exists"
                     | None => inl (set_user_email (strip text) u2)
                     end
            | None => inl u2
            end).
  assert (H3 : forall u3, c = inl u3 ->
               user_privileges u3 = user_privileges user
               /\ User.updated_at u3 = User.updated_at user
               /\ (User.email u3 = User.email user
                   \/ first_other_with_email query (User.email u3) user_id
                      = None)).
  { destruct H2 as (Hp & He & Hu). unfold c.
    destruct (UserData.email d) as [text|].
    - destruct (String.eqb (strip text) "").
      + intros u3 [= <-]. auto.
      + destruct (first_other_with_email query (strip text) user_id)
          eqn:Hother; [discriminate|].
        intros u3 [= <-]. repeat split; auto.
    - intros u3 [= <-]. auto. }
  clearbody c. destruct c as [u3|text]; [|discriminate].
  destruct (H3 u3 eq_refl) as (Hp & Hu & He). clear H3 H2 u2.
  unfold user_privileges in Hp.
  injection Hp as Hid Hname Hhash Hrole Hact Hcreated Hlast.
  destruct admin.
  - destruct (UserData.role d) as [text|].
    + destruct (existsb (String.eqb (lower text)) ["admin"; "sales"])
        eqn:Hvalid; [|discriminate].
      intros [= <-].
      split; [destruct (UserData.is_active d); cbn; congruence|].
      split; [discriminate|].
      split; [|destruct (UserData.is_active d); exact He].
      intros _. cbn in Hvalid.
      assert (Hr : lower text = "admin" \/ lower text = "sales").
      { destruct (String.eqb_spec (lower text) "admin"); [now left|].
        destruct (String.eqb_spec (lower text) "sales"); [now right|].
        discriminate. }
      destruct (UserData.is_active d); exact Hr.
    + intros [= <-].
      split; [destruct (UserData.is_active d); cbn; congruence|].
      split; [discriminate|].
      split; [|destruct (UserData.is_active d); exact He].
      unfold valid_role.
      destruct (UserData.is_active d); cbn; now rewrite Hrole.
  - intros [= <-].
    split; [congruence|]. split; [auto|].
    split; [|exact He]. unfold valid_role. now rewrite Hrole.
Qed.

Lemma update_user_cases (db : DB) (utcnow : Py.datetime)
    (current_user : User.t) (user_id : Z) (data : option UserData.t) :
  let r := update_user strip lower db utcnow current_user user_id data in
  (fst r = db /\ reply_success (snd r) = false)
  \/ exists d user user',
       data = Some d
       /\ User.get (users db) user_id = Some user
       /\ (User.is_admin current_user = true
           \/ User.id current_user = user_id)
       /\ update_user_fields strip lower (users db)
                             (User.is_admin current_user) user_id d user
          = inl user'
       /\ r = (update_user_row (set_user_updated_at utcnow user') db,
               answer 200 "User updated successfully"
                      (set_user_updated_at utcnow user')).
Proof.
  unfold update_user. cbv zeta. cbn [working begin committed].
  destruct (User.get (users db) user_id) as [user|] eqn:Hget;
    [|left; cbn; auto].
  destruct (negb (User.is_admin current_user)
            && negb (User.id current_user =? user_id)) eqn:Hperm;
    [left; cbn; auto|].
  destruct data as [d|]; [|left; cbn; auto].
  destruct (UserData.is_empty d); [left; cbn; auto|].
  destruct (update_user_fields strip lower (users db)
              (User.is_admin current_user) user_id d user)
    as [user'|text] eqn:Hfields; [|left; cbn; auto].
  right. exists d, user, user'. repeat split; trivial.
  apply andb_false_iff in Hperm.
  destruct Hperm as [H|H]; apply negb_false_iff in H; [now left|right].
  now apply Z.eqb_eq.
Qed.

(** X19.  A caller who is not an administrator changes, through [PUT
    /users/<id>], nothing but the own row, and in it neither the
    key, the user name, the password, the role nor the [is_active]
    flag: the request's [role] and [is_active] keys are ignored. *)
Theorem update_user_keeps_privileges (db : DB) (utcnow : Py.datetime)
    (current_user : User.t) (user_id : Z) (data : option UserData.t) :
  User.is_admin current_user = false ->
  let db' :=
    fst (update_user strip lower db utcnow current_user user_id data) in
  map (other_user_rows (User.id current_user)) (users db')
  = map (other_user_rows (User.id current_user)) (users db)
  /\ map user_privileges (users db') = map user_privileges (users db)
  /\ business_tables db' = business_tables db.
Proof.
  intros Hsales.
  destruct (update_user_cases db utcnow current_user user_id data)
    as [(Hdb & _)|(d & user & user' & _ & Hget & Hperm & Hfields & Hr)];
    cbv zeta.
  { rewrite Hdb. auto. }
  rewrite Hr. cbn [fst]. rewrite Hsales in Hperm, Hfields.
  destruct Hperm as [Hperm|Hperm]; [discriminate|].
  destruct (user_get_some _ _ _ Hget) as [_ Hid].
  destruct (update_user_fields_ok _ _ _ _ _ _ Hfields)
    as (Hsame & Hpriv & _ & _).
  destruct (Hpriv eq_refl) as [Hrole Hact].
  injection Hsame as Hid' Hname Hhash Hcreated _ Hlast.
  set (new := set_user_updated_at utcnow user').
  assert (Hfind : find (fun x => User.id x =? User.id new) (users db)
                  = Some user).
  { change (User.id new) with (User.id user'). now rewrite Hid', Hid. }
  cbn [users update_user_row].
  repeat split.
  - apply (map_replace_first_found _ _ user); [exact Hfind|].
    unfold other_user_rows. change (User.id new) with (User.id user').
    now rewrite Hid', Hid, Hperm, Z.eqb_refl.
  - apply (map_replace_first_found _ _ user); [exact Hfind|].
    unfold user_privileges. cbn. congruence.
Qed.

Lemma create_user_cases (db : DB) (utcnow : Py.datetime)
    (current_user : User.t) (data : option UserData.t) :
  let r := create_user strip lower generate_password_hash db utcnow
                       current_user data in
  (fst r = db /\ reply_success (snd r) = false /\ reply_data (snd r) = None)
  \/ exists d u,
       data = Some d
       /\ User.is_admin current_user = true
       /\ User.first_by_username (users db) (User.username u) = None
       /\ User.first_by_email (users db) (User.email u) = None
       /\ u = User.mk (next_id (map User.id (users db)))
                      (strip (get_default (UserData.username d) ""))
                      (strip (get_default (UserData.email d) ""))
                      (generate_password_hash
                         (get_default (UserData.password d) ""))
                      (strip (get_default (UserData.full_name d) ""))
                      (Some (strip (get_default (UserData.phone d) "")))
                      (lower (get_default (UserData.role d) "sales"))
                      true utcnow utcnow None
       /\ valid_role u
       /\ r = (add_user u db, answer 201 "User created successfully" u).
Proof.
  unfold create_user. cbv zeta. cbn [working begin committed].
  destruct (User.is_admin current_user); [|left; cbn; auto].
  cbn [negb].
  destruct data as [d|]; [|left; cbn; auto].
  destruct (UserData.is_empty d); [left; cbn; auto|].
  destruct (missing_or_blank strip (UserData.username d));
    [left; cbn; auto|].
  destruct (missing_or_blank strip (UserData.email d)); [left; cbn; auto|].
  destruct (missing_or_blank strip (UserData.password d));
    [left; cbn; auto|].
  destruct (missing_or_blank strip (UserData.full_name d));
    [left; cbn; auto|].
  destruct (User.first_by_username (users db) _) eqn:Hname;
    [left; cbn; auto|].
  destruct (User.first_by_email (users db) _) eqn:Hmail; [left; cbn; auto|].
  destruct (existsb _ ["admin"; "sales"]) eqn:Hrole; [|left; cbn; auto].
  right. eexists d, _. repeat split; try reflexivity; try assumption.
  cbn in Hrole. unfold valid_role. cbn [User.role].
  destruct (String.eqb_spec (lower (get_default (UserData.role d) "sales"))
                            "admin"); [now left|].
  destruct (String.eqb_spec (lower (get_default (UserData.role d) "sales"))
                            "sales"); [now right|].
  discriminate.
Qed.

Lemma reset_user_password_cases (db : DB) (utcnow : Py.datetime)
    (current_user : User.t) (user_id : Z) (data : option ResetData.t) :
  let r := reset_user_password generate_password_hash db utcnow
                               current_user user_id data in
  (fst r = db /\ reply_success (snd r) = false
   /\ reply_status (snd r) <> 200)
  \/ exists user new_password,
       User.is_admin current_user = true
       /\ User.get (users db) user_id = Some user
       /\ data = Some (ResetData.mk (Some new_password))
       /\ 6 <= Z.of_nat (String.length new_password)
       /\ r = (update_user_row
                 (set_user_updated_at utcnow
                    (set_user_password_hash
                       (generate_password_hash new_password) user))
                 db,
               mkReply 200 true
                 ("Password reset successfully for user "
                  ++ User.username user) None).
Proof.
  unfold reset_user_password. cbv zeta. cbn [working begin committed].
  destruct (User.is_admin current_user); [|left; cbn; repeat split; discriminate].
  cbn [negb].
  destruct (User.get (users db) user_id) as [user|] eqn:Hget;
    [|left; cbn; repeat split; discriminate].
  destruct data as [[[new_password|]]|]; [|left; cbn; repeat split; discriminate..].
  destruct (Z.ltb_spec (Z.of_nat (String.length new_password)) 6);
    [left; cbn; repeat split; discriminate|].
  right. exists user, new_password. repeat split; trivial.
Qed.

Lemma find_none_not_in {A : Type} (f : A -> string) (v : string)
    (l : list A) :
  find (fun x => String.eqb (f x) v) l = None -> ~ In v (map f l).
Proof.
  intros Hnone Hin. apply in_map_iff in Hin. destruct Hin as (x & Hx & Hin).
  apply (find_none _ _ Hnone) in Hin. cbv beta in Hin.
  rewrite Hx, String.eqb_refl in Hin. discriminate.
Qed.

Lemma NoDup_snoc {A : Type} (l : list A) (x : A) :
  NoDup l -> ~ In x l -> NoDup (l ++ [x]).
Proof.
  intros Hnd Hx. apply NoDup_app; [exact Hnd|repeat constructor; intros []|].
  intros y Hy [<-|[]]. contradiction.
Qed.

Lemma NoDup_map_replace_by_key {A B : Type} (key : A -> Z) (f : A -> B)
    (k : Z) (new : A) (l : list A) :
  NoDup (map key l) -> NoDup (map f l) ->
  (forall y, In y l -> key y <> k -> f y <> f new) ->
  NoDup (map f (replace_first (fun x => key x =? k) new l)).
Proof.
  induction l as [|x l IH]; [constructor|].
  cbn [map replace_first]. intros Hkeys Hnd Hother.
  inversion Hkeys as [|? ? Hkx Hkeys']; subst.
  inversion Hnd as [|? ? Hfx Hnd']; subst.
  destruct (Z.eqb_spec (key x) k) as [He|He]; cbn [map]; constructor.
  - intros Hin. apply in_map_iff in Hin. destruct Hin as (y & Hy & Hin).
    apply (Hother y); [now right| |exact Hy].
    intros Hk. apply Hkx. rewrite He, <- Hk. now apply in_map.
  - exact Hnd'.
  - intros Hin. apply in_map_iff in Hin. destruct Hin as (y & Hy & Hin).
    apply in_replace_first in Hin. destruct Hin as [->|Hin].
    + apply (Hother x); [now left|exact He|now symmetry].
    + apply Hfx. rewrite <- Hy. now apply in_map.
  - apply IH; trivial. intros y Hy. apply Hother. now right.
Qed.

Lemma NoDup_map_injective {A B : Type} (f : A -> B) (l : list A) (x y : A) :
  NoDup (map f l) -> In x l -> In y l -> f x = f y -> x = y.
Proof.
  induction l as [|z l IH]; [intros _ []|].
  cbn [map]. intros Hnd Hx Hy He.
  inversion Hnd as [|? ? Hz Hnd']; subst.
  destruct Hx as [->|Hx], Hy as [->|Hy]; trivial.
  - exfalso. apply Hz. rewrite He. now apply in_map.
  - exfalso. apply Hz. rewrite <- He. now apply in_map.
  - now apply IH.
Qed.

Lemma unique_users_add (db : DB) (u : User.t) :
  unique_users db ->
  User.id u = next_id (map User.id (users db)) ->
  User.first_by_username (users db) (User.username u) = None ->
  User.first_by_email (users db) (User.email u) = None ->
  unique_users (add_user u db).
Proof.
  intros (Hid & Hname & Hmail) Hkey Hn He. unfold unique_users.
  cbn [users add_user]. rewrite !map_app. cbn [map].
  repeat split.
  - rewrite Hkey. now apply NoDup_snoc_fresh.
  - apply NoDup_snoc; [exact Hname|]. now apply find_none_not_in.
  - apply NoDup_snoc; [exact Hmail|]. now apply find_none_not_in.
Qed.

Lemma unique_users_update (db : DB) (old new : User.t) :
  unique_users db ->
  User.get (users db) (User.id new) = Some old ->
  User.username new = User.username old ->
  (User.email new = User.email old
   \/ first_other_with_email (users db) (User.email new) (User.id new)
      = None) ->
  unique_users (update_user_row new db).
Proof.
  intros (Hid & Hname & Hmail) Hget Hn He. unfold unique_users.
  cbn [users update_user_row].
  destruct (user_get_some _ _ _ Hget) as [Hin Hkey].
  repeat split.
  - rewrite (map_replace_first_found User.id _ old new); auto.
  - rewrite (map_replace_first_found User.username _ old new); auto.
  - apply NoDup_map_replace_by_key; trivial.
    intros y Hy Hk Heq. destruct He as [He|He].
    + apply Hk. rewrite <- Hkey. f_equal.
      apply (NoDup_map_injective User.email (users db)); trivial.
      congruence.
    + apply (find_none _ _ He) in Hy. cbv beta in Hy.
      rewrite Heq, String.eqb_refl in Hy.
      apply Z.eqb_neq in Hk. now rewrite Hk in Hy.
Qed.

(** X20.  The handlers that write the users table keep its keys
    unique: after every registration, login, account creation,
    update, deactivation and password reset, no two rows share a key,
    a user name or an email address, so that the checks of the
    handlers are all the [unique] constraints of the table ever
    require. *)
Theorem users_stay_unique (db : DB) (utcnow : Py.datetime)
    (current_user : User.t) (user_id : Z)
    (registration : option RegisterData.t) (credentials : option LoginData.t)
    (account : option UserData.t) (change : option UserData.t)
    (reset : option ResetData.t) :
  unique_users db ->
  unique_users (fst (register strip generate_password_hash db utcnow
                              registration))
  /\ unique_users (fst (login strip check_password_hash create_access_token
                              db utcnow credentials))
  /\ unique_users (fst (create_user strip lower generate_password_hash db
                                    utcnow current_user account))
  /\ unique_users (fst (update_user strip lower db utcnow current_user
                                    user_id change))
  /\ unique_users (fst (delete_user db utcnow current_user user_id))
  /\ unique_users (fst (reset_user_password generate_password_hash db utcnow
                                            current_user user_id reset)).
Proof.
  intros Hu. split; [|split; [|split; [|split; [|split]]]].
  - destruct (register_cases strip generate_password_hash db utcnow
                             registration)
      as [(Hdb & _)|(d & name & password & u & _ & _ & _ & _ & _ & Hname
                     & Hmail & Hrow & Hr)]; cbv zeta in *.
    + now rewrite Hdb.
    + rewrite Hr. cbn [fst].
      apply unique_users_add; trivial. now rewrite Hrow.
  - destruct (login_cases strip check_password_hash create_access_token db
                          utcnow credentials)
      as [(Hdb & _)|(d & password & u & _ & _ & _ & Hfind & _ & _ & Hr)];
      cbv zeta in *.
    + now rewrite Hdb.
    + rewrite Hr. cbn [fst].
      apply first_by_username_or_email_some in Hfind.
      destruct Hfind as [Hin _].
      apply (unique_users_update db u); trivial; [|now left].
      exact (user_get_in (users db) u (proj1 Hu) Hin).
  - destruct (create_user_cases db utcnow current_user account)
      as [(Hdb & _)|(d & u & _ & _ & Hname & Hmail & Hrow & _ & Hr)];
      cbv zeta in *.
    + now rewrite Hdb.
    + rewrite Hr. cbn [fst].
      apply unique_users_add; trivial. now rewrite Hrow.
  - destruct (update_user_cases db utcnow current_user user_id change)
      as [(Hdb & _)|(d & user & user' & _ & Hget & _ & Hfields & Hr)];
      cbv zeta in *.
    + now rewrite Hdb.
    + rewrite Hr. cbn [fst].
      destruct (user_get_some _ _ _ Hget) as [_ Hid].
      destruct (update_user_fields_ok _ _ _ _ _ _ Hfields)
        as (Hsame & _ & _ & Hmail).
      injection Hsame as Hid' Hname _ _ _ _.
      apply (unique_users_update db user); trivial.
      * change (User.id (set_user_updated_at utcnow user'))
          with (User.id user').
        now rewrite Hid', Hid.
      * change (User.id (set_user_updated_at utcnow user'))
          with (User.id user').
        change (User.email (set_user_updated_at utcnow user'))
          with (User.email user').
        now rewrite Hid', Hid.
  - destruct (delete_user_cases db utcnow current_user user_id)
      as [(Hdb & _)|(user & _ & Hget & _ & Hr)]; cbv zeta in *.
    + now rewrite Hdb.
    + rewrite Hr. cbn [fst].
      destruct (user_get_some _ _ _ Hget) as [_ Hid].
      apply (unique_users_update db user); trivial; [|now left].
      change (User.get (users db) (User.id user) = Some user).
      now rewrite Hid.
  - destruct (reset_user_password_cases db utcnow current_user user_id reset)
      as [(Hdb & _)|(user & new_password & _ & Hget & _ & _ & Hr)];
      cbv zeta in *.
    + now rewrite Hdb.
    + rewrite Hr. cbn [fst].
      destruct (user_get_some _ _ _ Hget) as [_ Hid].
      apply (unique_users_update db user); trivial; [|now left].
      change (User.get (users db) (User.id user) = Some user).
      now rewrite Hid.
Qed.

(** X21.  The handlers that write the users table never store a role
    other than [admin] and [sales]: the roles stay valid through
    every registration, login, account creation, update, deactivation
    and password reset. *)
Theorem roles_stay_valid (db : DB) (utcnow : Py.datetime)
    (current_user : User.t) (user_id : Z)
    (registration : option RegisterData.t) (credentials : option LoginData.t)
    (account : option UserData.t) (change : option UserData.t)
    (reset : option ResetData.t) :
  valid_roles db ->
  valid_roles (fst (register strip generate_password_hash db utcnow
                             registration))
  /\ valid_roles (fst (login strip check_password_hash create_access_token
                             db utcnow credentials))
  /\ valid_roles (fst (create_user strip lower generate_password_hash db
                                   utcnow current_user account))
  /\ valid_roles (fst (update_user strip lower db utcnow current_user
                                   user_id change))
  /\ valid_roles (fst (delete_user db utcnow current_user user_id))
  /\ valid_roles (fst (reset_user_password generate_password_hash db utcnow
                                           current_user user_id reset)).
Proof.
  unfold valid_roles. intros Hv.
  assert (Hrow : forall k user, User.get (users db) k = Some user ->
                                valid_role user).
  { intros k user Hget. destruct (user_get_some _ _ _ Hget) as [Hin _].
    exact (proj1 (Forall_forall _ _) Hv user Hin). }
  split; [|split; [|split; [|split; [|split]]]].
  - destruct (register_cases strip generate_password_hash db utcnow
                             registration)
      as [(Hdb & _)|(d & name & password & u & _ & _ & _ & _ & _ & _ & _
                     & Hu & Hr)]; cbv zeta in *.
    + now rewrite Hdb.
    + rewrite Hr. cbn [fst users add_user]. apply Forall_app.
      split; [exact Hv|]. constructor; [|constructor].
      right. now rewrite Hu.
  - destruct (login_cases strip check_password_hash create_access_token db
                          utcnow credentials)
      as [(Hdb & _)|(d & password & u & _ & _ & _ & Hfind & _ & _ & Hr)];
      cbv zeta in *.
    + now rewrite Hdb.
    + rewrite Hr. cbn [fst users update_user_row].
      apply Forall_replace_first; [|exact Hv].
      apply first_by_username_or_email_some in Hfind.
      destruct Hfind as [Hin _].
      exact (proj1 (Forall_forall _ _) Hv u Hin).
  - destruct (create_user_cases db utcnow current_user account)
      as [(Hdb & _)|(d & u & _ & _ & _ & _ & _ & Hvalid & Hr)];
      cbv zeta in *.
    + now rewrite Hdb.
    + rewrite Hr. cbn [fst users add_user]. apply Forall_app.
      split; [exact Hv|]. now constructor.
  - destruct (update_user_cases db utcnow current_user user_id change)
      as [(Hdb & _)|(d & user & user' & _ & Hget & _ & Hfields & Hr)];
      cbv zeta in *.
    + now rewrite Hdb.
    + rewrite Hr. cbn [fst users update_user_row].
      apply Forall_replace_first; [|exact Hv].
      destruct (update_user_fields_ok _ _ _ _ _ _ Hfields)
        as (_ & _ & Hvalid & _).
      exact (Hvalid (Hrow _ _ Hget)).
  - destruct (delete_user_cases db utcnow current_user user_id)
      as [(Hdb & _)|(user & _ & Hget & _ & Hr)]; cbv zeta in *.
    + now rewrite Hdb.
    + rewrite Hr. cbn [fst users update_user_row].
      apply Forall_replace_first; [|exact Hv]. exact (Hrow _ _ Hget).
  - destruct (reset_user_password_cases db utcnow current_user user_id reset)
      as [(Hdb & _)|(user & new_password & _ & Hget & _ & _ & Hr)];
      cbv zeta in *.
    + now rewrite Hdb.
    + rewrite Hr. cbn [fst users update_user_row].
      apply Forall_replace_first; [|exact Hv]. exact (Hrow _ _ Hget).
Qed.

Lemma len_filter_split {A : Type} (p : A -> bool) (l : list A) :
  len l = len (filter p l) + len (filter (fun x => negb (p x)) l).
Proof.
  unfold len. induction l as [|x l IH]; [reflexivity|].
  cbn [filter]. destruct (p x); cbn [negb List.length]; lia.
Qed.

Lemma len_filter_bounds {A : Type} (p : A -> bool) (l : list A) :
  0 <= len (filter p l) <= len l.
Proof.
  rewrite (len_filter_split p l). unfold len. lia.
Qed.

(** X22.  The figures of [GET /users/stats] add up: while the roles
    of the table are valid, the total is the number of
    administrators plus the number of sales users, it is the number
    of active plus the number of inactive accounts, and the recent
    registrations are among them. *)
Theorem user_stats_add_up (db : DB) (utcnow : Py.datetime)
    (current_user : User.t) (stats : user_stats) :
  valid_roles db ->
  reply_data (get_user_stats db utcnow current_user) = Some stats ->
  stat_total_users stats = len (users db)
  /\ stat_total_users stats
     = stat_admin_users stats + stat_sales_users stats
  /\ stat_total_users stats
     = stat_active_users stats + stat_inactive_users stats
  /\ 0 <= stat_recent_registrations stats <= stat_total_users stats.
Proof.
  unfold get_user_stats, valid_roles. intros Hv.
  destruct (User.is_admin current_user); [|discriminate].
  cbn. intros [= <-]. cbn.
  split; [reflexivity|]. split; [|split].
  - rewrite (len_filter_split (fun u => String.eqb (User.role u) "admin")
                              (users db)).
    f_equal. f_equal. apply filter_ext_in. intros u Hu.
    destruct (proj1 (Forall_forall _ _) Hv u Hu) as [H|H]; now rewrite H.
  - apply len_filter_split.
  - apply len_filter_bounds.
Qed.

(** X23.  An account that [POST /users] has just created is stored
    under the key the answer names: the administrator reads it back
    with [GET /users/<id>], [GET /users] lists it after the earlier
    accounts, and [GET /users/sales] lists it exactly when its role
    is [sales]. *)
Theorem created_user_is_retrievable (db : DB) (utcnow : Py.datetime)
    (current_user : User.t) (data : option UserData.t) (u : User.t) :
  reply_data (snd (create_user strip lower generate_password_hash db utcnow
                               current_user data))
  = Some u ->
  let db' := fst (create_user strip lower generate_password_hash db utcnow
                              current_user data) in
  get_user db' current_user (User.id u)
  = answer 200 "User retrieved successfully" u
  /\ reply_data (get_users db' current_user) = Some (users db ++ [u])
  /\ reply_data (get_sales_users db')
     = Some (match reply_data (get_sales_users db) with
             | Some earlier => earlier
             | None => []
             end
             ++ (if String.eqb (User.role u) "sales" then [u] else [])).
Proof.
  intros Hdata.
  destruct (create_user_cases db utcnow current_user data)
    as [(_ & _ & Hnone)|(d & u' & _ & Hadmin & _ & _ & Hrow & _ & Hr)];
    cbv zeta in *.
  { rewrite Hnone in Hdata. discriminate. }
  rewrite Hr in *. cbn [fst snd reply_data answer] in *.
  injection Hdata as ->.
  assert (Hid : User.id u = next_id (map User.id (users db)))
    by now rewrite Hrow.
  repeat split.
  - unfold get_user. cbn [users add_user]. unfold User.get.
    rewrite find_snoc_fresh.
    + rewrite Hadmin. reflexivity.
    + intros y Hy. apply Z.eqb_neq. rewrite Hid.
      pose proof (next_id_fresh (map User.id (users db)) (User.id y)
                                (in_map User.id _ _ Hy)).
      lia.
    + apply Z.eqb_refl.
  - unfold get_users. now rewrite Hadmin.
  - unfold get_sales_users. cbn [reply_data answer users add_user].
    rewrite filter_app. cbn [filter].
    assert (Hact : User.is_active u = true) by now rewrite Hrow.
    rewrite Hact, andb_true_r. reflexivity.
Qed.

Hypothesis check_accepts_generated :
  forall password,
    check_password_hash (generate_password_hash password) password = true.



End Accounts.

(** The administrator deactivates the account of [sample_registration]:
    its token is refused and its login, password and all, returns no
    token. *)
Lemma deactivated_account_sample :
  let db' := fst (delete_user sample_registered_db 7 sample_admin 4) in
  token_required db' (Some 4) get_profile
  = inl (refuse 401 "User not found or account is inactive")
  /\ match reply_data (snd (login ascii_strip sample_check sample_token
                                  db' 9 (Some sample_login))) with
     | Some (token, user) => User.id user <> 4
     | None => True
     end.
Proof.
  apply (deactivated_account_is_locked_out ascii_strip sample_check
           sample_token sample_registered_db 7 9 sample_admin 4
           (reply User.t) get_profile (Some sample_login)).
  - reflexivity.
  - vm_compute. repeat constructor; cbn; intuition discriminate.
Defined.

(** [sales1] asks for the role [admin]: the row keeps its role. *)
Lemma update_user_keeps_privileges_sample :
  let db' := fst (update_user ascii_strip ascii_lower sample_db 7
                              sample_sales1 2 (Some sample_promotion)) in
  map (other_user_rows (User.id sample_sales1)) (users db')
  = map (other_user_rows (User.id sample_sales1)) (users sample_db)
  /\ map user_privileges (users db') = map user_privileges (users sample_db)
  /\ business_tables db' = business_tables sample_db.
Proof.
  apply (update_user_keeps_privileges ascii_strip ascii_lower sample_db 7
           sample_sales1 2 (Some sample_promotion)).
  reflexivity.
Defined.

Lemma sample_db_unique_users : unique_users sample_db.
Proof.
  unfold unique_users. cbn.
  repeat split; repeat constructor; cbn; intuition discriminate.
Qed.

Lemma sample_db_valid_roles : valid_roles sample_db.
Proof.
  unfold valid_roles, valid_role. cbn.
  repeat (apply Forall_cons; [cbn; auto|]). apply Forall_nil.
Qed.

(** The keys of the sample users stay unique through one request to
    each of the six handlers. *)
Lemma users_stay_unique_sample :
  unique_users (fst (register ascii_strip sample_hash sample_db 7
                              (Some sample_registration)))
  /\ unique_users (fst (login ascii_strip sample_check sample_token
                              sample_db 7 (Some sample_login)))
  /\ unique_users (fst (create_user ascii_strip ascii_lower sample_hash
                                    sample_db 7 sample_admin
                                    (Some sample_account)))
  /\ unique_users (fst (update_user ascii_strip ascii_lower sample_db 7
                                    sample_admin 2 (Some sample_promotion)))
  /\ unique_users (fst (delete_user sample_db 7 sample_admin 2))
  /\ unique_users (fst (reset_user_password sample_hash sample_db 7
                                            sample_admin 2
                                            (Some (ResetData.mk
                                                     (Some "secret1"))))).
Proof.
  apply (users_stay_unique ascii_strip ascii_lower sample_hash sample_check
           sample_token sample_db 7 sample_admin 2
           (Some sample_registration) (Some sample_login)
           (Some sample_account) (Some sample_promotion)
           (Some (ResetData.mk (Some "secret1")))).
  exact sample_db_unique_users.
Defined.

(** And so do their roles, the promotion of [sales1] by the
    administrator included. *)
Lemma roles_stay_valid_sample :
  valid_roles (fst (register ascii_strip sample_hash sample_db 7
                             (Some sample_registration)))
  /\ valid_roles (fst (login ascii_strip sample_check sample_token
                             sample_db 7 (Some sample_login)))
  /\ valid_roles (fst (create_user ascii_strip ascii_lower sample_hash
                                   sample_db 7 sample_admin
                                   (Some sample_account)))
  /\ valid_roles (fst (update_user ascii_strip ascii_lower sample_db 7
                                   sample_admin 2 (Some sample_promotion)))
  /\ valid_roles (fst (delete_user sample_db 7 sample_admin 2))
  /\ valid_roles (fst (reset_user_password sample_hash sample_db 7
                                           sample_admin 2
                                           (Some (ResetData.mk
                                                    (Some "secret1"))))).
Proof.
  apply (roles_stay_valid ascii_strip ascii_lower sample_hash sample_check
           sample_token sample_db 7 sample_admin 2
           (Some sample_registration) (Some sample_login)
           (Some sample_account) (Some sample_promotion)
           (Some (ResetData.mk (Some "secret1")))).
  exact sample_db_valid_roles.
Defined.

(** One administrator and two sales users, all active. *)
Lemma user_stats_sample :
  stat_total_users (mkUserStats 3 1 2 3 0 3) = len (users sample_db)
  /\ stat_total_users (mkUserStats 3 1 2 3 0 3)
     = stat_admin_users (mkUserStats 3 1 2 3 0 3)
       + stat_sales_users (mkUserStats 3 1 2 3 0 3)
  /\ stat_total_users (mkUserStats 3 1 2 3 0 3)
     = stat_active_users (mkUserStats 3 1 2 3 0 3)
       + stat_inactive_users (mkUserStats 3 1 2 3 0 3)
  /\ 0 <= stat_recent_registrations (mkUserStats 3 1 2 3 0 3)
     <= stat_total_users (mkUserStats 3 1 2 3 0 3).
Proof.
  apply (user_stats_add_up sample_db 7 sample_admin
           (mkUserStats 3 1 2 3 0 3)).
  - exact sample_db_valid_roles.
  - reflexivity.
Defined.

(** The account [sales3], created with the role [Sales], is stored
    under key 4 with the role [sales]. *)
Lemma created_user_is_retrievable_sample :
  let db' := fst (create_user ascii_strip ascii_lower sample_hash sample_db
                              7 sample_admin (Some sample_account)) in
  get_user db' sample_admin (User.id sample_created_user)
  = answer 200 "User retrieved successfully" sample_created_user
  /\ reply_data (get_users db' sample_admin)
     = Some (users sample_db ++ [sample_created_user])
  /\ reply_data (get_sales_users db')
     = Some (match reply_data (get_sales_users sample_db) with
             | Some earlier => earlier
             | None => []
             end
             ++ (if String.eqb (User.role sample_created_user) "sales"
                 then [sample_created_user] else [])).
Proof.
  apply (created_user_is_retrievable ascii_strip ascii_lower sample_hash
           sample_db 7 sample_admin (Some sample_account)
           sample_created_user).
  reflexivity.
Defined.


(** ** The catalogue *)

Section Catalogue.

Lemma product_get_some (l : list Product.t) (k : Z) (p : Product.t) :
  Product.get l k = Some p -> In p l /\ Product.id p = k.
Proof.
  intros H. apply find_some in H. destruct H as [Hin H].
  split; [exact Hin|]. now apply Z.eqb_eq.
Qed.

Lemma create_product_cases (db : DB) (utcnow : Py.datetime)
    (current_user : User.t) (data : option ProductData.t) :
  let r := create_product db utcnow current_user data in
  (fst r = db /\ reply_success (snd r) = false /\ reply_data (snd r) = None)
  \/ exists d name price tp rpm rpo p,
       data = Some d
       /\ User.is_admin current_user = true
       /\ ProductData.item_name d = Some name
       /\ ProductData.trade_price d = Some price
       /\ first_product_named (products db) name = None
       /\ float_of_number price = Py.Ok tp
       /\ float_of_number
            (get_default (ProductData.return_price_market d)
                         (Float 0%float)) = Py.Ok rpm
       /\ float_of_number
            (get_default (ProductData.return_price_office d)
                         (Float 0%float)) = Py.Ok rpo
       /\ p = Product.mk (next_id (map Product.id (products db))) name
                         (Some (get_default (ProductData.size d) ""))
                         tp rpm rpo
                         (Some (get_default (ProductData.category d) ""))
                         (Some (get_default (ProductData.description d) ""))
                         true utcnow utcnow
       /\ r = (add_product p db, answer 201 "Product created successfully" p).
Proof.
  unfold create_product. cbv zeta. cbn [working begin committed rollback].
  destruct (User.is_admin current_user); [|left; cbn; auto].
  cbn [negb].
  destruct data as [d|]; [|left; cbn; auto].
  destruct (ProductData.item_name d) as [name|] eqn:Hname;
    [|left; cbn; auto].
  destruct (ProductData.trade_price d) as [price|] eqn:Hprice;
    [|left; cbn; auto].
  destruct (first_product_named (products db) name) eqn:Hfree;
    [left; cbn; auto|].
  destruct (float_of_number price) as [tp|e] eqn:Htp; [|left; cbn; auto].
  cbn [Py.bind].
  destruct (float_of_number
              (get_default (ProductData.return_price_market d)
                           (Float 0%float))) as [rpm|e] eqn:Hrpm;
    [|left; cbn; auto].
  cbn [Py.bind].
  destruct (float_of_number
              (get_default (ProductData.return_price_office d)
                           (Float 0%float))) as [rpo|e] eqn:Hrpo;
    [|left; cbn; auto].
  cbn [Py.bind].
  right. eexists d, name, price, tp, rpm, rpo, _.
  repeat split; try reflexivity; assumption.
Qed.

Lemma assign_float_columns {R : Type} (v : option number)
    (set : float -> R -> R) (P : R -> Prop) (r r' : R) :
  (forall x y, P y -> P (set x y)) ->
  assign_float v set r = Py.Ok r' -> P r -> P r'.
Proof.
  intros Hset. unfold assign_float. destruct v as [a|].
  - destruct (float_of_number a) as [x|e]; [|discriminate].
    cbn. intros [= <-]. apply Hset.
  - now intros [= <-].
Qed.

Lemma update_product_cases (db : DB) (utcnow : Py.datetime)
    (current_user : User.t) (product_id : Z)
    (data : option ProductData.t) :
  let r := update_product db utcnow current_user product_id data in
  (fst r = db /\ reply_success (snd r) = false /\ reply_data (snd r) = None)
  \/ exists d old new,
       data = Some d
       /\ User.is_admin current_user = true
       /\ Product.get (products db) product_id = Some old
       /\ Product.id new = Product.id old
       /\ Product.created_at new = Product.created_at old
       /\ Product.updated_at new = utcnow
       /\ Product.item_name new
          = get_default (ProductData.item_name d) (Product.item_name old)
       /\ (Product.item_name new = Product.item_name old
           \/ first_other_product_named (products db) (Product.item_name new)
                                        product_id = None)
       /\ Product.size new
          = match ProductData.size d with
            | Some v => Some v
            | None => Product.size old
            end
       /\ Product.is_active new
          = get_default (ProductData.is_active d) (Product.is_active old)
       /\ r = (update_product_row new db,
               answer 200 "Product updated successfully" new).
Proof.
  unfold update_product. cbv zeta. cbn [working begin committed rollback].
  destruct (User.is_admin current_user); [|left; cbn; auto].
  cbn [negb].
  destruct (Product.get (products db) product_id) as [old|] eqn:Hget;
    [|left; cbn; auto].
  destruct data as [d|]; [|left; cbn; auto].
  set (renamed := match ProductData.item_name d with
                  | Some name =>
                      match first_other_product_named (products db) name
                                                      product_id with
                      | Some _ => None
                      | None => Some (set_product_item_name name old)
                      end
                  | None => Some old
                  end).
  assert (Hren : forall p1, renamed = Some p1 ->
            p1 = match ProductData.item_name d with
                 | Some name => set_product_item_name name old
                 | None => old
                 end
            /\ (Product.item_name p1 = Product.item_name old
                \/ first_other_product_named (products db)
                     (Product.item_name p1) product_id = None)).
  { unfold renamed. destruct (ProductData.item_name d) as [name|].
    - destruct (first_other_product_named (products db) name product_id)
        eqn:Hother; [discriminate|].
      intros p1 [= <-]. split; [reflexivity|]. now right.
    - intros p1 [= <-]. split; [reflexivity|]. now left. }
  clearbody renamed. destruct renamed as [p1|]; [|left; cbn; auto].
  destruct (Hren p1 eq_refl) as [Hp1 Hname]. clear Hren.
  set (p2 := assign (ProductData.size d)
                    (fun v => set_product_size (Some v)) p1).
  destruct (assign_float (ProductData.trade_price d)
                         set_product_trade_price p2) as [p3|e] eqn:H3;
    [|left; cbn; auto].
  cbn [Py.bind].
  destruct (assign_float (ProductData.return_price_market d)
                         set_product_return_price_market p3)
    as [p4|e] eqn:H4; [|left; cbn; auto].
  cbn [Py.bind].
  destruct (assign_float (ProductData.return_price_office d)
                         set_product_return_price_office p4)
    as [p5|e] eqn:H5; [|left; cbn; auto].
  set (Q := fun p : Product.t =>
              (Product.id p, Product.created_at p, Product.item_name p,
               Product.size p, Product.is_active p)
              = (Product.id p2, Product.created_at p2, Product.item_name p2,
                 Product.size p2, Product.is_active p2)).
  assert (H5' : Q p5).
  { assert (Hkeep : forall set : float -> Product.t -> Product.t,
              (forall x y, Q y -> Q (set x y)) ->
              forall v r r', assign_float v set r = Py.Ok r' -> Q r -> Q r').
    { intros set Hset v r r'. now apply assign_float_columns. }
    apply (Hkeep set_product_return_price_office
                 (fun x y (H : Q y) => H) _ _ _ H5).
    apply (Hkeep set_product_return_price_market
                 (fun x y (H : Q y) => H) _ _ _ H4).
    apply (Hkeep set_product_trade_price
                 (fun x y (H : Q y) => H) _ _ _ H3).
    reflexivity. }
  unfold Q in H5'. injection H5' as Hid Hcreated Hitem Hsize Hactive.
  assert (Hp2 : Product.id p2 = Product.id old
                /\ Product.created_at p2 = Product.created_at old
                /\ Product.item_name p2 = Product.item_name p1
                /\ Product.is_active p2 = Product.is_active old
                /\ Product.size p2
                   = match ProductData.size d with
                     | Some v => Some v
                     | None => Product.size old
                     end).
  { unfold p2, assign. rewrite Hp1.
    destruct (ProductData.size d), (ProductData.item_name d); cbn; auto. }
  destruct Hp2 as (Hid2 & Hcreated2 & Hitem2 & Hactive2 & Hsize2).
  assert (Hitem1 : Product.item_name p1
                   = get_default (ProductData.item_name d)
                                 (Product.item_name old)).
  { rewrite Hp1. now destruct (ProductData.item_name d). }
  clearbody p2. clear H3 H4 H5 Q.
  set (p8 := assign (ProductData.is_active d) set_product_is_active
               (assign (ProductData.description d)
                  (fun v => set_product_description (Some v))
                  (assign (ProductData.category d)
                     (fun v => set_product_category (Some v)) p5))).
  assert (H8 : Product.id p8 = Product.id p5
               /\ Product.created_at p8 = Product.created_at p5
               /\ Product.item_name p8 = Product.item_name p5
               /\ Product.size p8 = Product.size p5
               /\ Product.is_active p8
                  = get_default (ProductData.is_active d)
                                (Product.is_active p5)).
  { unfold p8, assign.
    destruct (ProductData.is_active d), (ProductData.description d),
      (ProductData.category d); cbn; auto. }
  destruct H8 as (Hid8 & Hcreated8 & Hitem8 & Hsize8 & Hactive8).
  clearbody p8.
  right. exists d, old, (set_product_updated_at utcnow p8).
  cbn [set_product_updated_at Product.id Product.created_at
       Product.updated_at Product.item_name Product.size
       Product.is_active].
  split; [reflexivity|]. split; [reflexivity|]. split; [reflexivity|].
  split; [congruence|]. split; [congruence|]. split; [reflexivity|].
  split; [congruence|].
  split; [rewrite Hitem8, Hitem, Hitem2; exact Hname|].
  split; [congruence|].
  split; [congruence|reflexivity].
Qed.

Lemma delete_product_cases (db : DB) (utcnow : Py.datetime)
    (current_user : User.t) (product_id : Z) :
  let r := delete_product db utcnow current_user product_id in
  (fst r = db /\ reply_success (snd r) = false
   /\ reply_status (snd r) <> 200)
  \/ exists old,
       User.is_admin current_user = true
       /\ Product.get (products db) product_id = Some old
       /\ r = (update_product_row
                 (set_product_updated_at utcnow
                    (set_product_is_active false old)) db,
               mkReply 200 true "Product deleted successfully" None).
Proof.
  unfold delete_product. cbv zeta. cbn [working begin committed].
  destruct (User.is_admin current_user);
    [|left; cbn; repeat split; discriminate].
  cbn [negb].
  destruct (Product.get (products db) product_id) as [old|] eqn:Hget;
    [|left; cbn; repeat split; discriminate].
  right. exists old. repeat split.
Qed.

Lemma unique_products_update (db : DB) (old new : Product.t) :
  unique_products db ->
  Product.get (products db) (Product.id new) = Some old ->
  (Product.item_name new = Product.item_name old
   \/ first_other_product_named (products db) (Product.item_name new)
                                (Product.id new) = None) ->
  unique_products (update_product_row new db).
Proof.
  intros (Hid & Hname) Hget He. unfold unique_products.
  cbn [products update_product_row].
  destruct (product_get_some _ _ _ Hget) as [Hin Hkey].
  split.
  - rewrite (map_replace_first_found Product.id _ old new); auto.
  - apply NoDup_map_replace_by_key; trivial.
    intros y Hy Hk Heq. destruct He as [He|He].
    + apply Hk. rewrite <- Hkey. f_equal.
      apply (NoDup_map_injective Product.item_name (products db)); trivial.
      congruence.
    + apply (find_none _ _ He) in Hy. cbv beta in Hy.
      rewrite Heq, String.eqb_refl in Hy.
      apply Z.eqb_neq in Hk. now rewrite Hk in Hy.
Qed.

(** X25.  The catalogue handlers keep product keys and product names
    unique: after every creation, update and withdrawal of a product
    no two rows share a key or a name. *)
Theorem products_stay_unique (db : DB) (utcnow : Py.datetime)
    (current_user : User.t) (product_id : Z)
    (new changes : option ProductData.t) :
  unique_products db ->
  unique_products (fst (create_product db utcnow current_user new))
  /\ unique_products (fst (update_product db utcnow current_user product_id
                                          changes))
  /\ unique_products (fst (delete_product db utcnow current_user
                                          product_id)).
Proof.
  intros Hu. split; [|split].
  - destruct (create_product_cases db utcnow current_user new)
      as [(Hdb & _)|(d & name & price & tp & rpm & rpo & p & _ & _ & _ & _
                     & Hfree & _ & _ & _ & Hp & Hr)]; cbv zeta in *.
    + now rewrite Hdb.
    + rewrite Hr. cbn [fst]. destruct Hu as [Hid Hname].
      unfold unique_products. cbn [products add_product].
      rewrite !map_app. cbn [map]. split.
      * replace (Product.id p) with (next_id (map Product.id (products db)))
          by now rewrite Hp.
        now apply NoDup_snoc_fresh.
      * apply NoDup_snoc; [exact Hname|].
        apply find_none_not_in. now rewrite Hp.
  - destruct (update_product_cases db utcnow current_user product_id changes)
      as [(Hdb & _)|(d & old & p & _ & _ & Hget & Hid & _ & _ & _ & Hname
                     & _ & _ & Hr)]; cbv zeta in *.
    + now rewrite Hdb.
    + rewrite Hr. cbn [fst].
      destruct (product_get_some _ _ _ Hget) as [_ Hkey].
      apply (unique_products_update db old); trivial.
      * now rewrite Hid, Hkey.
      * now rewrite Hid, Hkey.
  - destruct (delete_product_cases db utcnow current_user product_id)
      as [(Hdb & _)|(old & _ & Hget & Hr)]; cbv zeta in *.
    + now rewrite Hdb.
    + rewrite Hr. cbn [fst].
      destruct (product_get_some _ _ _ Hget) as [_ Hkey].
      apply (unique_products_update db old); trivial; [|now left].
      change (Product.get (products db) (Product.id old) = Some old).
      now rewrite Hkey.
Qed.

(** X26.  A product that [POST /products] has just created is stored
    under the key the answer names: [GET /products/<id>] reads it
    back, and [GET /products] lists it after the products listed
    before. *)
Theorem created_product_is_retrievable (db : DB) (utcnow : Py.datetime)
    (current_user : User.t) (data : option ProductData.t) (p : Product.t) :
  reply_data (snd (create_product db utcnow current_user data)) = Some p ->
  let db' := fst (create_product db utcnow current_user data) in
  get_product db' (Product.id p)
  = answer 200 "Product retrieved successfully" p
  /\ reply_data (get_all_products db')
     = Some (match reply_data (get_all_products db) with
             | Some earlier => earlier
             | None => []
             end ++ [p]).
Proof.
  intros Hdata.
  destruct (create_product_cases db utcnow current_user data)
    as [(_ & _ & Hnone)|(d & name & price & tp & rpm & rpo & p' & _ & _ & _
                         & _ & _ & _ & _ & _ & Hp & Hr)]; cbv zeta in *.
  { rewrite Hnone in Hdata. discriminate. }
  rewrite Hr in *. cbn [fst snd reply_data answer] in *.
  injection Hdata as ->.
  assert (Hid : Product.id p = next_id (map Product.id (products db)))
    by now rewrite Hp.
  split.
  - unfold get_product, Product.get. cbn [products add_product].
    rewrite find_snoc_fresh; [reflexivity| |apply Z.eqb_refl].
    intros y Hy. apply Z.eqb_neq. rewrite Hid.
    pose proof (next_id_fresh (map Product.id (products db)) (Product.id y)
                              (in_map Product.id _ _ Hy)).
    lia.
  - unfold get_all_products. cbn [reply_data answer products add_product].
    rewrite filter_app. cbn [filter].
    assert (Hact : Product.is_active p = true) by now rewrite Hp.
    now rewrite Hact.
Qed.

Lemma filter_replace_withdrawn (l : list Product.t) (k : Z)
    (old new : Product.t) :
  NoDup (map Product.id l) ->
  Product.get l k = Some old ->
  Product.is_active new = false ->
  filter Product.is_active
         (replace_first (fun x => Product.id x =? k) new l)
  = filter (fun p => Product.is_active p && negb (Product.id p =? k)) l.
Proof.
  unfold Product.get. intros Hnd Hget Hnew.
  induction l as [|x l IH]; [reflexivity|].
  cbn [map] in Hnd. inversion Hnd as [|? ? Hx Hnd']; subst.
  cbn [find replace_first filter] in *.
  destruct (Z.eqb_spec (Product.id x) k) as [He|He].
  - cbn [filter]. rewrite Hnew, andb_false_r. apply filter_ext_in.
    intros y Hy. destruct (Z.eqb_spec (Product.id y) k) as [Hk|Hk].
    + exfalso. apply Hx. rewrite He, <- Hk. now apply in_map.
    + now rewrite andb_true_r.
  - cbn [filter negb]. rewrite andb_true_r.
    destruct (Product.is_active x); [f_equal|]; now apply IH.
Qed.

(** X27.  [DELETE /products/<id>] withdraws the product and deletes
    nothing: every row keeps its place and all its columns but
    [is_active] and [updated_at], the other products and the other
    tables (stock records and order items of the product included)
    are left as they were. *)
Theorem delete_product_is_a_soft_delete (db : DB) (utcnow : Py.datetime)
    (current_user : User.t) (product_id : Z) :
  let db' := fst (delete_product db utcnow current_user product_id) in
  map product_without_activity (products db')
  = map product_without_activity (products db)
  /\ map (other_product_rows product_id) (products db')
     = map (other_product_rows product_id) (products db)
  /\ users db' = users db
  /\ inventory db' = inventory db
  /\ orders db' = orders db
  /\ order_items db' = order_items db.
Proof.
  destruct (delete_product_cases db utcnow current_user product_id)
    as [(Hdb & _)|(old & _ & Hget & Hr)]; cbv zeta.
  { rewrite Hdb. auto 7. }
  rewrite Hr. cbn [fst].
  destruct (product_get_some _ _ _ Hget) as [_ Hid].
  set (new := set_product_updated_at utcnow
                (set_product_is_active false old)).
  assert (Hfind : find (fun x => Product.id x =? Product.id new)
                       (products db) = Some old).
  { change (Product.id new) with (Product.id old). now rewrite Hid. }
  cbn [users products inventory orders order_items update_product_row].
  split; [|split; [|auto]].
  - now apply (map_replace_first_found _ _ old).
  - apply (map_replace_first_found _ _ old); [exact Hfind|].
    unfold other_product_rows. change (Product.id new) with (Product.id old).
    now rewrite Hid, Z.eqb_refl.
Qed.

(** X28.  A withdrawn product can no longer be ordered: once [DELETE
    /products/<id>] has answered 200, [GET /products/<id>] still
    returns the product, now inactive, [GET /products] lists the
    active products without it, and every order that names it in one
    of its lines is refused and leaves the database as it was. *)
Theorem withdrawn_product_cannot_be_ordered (db : DB)
    (utcnow utcnow' : Py.datetime) (admin current_user : User.t)
    (product_id : Z) (d : OrderData.t) (lines : list ItemData.t)
    (line : ItemData.t) :
  reply_status (snd (delete_product db utcnow admin product_id)) = 200 ->
  NoDup (map Product.id (products db)) ->
  OrderData.items d = Some lines ->
  In line lines ->
  ItemData.product_id line = Some product_id ->
  let db' := fst (delete_product db utcnow admin product_id) in
  (exists p,
     get_product db' product_id
     = answer 200 "Product retrieved successfully" p
     /\ Product.is_active p = false)
  /\ reply_data (get_all_products db')
     = Some (filter (fun p => Product.is_active p
                              && negb (Product.id p =? product_id))
                    (products db))
  /\ fst (create_order db' utcnow' current_user (Some d)) = db'
  /\ success (snd (create_order db' utcnow' current_user (Some d))) = false.
Proof.
  intros Hok Hnd Hitems Hin Hline.
  destruct (delete_product_cases db utcnow admin product_id)
    as [(_ & _ & Hno)|(old & _ & Hget & Hr)]; cbv zeta in *;
    [contradiction|].
  rewrite Hr. cbn [fst].
  destruct (product_get_some _ _ _ Hget) as [_ Hid].
  set (new := set_product_updated_at utcnow
                (set_product_is_active false old)).
  set (db' := update_product_row new db).
  assert (Hget' : Product.get (products db') product_id = Some new).
  { unfold db'. cbn [products update_product_row].
    change (Product.id new) with (Product.id old). rewrite Hid.
    apply (find_replace_first _ old); [exact Hget|].
    cbv beta. change (Product.id new) with (Product.id old).
    rewrite Hid. apply Z.eqb_refl. }
  split; [|split].
  - exists new. unfold get_product. rewrite Hget'. now split.
  - unfold get_all_products, db'.
    cbn [reply_data answer products update_product_row].
    change (Product.id new) with (Product.id old). rewrite Hid.
    f_equal. now apply (filter_replace_withdrawn _ _ old).
  - destruct (create_order db' utcnow' current_user (Some d))
      as [db'' resp] eqn:Hcreate.
    destruct (create_order_outcome _ _ _ _ _ _ Hcreate)
      as [(Hdb & Hs & _)
         |(d' & lines' & order & items & Hd & Hitems' & _ & _ & Hall & _)].
    + now split.
    + exfalso. injection Hd as <-.
      rewrite Hitems in Hitems'. injection Hitems' as <-.
      destruct (Forall2_in_left _ _ _ _ Hall Hin)
        as (it & _ & q & Hpid & _ & Hq & Hactive & _).
      rewrite Hline in Hpid. injection Hpid as Hpid.
      rewrite <- Hpid, Hget' in Hq. injection Hq as <-.
      discriminate.
Qed.

End Catalogue.

Lemma sample_db_unique_products : unique_products sample_db.
Proof.
  unfold unique_products. cbn.
  split; repeat constructor; cbn; intuition discriminate.
Qed.

(** The names of the sample catalogue stay distinct through a
    creation, a change of name and a withdrawal. *)
Lemma products_stay_unique_sample :
  unique_products (fst (create_product sample_db 7 sample_admin
                                       (Some sample_new_product)))
  /\ unique_products (fst (update_product sample_db 7 sample_admin 2
                                          (Some sample_product_change)))
  /\ unique_products (fst (delete_product sample_db 7 sample_admin 2)).
Proof.
  apply (products_stay_unique sample_db 7 sample_admin 2
           (Some sample_new_product) (Some sample_product_change)).
  exact sample_db_unique_products.
Defined.

(** The toothpaste, priced at the integer 85, is stored under key 4
    at 85.0. *)
Lemma created_product_is_retrievable_sample :
  let db' := fst (create_product sample_db 7 sample_admin
                                 (Some sample_new_product)) in
  get_product db' (Product.id sample_created_product)
  = answer 200 "Product retrieved successfully" sample_created_product
  /\ reply_data (get_all_products db')
     = Some (match reply_data (get_all_products sample_db) with
             | Some earlier => earlier
             | None => []
             end ++ [sample_created_product]).
Proof.
  apply (created_product_is_retrievable sample_db 7 sample_admin
           (Some sample_new_product) sample_created_product).
  reflexivity.
Defined.

(** Product 1 is withdrawn; an order for product 2 and product 1 is
    then refused. *)
Lemma withdrawn_product_sample :
  let db' := fst (delete_product sample_db 7 sample_admin 1) in
  let d := sample_request [order_line 2 1; order_line 1 2] in
  (exists p,
     get_product db' 1 = answer 200 "Product retrieved successfully" p
     /\ Product.is_active p = false)
  /\ reply_data (get_all_products db')
     = Some (filter (fun p => Product.is_active p
                              && negb (Product.id p =? 1))
                    (products sample_db))
  /\ fst (create_order db' 9 sample_sales1 (Some d)) = db'
  /\ success (snd (create_order db' 9 sample_sales1 (Some d))) = false.
Proof.
  apply (withdrawn_product_cannot_be_ordered sample_db 7 9 sample_admin
           sample_sales1 1
           (sample_request [order_line 2 1; order_line 1 2])
           [order_line 2 1; order_line 1 2] (order_line 1 2)).
  - reflexivity.
  - vm_compute. repeat constructor; cbn; intuition discriminate.
  - reflexivity.
  - right. now left.
  - reflexivity.
Defined.

(** ** What a sales user can change *)

Section SalesReach.

Variable strptime_date : string -> option Py.date.
Variable strip : string -> string.
Variable lower : string -> string.
Variable generate_password_hash : string -> string.

Lemma outside_sales_reach_refl (current_user : User.t) (db : DB) :
  outside_sales_reach current_user db db.
Proof. unfold outside_sales_reach. auto. Qed.

(** X29.  Whatever a caller who is not an administrator sends to the
    handlers that write, the catalogue and the stock records stay as
    they were and so do the accounts of the others: orders are the
    only business rows such a caller creates or changes. *)
Theorem sales_user_reach (db : DB) (utcnow utcnow' : Py.datetime)
    (today : Py.date) (current_user : User.t) (key : Z)
    (order : option OrderData.t) (status : option StatusData.t)
    (count : option InventoryData.t) (product : option ProductData.t)
    (account : option UserData.t) (reset : option ResetData.t) :
  User.is_admin current_user = false ->
  outside_sales_reach current_user db
    (fst (create_order db utcnow current_user order))
  /\ outside_sales_reach current_user db
       (fst (update_order_status db utcnow utcnow' current_user key status))
  /\ outside_sales_reach current_user db
       (fst (create_inventory_record strptime_date db utcnow today
                                     current_user count))
  /\ outside_sales_reach current_user db
       (fst (update_inventory_record db utcnow current_user key count))
  /\ outside_sales_reach current_user db
       (fst (create_product db utcnow current_user product))
  /\ outside_sales_reach current_user db
       (fst (update_product db utcnow current_user key product))
  /\ outside_sales_reach current_user db
       (fst (delete_product db utcnow current_user key))
  /\ outside_sales_reach current_user db
       (fst (create_user strip lower generate_password_hash db utcnow
                         current_user account))
  /\ outside_sales_reach current_user db
       (fst (update_user strip lower db utcnow current_user key account))
  /\ outside_sales_reach current_user db
       (fst (delete_user db utcnow current_user key))
  /\ outside_sales_reach current_user db
       (fst (reset_user_password generate_password_hash db utcnow
                                 current_user key reset)).
Proof.
  intros Hsales.
  pose proof (outside_sales_reach_refl current_user db) as Hrefl.
  repeat match goal with |- _ /\ _ => split end.
  - destruct (create_order db utcnow current_user order) as [db' resp]
      eqn:Hcreate.
    destruct (create_order_outcome _ _ _ _ _ _ Hcreate)
      as [(-> & _)|(d & lines & o & items & _ & _ & _ & -> & _)];
      [exact Hrefl|].
    unfold outside_sales_reach. cbn. auto.
  - destruct (update_order_status_outcome db utcnow utcnow' current_user key
                                          status)
      as [(Hdb & _)|(o & new_status & _ & _ & _ & _ & Hdb & _)];
      cbv zeta in *; rewrite Hdb; [exact Hrefl|].
    unfold outside_sales_reach. cbn. auto.
  - unfold create_inventory_record. rewrite Hsales. exact Hrefl.
  - unfold update_inventory_record. rewrite Hsales. exact Hrefl.
  - destruct (create_product_cases db utcnow current_user product)
      as [(Hdb & _)|(d & name & price & tp & rpm & rpo & p & _ & Hadmin & _)];
      cbv zeta in *; [now rewrite Hdb|congruence].
  - destruct (update_product_cases db utcnow current_user key product)
      as [(Hdb & _)|(d & old & p & _ & Hadmin & _)];
      cbv zeta in *; [now rewrite Hdb|congruence].
  - destruct (delete_product_cases db utcnow current_user key)
      as [(Hdb & _)|(old & Hadmin & _)];
      cbv zeta in *; [now rewrite Hdb|congruence].
  - destruct (create_user_cases strip lower generate_password_hash db utcnow
                                current_user account)
      as [(Hdb & _)|(d & u & _ & Hadmin & _)];
      cbv zeta in *; [now rewrite Hdb|congruence].
  - destruct (update_user_cases strip lower db utcnow current_user key
                                account)
      as [(Hdb & _)|(d & user & user' & _ & Hget & Hperm & Hfields & Hr)];
      cbv zeta in *; [now rewrite Hdb|].
    rewrite Hr. cbn [fst]. rewrite Hsales in Hperm.
    destruct Hperm as [Hperm|Hperm]; [discriminate|].
    destruct (user_get_some _ _ _ Hget) as [_ Hid].
    destruct (update_user_fields_ok _ _ _ _ _ _ _ _ Hfields)
      as (Hsame & _).
    injection Hsame as Hid' _ _ _ _ _.
    unfold outside_sales_reach.
    cbn [users products inventory update_user_row].
    split; [reflexivity|]. split; [reflexivity|].
    apply (map_replace_first_found _ _ user).
    + change (User.id (set_user_updated_at utcnow user'))
        with (User.id user').
      now rewrite Hid', Hid.
    + unfold other_user_rows.
      change (User.id (set_user_updated_at utcnow user'))
        with (User.id user').
      now rewrite Hid', Hid, Hperm, Z.eqb_refl.
  - destruct (delete_user_cases db utcnow current_user key)
      as [(Hdb & _)|(user & Hadmin & _)];
      cbv zeta in *; [now rewrite Hdb|congruence].
  - destruct (reset_user_password_cases generate_password_hash db utcnow
                                        current_user key reset)
      as [(Hdb & _)|(user & new_password & Hadmin & _)];
      cbv zeta in *; [now rewrite Hdb|congruence].
Qed.

End SalesReach.

(** [sales1] places an order and tries every other handler. *)
Lemma sales_user_reach_sample :
  outside_sales_reach sample_sales1 sample_db
    (fst (create_order sample_db 7 sample_sales1
            (Some (sample_request [order_line 1 2; order_line 2 1]))))
  /\ outside_sales_reach sample_sales1 sample_db
       (fst (update_order_status sample_db 7 8 sample_sales1 1
                                 (set_status_to "delivered")))
  /\ outside_sales_reach sample_sales1 sample_db
       (fst (create_inventory_record sample_strptime sample_db 7
               (Py.mkdate 2024 7 21) sample_sales1 (Some sample_new_count)))
  /\ outside_sales_reach sample_sales1 sample_db
       (fst (update_inventory_record sample_db 7 sample_sales1 1
                                     (Some sample_new_count)))
  /\ outside_sales_reach sample_sales1 sample_db
       (fst (create_product sample_db 7 sample_sales1
                            (Some sample_new_product)))
  /\ outside_sales_reach sample_sales1 sample_db
       (fst (update_product sample_db 7 sample_sales1 1
                            (Some sample_new_product)))
  /\ outside_sales_reach sample_sales1 sample_db
       (fst (delete_product sample_db 7 sample_sales1 1))
  /\ outside_sales_reach sample_sales1 sample_db
       (fst (create_user ascii_strip ascii_lower sample_hash sample_db 7
                         sample_sales1 (Some sample_promotion)))
  /\ outside_sales_reach sample_sales1 sample_db
       (fst (update_user ascii_strip ascii_lower sample_db 7 sample_sales1 1
                         (Some sample_promotion)))
  /\ outside_sales_reach sample_sales1 sample_db
       (fst (delete_user sample_db 7 sample_sales1 1))
  /\ outside_sales_reach sample_sales1 sample_db
       (fst (reset_user_password sample_hash sample_db 7 sample_sales1 1
                                 None)).
Proof.
  apply (sales_user_reach sample_strptime ascii_strip ascii_lower sample_hash
           sample_db 7 8 (Py.mkdate 2024 7 21) sample_sales1 1
           (Some (sample_request [order_line 1 2; order_line 2 1]))
           (set_status_to "delivered") (Some sample_new_count)
           (Some sample_new_product) (Some sample_promotion) None).
  reflexivity.
Defined.

(** ** The sample products *)

Section SampleProducts.

Lemma find_app_found {A : Type} (p : A -> bool) (l l' : list A) :
  find p (l ++ l')
  = match find p l with
    | Some x => Some x
    | None => find p l'
    end.
Proof.
  induction l as [|x l IH]; [reflexivity|].
  cbn. now destruct (p x).
Qed.

Lemma first_product_named_app (l l' : list Product.t) (name : string) :
  first_product_named l name <> None ->
  first_product_named (l ++ l') name <> None.
Proof.
  unfold first_product_named. intros H. rewrite find_app_found.
  now destruct (find _ l).
Qed.

Lemma add_missing_products_cases (utcnow : Py.datetime)
    (entries : list ProductSeed.t) :
  forall s,
    exists added,
      add_missing_products utcnow entries s
      = mkSession (committed s)
                  (mkDB (users (working s)) (products (working s) ++ added)
                        (inventory (working s)) (orders (working s))
                        (order_items (working s)))
      /\ (forall e, In e entries ->
            first_product_named (products (working s) ++ added)
                                (ProductSeed.item_name e) <> None)
      /\ ((forall e, In e entries ->
             first_product_named (products (working s))
                                 (ProductSeed.item_name e) <> None) ->
          added = [])
      /\ (unique_products (working s) ->
          NoDup (map Product.id (products (working s) ++ added))
          /\ NoDup (map Product.item_name (products (working s) ++ added))).
Proof.
  induction entries as [|e entries IH]; intros s.
  - exists []. rewrite app_nil_r. cbn [add_missing_products].
    repeat split; try tauto.
    + destruct s as [c w]. cbn. now rewrite db_eta.
    + apply H.
    + apply H.
  - cbn [add_missing_products].
    destruct (first_product_named (products (working s))
                                  (ProductSeed.item_name e)) as [p|] eqn:He.
    + destruct (IH s) as (added & Hrun & Hall & Hnone & Huniq).
      exists added. split; [exact Hrun|]. split; [|split].
      * intros e' [<-|Hin]; [|now apply Hall].
        apply first_product_named_app. now rewrite He.
      * intros Hpresent. apply Hnone. intros e' Hin. apply Hpresent.
        now right.
      * exact Huniq.
    + set (product := Product.mk _ _ _ _ _ _ _ _ _ _ _).
      destruct (IH (with_working (add_product product) s))
        as (added & Hrun & Hall & _ & Huniq).
      cbn [working committed with_working add_product users products
           inventory orders order_items] in Hrun, Hall, Huniq.
      exists (product :: added).
      replace (products (working s) ++ product :: added)
        with ((products (working s) ++ [product]) ++ added)
        by now rewrite <- app_assoc.
      split; [exact Hrun|]. split; [|split].
      * intros e' [<-|Hin]; [|now apply Hall].
        apply first_product_named_app. unfold first_product_named.
        rewrite find_app_found.
        fold (first_product_named (products (working s))
                                  (ProductSeed.item_name e)).
        rewrite He. cbn. now rewrite String.eqb_refl.
      * intros Hpresent. exfalso. apply (Hpresent e); [now left|exact He].
      * intros [Hid Hname]. apply Huniq. unfold unique_products.
        cbn [products add_product working with_working].
        rewrite !map_app. cbn [map]. split.
        -- now apply NoDup_snoc_fresh.
        -- apply NoDup_snoc; [exact Hname|].
           apply find_none_not_in. exact He.
Qed.

(** X30.  [Product.create_sample_products] only adds: the rows the
    table held stay in their places in front of the added ones and
    the other tables are left alone, each of the three sample names
    is in the table afterwards, a second run adds nothing, and keys
    and names that were unique stay unique. *)
Theorem create_sample_products_is_idempotent (db : DB)
    (utcnow utcnow' : Py.datetime) :
  let db' := create_sample_products db utcnow in
  (exists added, products db' = products db ++ added)
  /\ (users db', inventory db', orders db', order_items db')
     = (users db, inventory db, orders db, order_items db)
  /\ Forall (fun e => first_product_named (products db')
                                          (ProductSeed.item_name e) <> None)
            ProductSeed.sample_products
  /\ create_sample_products db' utcnow' = db'
  /\ (unique_products db -> unique_products db').
Proof.
  unfold create_sample_products. cbv zeta.
  destruct (add_missing_products_cases utcnow ProductSeed.sample_products
                                       (begin db))
    as (added & Hrun & Hall & _ & Huniq).
  rewrite Hrun. cbn [commit committed working begin users products
                     inventory orders order_items] in *.
  split; [now exists added|]. split; [reflexivity|]. split; [|split].
  - apply Forall_forall. exact Hall.
  - destruct (add_missing_products_cases utcnow'
                ProductSeed.sample_products
                (begin (mkDB (users db) (products db ++ added)
                             (inventory db) (orders db) (order_items db))))
      as (added' & Hrun' & _ & Hnone & _).
    rewrite Hrun'. cbn [commit committed working begin users products
                        inventory orders order_items] in *.
    rewrite (Hnone Hall). now rewrite app_nil_r.
  - exact Huniq.
Qed.

End SampleProducts.
